(** * ipyvolume.embed: exporting widgets to a standalone HTML page

    A shallow embedding of [ipyvolume/embed.py].  The module is glue code:
    it computes paths with [os.path], fetches assets over HTTP, copies and
    renames files, and fills an HTML template with [str.format].  The
    development therefore models

    - byte strings and the [posixpath] functions the module calls,
    - a file system (a finite map from absolute paths to nodes) together
      with a chronological trace of the effects a call performs,
    - Python exceptions as an error monad over that state,
    - the field scanner of [str.format] and its rendering of named
      placeholders,

    and then the five functions of the module, statement by statement. *)

From Stdlib Require Import Ascii String List Bool Arith Lia NArith.
From stdpp Require Import base option list strings gmap fin_maps.

Local Open Scope string_scope.
Local Open Scope list_scope.

(** ** Byte strings

    Python [str] values are modelled by Rocq strings; only the operations
    used by [posixpath] and by the module are defined. *)

Module Str.

Definition sep : ascii := "/"%char.
Definition dquote : string := String "034"%char EmptyString.
Definition nl : string := String "010"%char EmptyString.

(** [s.startswith(p)] *)
Fixpoint startswith (p s : string) : bool :=
  match p, s with
  | EmptyString, _ => true
  | String _ _, EmptyString => false
  | String a p', String b s' => Ascii.eqb a b && startswith p' s'
  end.

(** [s.endswith('/')] *)
Fixpoint endswith_sep (s : string) : bool :=
  match s with
  | EmptyString => false
  | String c EmptyString => Ascii.eqb c sep
  | String _ s' => endswith_sep s'
  end.

(** [s.split('/')]: never empty, [''.split('/') == ['']]. *)
Fixpoint split_sep (s : string) : list string :=
  match s with
  | EmptyString => [EmptyString]
  | String c s' =>
      if Ascii.eqb c sep then EmptyString :: split_sep s'
      else match split_sep s' with
           | [] => [String c EmptyString]
           | h :: t => String c h :: t
           end
  end.

(** ['/'.join(l)] *)
Fixpoint join_sep (l : list string) : string :=
  match l with
  | [] => EmptyString
  | [x] => x
  | x :: l' => x +:+ "/" +:+ join_sep l'
  end.

(** [(s[:i], s[i:])] with [i = s.rfind('/') + 1]. *)
Fixpoint rsplit_sep (s : string) : string * string :=
  match s with
  | EmptyString => (EmptyString, EmptyString)
  | String c s' =>
      match rsplit_sep s' with
      | (EmptyString, _) =>
          if Ascii.eqb c sep then ("/", s') else (EmptyString, String c s')
      | (h, t) => (String c h, t)
      end
  end.

(** [s.rstrip('/')] *)
Fixpoint rstrip_sep (s : string) : string :=
  match s with
  | EmptyString => EmptyString
  | String c s' =>
      match rstrip_sep s' with
      | EmptyString => if Ascii.eqb c sep then EmptyString else String c EmptyString
      | r => String c r
      end
  end.

(** [s == '/' * len(s)] *)
Fixpoint all_sep (s : string) : bool :=
  match s with
  | EmptyString => true
  | String c s' => Ascii.eqb c sep && all_sep s'
  end.

(** No [/] occurs in [s]. *)
Fixpoint slash_free (s : string) : bool :=
  match s with
  | EmptyString => true
  | String c s' => negb (Ascii.eqb c sep) && slash_free s'
  end.

(** [s] can be a component of a normalised path: not empty, no [/],
    not [.]. *)
Definition is_comp (s : string) : bool :=
  slash_free s && negb (String.eqb s "") && negb (String.eqb s ".").

(** [s] can name a directory entry: not empty, no [/], neither [.]
    nor [..]. *)
Definition is_name (s : string) : bool :=
  slash_free s && negb (String.eqb s "") && negb (String.eqb s ".")
  && negb (String.eqb s "..").

(** [s[1:]] *)
Definition tail (s : string) : string :=
  match s with
  | EmptyString => EmptyString
  | String _ s' => s'
  end.

End Str.

(** ** [posixpath]

    The functions of [os.path] that the module calls, after CPython's
    [posixpath.py].  [cwd] stands for [os.getcwd()]. *)

Module PosixPath.
Import Str.

Definition isabs (p : string) : bool := startswith "/" p.

(** [os.path.join(a, b)] *)
Definition join (a b : string) : string :=
  if startswith "/" b then b
  else if (String.eqb a "" || endswith_sep a)%bool then a +:+ b
  else a +:+ "/" +:+ b.

(** [os.path.join(a, b, c, ...)] *)
Definition join_all (a : string) (ps : list string) : string :=
  fold_left join ps a.

Definition dirname (p : string) : string :=
  let head := fst (rsplit_sep p) in
  if (negb (String.eqb head "") && negb (all_sep head))%bool
  then rstrip_sep head else head.

Definition basename (p : string) : string := snd (rsplit_sep p).

(** The loop of [normpath] over the components. [acc] holds
    [new_comps] in reverse. *)
Fixpoint norm_comps (initial_slashes : bool) (comps acc : list string)
  : list string :=
  match comps with
  | [] => rev acc
  | comp :: rest =>
      if (String.eqb comp "" || String.eqb comp ".")%bool
      then norm_comps initial_slashes rest acc
      else if negb (String.eqb comp "..")
        then norm_comps initial_slashes rest (comp :: acc)
      else match acc with
           | [] => if initial_slashes
                   then norm_comps initial_slashes rest acc
                   else norm_comps initial_slashes rest (comp :: acc)
           | last :: acc' =>
               if String.eqb last ".."
               then norm_comps initial_slashes rest (comp :: acc)
               else norm_comps initial_slashes rest acc'
           end
  end.

(** The number of leading slashes [normpath] keeps: POSIX lets exactly
    two mean something else than one. *)
Definition initial_slashes (path : string) : nat :=
  if startswith "/" path then
    if (startswith "//" path && negb (startswith "///" path))%bool
    then 2 else 1
  else 0.

Definition root_of (n : nat) : string :=
  match n with
  | 0 => ""
  | 1 => "/"
  | _ => "//"
  end.

Definition normpath (path : string) : string :=
  if String.eqb path "" then "."
  else
    let n := initial_slashes path in
    let comps := norm_comps (negb (Nat.eqb n 0)) (split_sep path) [] in
    let p := root_of n +:+ join_sep comps in
    if String.eqb p "" then "." else p.

Section WithCwd.
Variable cwd : string.

Definition abspath (path : string) : string :=
  normpath (if isabs path then path else join cwd path).

(** The non-empty components of an absolute path. *)
Definition components (abs : string) : list string :=
  filter (fun x => x <> "") (split_sep abs).

(** [len(os.path.commonprefix([l1, l2]))] on two component lists. *)
Fixpoint common_len (l1 l2 : list string) : nat :=
  match l1, l2 with
  | x :: l1', y :: l2' => if String.eqb x y then S (common_len l1' l2') else 0
  | _, _ => 0
  end.

(** [os.path.relpath(path, start)]; [None] is its
    [ValueError("no path specified")]. *)
Definition relpath (path start : string) : option string :=
  if String.eqb path "" then None
  else
    let start_list := components (abspath start) in
    let path_list := components (abspath path) in
    let i := common_len start_list path_list in
    let rel_list := replicate (length start_list - i) ".." ++ drop i path_list in
    match rel_list with
    | [] => Some "."
    | x :: l => Some (join_all x l)
    end.
End WithCwd.

End PosixPath.

Import Str PosixPath.

(** ** Exceptions, the world, and the effect monad *)

Inductive exn : Type :=
| ValueError (msg : string)
| IOError (msg : string)
| KeyError (key : string)
| IndexError (msg : string)
| UnboundLocalError (var : string)
| FileNotFoundError (path : string)
| FileExistsError (path : string)
| IsADirectoryError (path : string)
| NotADirectoryError (path : string)
| SameFileError (path : string)
| OSError (msg : string)
| URLError (url : string)
| ExternalError (cls msg : string).

(** [str(err)], as interpolated by [format] into a message. *)
Definition exn_str (e : exn) : string :=
  match e with
  | ValueError m | IOError m | IndexError m | OSError m => m
  | KeyError k => "'" +:+ k +:+ "'"
  | UnboundLocalError v =>
      "local variable '" +:+ v +:+ "' referenced before assignment"
  | FileNotFoundError p => "[Errno 2] No such file or directory: '" +:+ p +:+ "'"
  | FileExistsError p => "[Errno 17] File exists: '" +:+ p +:+ "'"
  | IsADirectoryError p => "[Errno 21] Is a directory: '" +:+ p +:+ "'"
  | NotADirectoryError p => "[Errno 20] Not a directory: '" +:+ p +:+ "'"
  | SameFileError p => p
  | URLError u => u
  | ExternalError _ m => m
  end.

Inductive result (A : Type) : Type :=
| Ok (a : A)
| Raise (e : exn).
Arguments Ok {A} a.
Arguments Raise {A} e.

(** A node of the file system: a directory or a regular file with its
    bytes. Keys of the map are normalised absolute paths. *)
Inductive node : Type :=
| Dir
| File (content : string).

#[global] Instance node_eq_dec : EqDecision node.
Proof. solve_decision. Defined.

(** What a call does to its environment, in the order it does it. *)
Inductive event : Type :=
| NetGet (url : string)
| MakeDirs (path : string)
| WriteFile (path : string)
| CopyFile (src dst : string)
| Rename (src dst : string)
| ExtractDir (path : string)
| ExtractFile (path : string).

Record world : Type := World {
  fs : gmap string node;
  trace : list event
}.

Definition is_net (e : event) : bool :=
  match e with NetGet _ => true | _ => false end.

(** The number of HTTP requests in a trace. *)
Definition requests (t : list event) : nat := length (List.filter is_net t).

Definition M (A : Type) : Type := world -> result A * world.

#[global] Instance M_ret : MRet M := fun A a w => (Ok a, w).
#[global] Instance M_bind : MBind M := fun A B f m w =>
  match m w with
  | (Ok a, w') => f a w'
  | (Raise e, w') => (Raise e, w')
  end.

Definition raise {A} (e : exn) : M A := fun w => (Raise e, w).

(** [try: body  except Exception as err: handler(err)] *)
Definition try_except {A} (body : M A) (handler : exn -> M A) : M A :=
  fun w => match body w with
           | (Raise e, w') => handler e w'
           | r => r
           end.

Definition get_fs : M (gmap string node) := fun w => (Ok (fs w), w).
Definition put_fs (f : gmap string node) : M unit :=
  fun w => (Ok tt, World f (trace w)).
Definition emit (e : event) : M unit :=
  fun w => (Ok tt, World (fs w) (trace w ++ [e])).

(** Reading a local variable that an earlier branch may not have bound. *)
Definition load_local {A} (name : string) (v : option A) : M A :=
  match v with
  | Some a => mret a
  | None => raise (UnboundLocalError name)
  end.

(** ** The operating system

    [cwd] is the working directory and [net] the remote side: the body and
    the encoding a URL answers with, or [None] when the request fails.
    Paths are resolved lexically (no symbolic links); the empty path names
    nothing.  The system refuses an operation only for a missing or
    misplaced path, never for lack of permission.  A path below a regular
    file is refused as the system does, with "not a directory" where a
    path that is merely absent gives "no such file": what decides is the
    nearest entry above the path.  The process runs in [cwd]: the working
    directory and the directories above it are directories, whatever the
    map holds for them. *)

Section OS.
Variable cwd : string.
Variable net : string -> option (string * string).

Definition resolve (p : string) : option string :=
  if String.eqb p "" then None else Some (abspath cwd p).

Definition lookup_path (f : gmap string node) (p : string) : option node :=
  a ← resolve p; f !! a.

(** [os.path.exists(p)] *)
Definition path_exists (p : string) : M bool :=
  f ← get_fs; mret (bool_decide (is_Some (lookup_path f p))).

(** [os.path.isdir(p)] *)
Definition path_isdir (p : string) : M bool :=
  f ← get_fs; mret (bool_decide (lookup_path f p = Some Dir)).

(** An absolute path with all the directories above it, root first. *)
Definition ancestors (a : string) : list string :=
  let cs := components a in
  let root := if Str.startswith "//" a then "//" else "/" in
  map (fun k => root +:+ join_sep (take k cs)) (seq 0 (S (length cs))).

(** The directories strictly above an absolute path, nearest first. *)
Definition parents (a : string) : list string :=
  let cs := components a in
  let root := if Str.startswith "//" a then "//" else "/" in
  rev (map (fun k => root +:+ join_sep (take k cs)) (seq 0 (length cs))).

(** The working directory or a directory above it. *)
Definition working (q : string) : bool :=
  bool_decide (q ∈ ancestors (abspath cwd "")).

(** What stands nearest above a path: the first of [qs] that is there. *)
Fixpoint nearest (f : gmap string node) (qs : list string) : option node :=
  match qs with
  | [] => None
  | q :: qs' =>
      if working q then Some Dir
      else match f !! q with
           | Some n => Some n
           | None => nearest f qs'
           end
  end.

(** A regular file stands where a directory above [a] is wanted: the
    system answers [ENOTDIR] for [a], not [ENOENT]. *)
Definition blocked (f : gmap string node) (a : string) : bool :=
  match nearest f (parents a) with
  | Some (File _) => true
  | _ => false
  end.

(** The error for the path [p], resolved to [a], when it or the directory
    it should be in is not there. *)
Definition absent (f : gmap string node) (p a : string) : exn :=
  if blocked f a then NotADirectoryError p else FileNotFoundError p.

Definition add_dir (f : gmap string node) (p : string) : gmap string node :=
  match f !! p with
  | None => <[p := Dir]> f
  | Some _ => f
  end.

(** The directory [os.makedirs(name)] makes first: it climbs, by
    [os.path.split], for as long as the part before the last name is not
    there. *)
Fixpoint makedirs_first (fuel : nat) (f : gmap string node) (name : string)
  : string :=
  match fuel with
  | 0 => name
  | S fuel' =>
      let head := dirname name in
      let tail := basename name in
      let head' := if String.eqb tail "" then dirname head else head in
      let tail' := if String.eqb tail "" then basename head else tail in
      if (negb (String.eqb head' "") && negb (String.eqb tail' "")
          && negb (bool_decide (is_Some (lookup_path f head'))))%bool
      then makedirs_first fuel' f head'
      else name
  end.

(** [os.makedirs(p)] would be refused: [p] is not there and a regular
    file stands above it. *)
Definition makedirs_refused (f : gmap string node) (p : string) : bool :=
  match resolve p with
  | Some a => negb (bool_decide (is_Some (f !! a))) && blocked f a
  | None => false
  end.

(** [os.makedirs(p)]: the directories are made from the topmost missing
    one down, and the first [mkdir] is the one that can be refused. *)
Definition makedirs (p : string) : M unit :=
  f ← get_fs;
  match resolve p with
  | None => raise (FileNotFoundError p)
  | Some a =>
      if bool_decide (is_Some (f !! a)) then raise (FileExistsError p)
      else if blocked f a
      then raise (NotADirectoryError (makedirs_first (String.length p) f p))
      else put_fs (fold_left add_dir (ancestors a) f);; emit (MakeDirs a)
  end.

(** Opening [p] for writing and storing [content]: the common part of
    [open(p, 'w').write(...)] and of [shutil.copyfile]. [ev] is the
    event recorded for it. *)
Definition store (p content : string) (ev : string -> event) : M unit :=
  f ← get_fs;
  match resolve p with
  | None => raise (FileNotFoundError p)
  | Some a =>
      match f !! dirname a with
      | None => raise (absent f p a)
      | Some (File _) => raise (NotADirectoryError p)
      | Some Dir =>
          match f !! a with
          | Some Dir => raise (IsADirectoryError p)
          | _ => put_fs (<[a := File content]> f);; emit (ev a)
          end
      end
  end.

(** [with io.open(p, 'w') as f: f.write(content)] *)
Definition write_file (p content : string) : M unit :=
  store p content WriteFile.

(** [shutil.copy(src, dst)] *)
Definition copy (src dst : string) : M unit :=
  d ← path_isdir dst;
  let dst := if (d : bool) then join dst (basename src) else dst in
  f ← get_fs;
  match resolve src with
  | None => raise (FileNotFoundError src)
  | Some s =>
      if bool_decide (is_Some (f !! s) /\ resolve dst = Some s)
      then raise (SameFileError src)
      else match f !! s with
           | None => raise (absent f src s)
           | Some Dir => raise (IsADirectoryError src)
           | Some (File c) => store dst c (CopyFile s)
           end
  end.

(** [k] lies strictly below directory [s]. *)
Definition below (s k : string) : bool :=
  Str.startswith (if String.eqb s "/" then "/" else s +:+ "/") k
  && negb (String.eqb k s).

Definition string_drop (n : nat) (s : string) : string :=
  String.substring n (String.length s - n) s.

(** [os.rename(src, dst)] *)
Definition rename (src dst : string) : M unit :=
  f ← get_fs;
  match resolve src, resolve dst with
  | Some s, Some d =>
      match f !! s with
      | None => raise (absent f src s)
      | Some n =>
          if String.eqb s d then mret tt
          else if below s d then raise (OSError "[Errno 22] Invalid argument")
          else
            let dst_children := filter (fun kv => below d kv.1 = true) f in
            match f !! dirname d, n, f !! d with
            | None, _, _ => raise (absent f src d)
            | Some (File _), _, _ => raise (NotADirectoryError src)
            | Some Dir, File _, Some Dir => raise (IsADirectoryError src)
            | Some Dir, Dir, Some (File _) => raise (NotADirectoryError src)
            | Some Dir, _, _ =>
                if bool_decide (dst_children = ∅) then
                  let moved := filter (fun kv => below s kv.1 = true) f in
                  let kept :=
                    filter (fun kv => below s kv.1 = false /\ kv.1 <> s) f in
                  let rekey k := d +:+ string_drop (String.length s) k in
                  put_fs (<[d := n]> (kmap rekey moved ∪ kept));;
                  emit (Rename s d)
                else raise (OSError "[Errno 39] Directory not empty")
            end
      end
  | _, _ => raise (FileNotFoundError src)
  end.

End OS.

(** ** [str.format] with keyword arguments

    [template.format] called with keyword arguments only, after CPython's
    formatter: literal text, the escapes [{{] and [}}], and replacement
    fields.  A field is read to its end first, then its argument is
    looked up, then it is rendered.  A field whose name is empty or a
    number asks for a positional argument, of which there are none.  A
    field made of a name alone renders as the value.  What an attribute
    or index access, a conversion or a format specification make of a
    value is left to [format_field], which stands for that part of the
    interpreter. *)

(** Where the scan of a template stands: in literal text, or inside a
    replacement field. *)
Inductive fmode : Type :=
| Text
| Field (name : string)
| Rest (name rest : string)
| Bracket (name rest : string)
| Conv (name rest : string)
| ConvEnd (name rest : string) (conv : ascii)
| Spec (name rest : string) (conv : option ascii) (spec : string) (depth : nat).

(** What one more character does to a field. *)
Inductive step : Type :=
| Go (m : fmode)
| Done (name rest : string) (conv : option ascii) (spec : string)
| Bad (msg : string).

Definition snoc (s : string) (c : ascii) : string := s +:+ String c EmptyString.

(** The loop of [parse_field]: the argument name and the accessors up to
    [!], [:] or the closing brace, with bracketed indices skipped; the
    conversion character; the format specification, in which braces
    nest. *)
Definition field_step (m : fmode) (c : ascii) : step :=
  match m with
  | Text => Go Text
  | Field name =>
      if Ascii.eqb c "}" then Done name "" None ""
      else if Ascii.eqb c "{" then Bad "unexpected '{' in field name"
      else if Ascii.eqb c ":" then Go (Spec name "" None "" 1)
      else if Ascii.eqb c "!" then Go (Conv name "")
      else if Ascii.eqb c "[" then Go (Bracket name "[")
      else if Ascii.eqb c "." then Go (Rest name ".")
      else Go (Field (snoc name c))
  | Rest name rest =>
      if Ascii.eqb c "}" then Done name rest None ""
      else if Ascii.eqb c "{" then Bad "unexpected '{' in field name"
      else if Ascii.eqb c ":" then Go (Spec name rest None "" 1)
      else if Ascii.eqb c "!" then Go (Conv name rest)
      else if Ascii.eqb c "[" then Go (Bracket name (snoc rest c))
      else Go (Rest name (snoc rest c))
  | Bracket name rest =>
      if Ascii.eqb c "]" then Go (Rest name (snoc rest c))
      else Go (Bracket name (snoc rest c))
  | Conv name rest => Go (ConvEnd name rest c)
  | ConvEnd name rest conv =>
      if Ascii.eqb c "}" then Done name rest (Some conv) ""
      else if Ascii.eqb c ":" then Go (Spec name rest (Some conv) "" 1)
      else Bad "expected ':' after conversion specifier"
  | Spec name rest conv spec depth =>
      if Ascii.eqb c "{" then Go (Spec name rest conv (snoc spec c) (S depth))
      else if Ascii.eqb c "}" then
        match depth with
        | S (S d) => Go (Spec name rest conv (snoc spec c) (S d))
        | _ => Done name rest conv spec
        end
      else Go (Spec name rest conv (snoc spec c) depth)
  end.

(** The error for a template that ends inside a field. *)
Definition field_end (m : fmode) : string :=
  match m with
  | Text | Field _ | Rest _ _ | Bracket _ _ =>
      "expected '}' before end of string"
  | Conv _ _ => "end of string while looking for conversion specifier"
  | ConvEnd _ _ _ | Spec _ _ _ _ _ => "unmatched '{' in format spec"
  end.

(** The field is a name and nothing else (an empty format specification
    changes nothing). *)
Definition is_plain_field (rest : string) (conv : option ascii) (spec : string)
  : bool :=
  String.eqb rest "" && String.eqb spec ""
  && match conv with None => true | Some _ => false end.

Definition digit_val (c : ascii) : option N :=
  let n := N_of_ascii c in
  if ((48 <=? n) && (n <=? 57))%N then Some (n - 48)%N else None.

Inductive arg_name : Type :=
| Keyword
| Positional
| TooManyDigits.

(** [get_integer] of the formatter, with [PY_SSIZE_T_MAX = 2^63 - 1]. *)
Fixpoint get_integer (s : string) (acc : N) : arg_name :=
  match s with
  | EmptyString => Positional
  | String c s' =>
      match digit_val c with
      | None => Keyword
      | Some d =>
          if ((9223372036854775807 - d) / 10 <? acc)%N then TooManyDigits
          else get_integer s' (acc * 10 + d)%N
      end
  end.

Definition classify (name : string) : arg_name := get_integer name 0%N.

Definition result_map {A B} (f : A -> B) (r : result A) : result B :=
  match r with
  | Ok a => Ok (f a)
  | Raise e => Raise e
  end.

(** The named placeholders the formatter reaches in [s], left to right.
    The scan ends where the template ends or is malformed, at a field that
    asks for a positional argument, and after a field that is more than a
    name (rendering it may fail). *)
Fixpoint placeholders_from (s : string) (m : fmode) : list string :=
  match s, m with
  | EmptyString, _ => []
  | String c s', Text =>
      if Ascii.eqb c "{" then
        match s' with
        | EmptyString => []
        | String c' s'' =>
            if Ascii.eqb c' "{" then placeholders_from s'' Text
            else placeholders_from s' (Field EmptyString)
        end
      else if Ascii.eqb c "}" then
        match s' with
        | EmptyString => []
        | String c' s'' =>
            if Ascii.eqb c' "}" then placeholders_from s'' Text else []
        end
      else placeholders_from s' Text
  | String c s', _ =>
      match field_step m c with
      | Go m' => placeholders_from s' m'
      | Bad _ => []
      | Done name rest conv spec =>
          match classify name with
          | Keyword =>
              name :: (if is_plain_field rest conv spec
                       then placeholders_from s' Text else [])
          | _ => []
          end
      end
  end.

Definition placeholders (template : string) : list string :=
  placeholders_from template Text.

(** The names of all the fields of [s] that take a keyword argument,
    whether the formatter gets as far as them or not.  The scan ends only
    where the template ends or is malformed. *)
Fixpoint fields_from (s : string) (m : fmode) : list string :=
  match s, m with
  | EmptyString, _ => []
  | String c s', Text =>
      if Ascii.eqb c "{" then
        match s' with
        | EmptyString => []
        | String c' s'' =>
            if Ascii.eqb c' "{" then fields_from s'' Text
            else fields_from s' (Field EmptyString)
        end
      else if Ascii.eqb c "}" then
        match s' with
        | EmptyString => []
        | String c' s'' =>
            if Ascii.eqb c' "}" then fields_from s'' Text else []
        end
      else fields_from s' Text
  | String c s', _ =>
      match field_step m c with
      | Go m' => fields_from s' m'
      | Bad _ => []
      | Done name rest conv spec =>
          match classify name with
          | Keyword => name :: fields_from s' Text
          | _ => fields_from s' Text
          end
      end
  end.

Definition fields (template : string) : list string :=
  fields_from template Text.

(** Whether the template is well formed and made of literal text and
    plain named placeholders only. *)
Fixpoint plain_from (s : string) (m : fmode) : bool :=
  match s, m with
  | EmptyString, Text => true
  | EmptyString, _ => false
  | String c s', Text =>
      if Ascii.eqb c "{" then
        match s' with
        | EmptyString => false
        | String c' s'' =>
            if Ascii.eqb c' "{" then plain_from s'' Text
            else plain_from s' (Field EmptyString)
        end
      else if Ascii.eqb c "}" then
        match s' with
        | EmptyString => false
        | String c' s'' =>
            if Ascii.eqb c' "}" then plain_from s'' Text else false
        end
      else plain_from s' Text
  | String c s', _ =>
      match field_step m c with
      | Go m' => plain_from s' m'
      | Bad _ => false
      | Done name rest conv spec =>
          match classify name with
          | Keyword => is_plain_field rest conv spec && plain_from s' Text
          | _ => false
          end
      end
  end.

Definition plain (template : string) : bool := plain_from template Text.

Section Format.
(** The accessors, the conversion and the format specification of a
    field, the keyword arguments (a nested specification refers to them)
    and the value of the argument: what the field renders as. *)
Variable format_field :
  string -> option ascii -> string -> gmap string string -> string -> result string.

(** The value of the argument called [name]. *)
Definition get_value (kwargs : gmap string string) (name : string)
  : result string :=
  match classify name with
  | TooManyDigits => Raise (ValueError "Too many decimal digits in format string")
  | Positional => Raise (IndexError "tuple index out of range")
  | Keyword =>
      match kwargs !! name with
      | Some v => Ok v
      | None => Raise (KeyError name)
      end
  end.

Definition render_field (kwargs : gmap string string) (rest : string)
    (conv : option ascii) (spec value : string) : result string :=
  if is_plain_field rest conv spec then Ok value
  else format_field rest conv spec kwargs value.

Fixpoint format_from (kwargs : gmap string string) (s : string) (m : fmode)
  : result string :=
  match s, m with
  | EmptyString, Text => Ok EmptyString
  | EmptyString, _ => Raise (ValueError (field_end m))
  | String c s', Text =>
      if Ascii.eqb c "{" then
        match s' with
        | EmptyString =>
            Raise (ValueError "Single '{' encountered in format string")
        | String c' s'' =>
            if Ascii.eqb c' "{"
            then result_map (String "{") (format_from kwargs s'' Text)
            else format_from kwargs s' (Field EmptyString)
        end
      else if Ascii.eqb c "}" then
        match s' with
        | EmptyString =>
            Raise (ValueError "Single '}' encountered in format string")
        | String c' s'' =>
            if Ascii.eqb c' "}"
            then result_map (String "}") (format_from kwargs s'' Text)
            else Raise (ValueError "Single '}' encountered in format string")
        end
      else result_map (String c) (format_from kwargs s' Text)
  | String c s', _ =>
      match field_step m c with
      | Go m' => format_from kwargs s' m'
      | Bad msg => Raise (ValueError msg)
      | Done name rest conv spec =>
          match get_value kwargs name with
          | Raise e => Raise e
          | Ok value =>
              match render_field kwargs rest conv spec value with
              | Raise e => Raise e
              | Ok text =>
                  result_map (String.append text) (format_from kwargs s' Text)
              end
          end
      end
  end.

(** [template.format] applied to the keyword arguments [kwargs] *)
Definition str_format (template : string) (kwargs : gmap string string)
  : result string :=
  format_from kwargs template Text.

End Format.

(** ** The module [ipyvolume.embed] *)

(** The local variables of [embed_html] that only its [offline_req]
    branch assigns. *)
Record locals : Type := Locals {
  rel_script_path : option string;
  fname_require : option string;
  fname_embed : option string;
  fname_fontawe : option string
}.

Definition no_locals : locals := Locals None None None None.

(** [d.update(dict(pairs))]: later pairs win. *)
Definition dict_update (d : gmap string string) (pairs : list (string * string))
  : gmap string string :=
  fold_left (fun m kv => <[kv.1 := kv.2]> m) pairs d.

Definition html_template : string :=
  "<!DOCTYPE html>" +:+ nl +:+
  "<html lang=" +:+ dquote +:+ "en" +:+ dquote +:+ ">" +:+ nl +:+
  "<head>" +:+ nl +:+
  "    <meta charset=" +:+ dquote +:+ "UTF-8" +:+ dquote +:+ ">" +:+ nl +:+
  "    <title>{title}</title>" +:+ nl +:+
  "    {extra_script_head}" +:+ nl +:+
  "</head>" +:+ nl +:+
  "<body>" +:+ nl +:+
  "{body_pre}" +:+ nl +:+
  "{snippet}" +:+ nl +:+
  "{body_post}" +:+ nl +:+
  "</body>" +:+ nl +:+
  "</html>" +:+ nl.

(** The text [html_template] renders to, as a function of the values of
    its five placeholders. *)
Definition html_page
    (title extra_script_head body_pre snippet body_post : string) : string :=
  "<!DOCTYPE html>" +:+ nl +:+
  "<html lang=" +:+ dquote +:+ "en" +:+ dquote +:+ ">" +:+ nl +:+
  "<head>" +:+ nl +:+
  "    <meta charset=" +:+ dquote +:+ "UTF-8" +:+ dquote +:+ ">" +:+ nl +:+
  "    <title>" +:+ title +:+ "</title>" +:+ nl +:+
  "    " +:+ extra_script_head +:+ nl +:+
  "</head>" +:+ nl +:+
  "<body>" +:+ nl +:+
  body_pre +:+ nl +:+
  snippet +:+ nl +:+
  body_post +:+ nl +:+
  "</body>" +:+ nl +:+
  "</html>" +:+ nl.

(** The literal that [embed_html] formats into [offline_snippet]. *)
Definition offline_snippet_template : string :=
  nl +:+
  "<link href=" +:+ dquote +:+
    "{rel_script_path}{fname_fontawe}/css/font-awesome.min.css" +:+ dquote +:+
    " rel=" +:+ dquote +:+ "stylesheet" +:+ dquote +:+ ">    " +:+ nl +:+
  "<script src=" +:+ dquote +:+ "{rel_script_path}{fname_require}" +:+ dquote +:+
    " crossorigin=" +:+ dquote +:+ "anonymous" +:+ dquote +:+ "></script>" +:+ nl +:+
  "{snippet}" +:+ nl +:+
  "        ".

(** The text [embed_html] builds for [offline_snippet]. *)
Definition offline_snippet (prefix fontawe require snippet : string) : string :=
  nl +:+ "<link href=" +:+ dquote +:+ prefix +:+ fontawe
  +:+ "/css/font-awesome.min.css" +:+ dquote +:+ " rel=" +:+ dquote
  +:+ "stylesheet" +:+ dquote +:+ ">    " +:+ nl
  +:+ "<script src=" +:+ dquote +:+ prefix +:+ require +:+ dquote
  +:+ " crossorigin=" +:+ dquote +:+ "anonymous" +:+ dquote +:+ "></script>" +:+ nl
  +:+ snippet +:+ nl +:+ "        ".

Definition default_template_options : list (string * string) :=
  [("extra_script_head", ""); ("body_pre", ""); ("body_post", "")].

Section Embed.
(** The process and the remote side. *)
Variable cwd : string.
Variable net : string -> option (string * string).
(** [ipyvolume.__path__[0]], [ipyvolume._version.__version_js__] and
    [ipywidgets.embed.__html_manager_version__]. *)
Variable module_path : string.
Variable version_js : string.
Variable html_manager_version : string.
(** The widget framework: widgets and their serialised state are opaque,
    [dependency_state] and [embed_snippet] are its functions, and
    [minimal_html] is the page its [embed_minimal_html] writes. *)
Variable Widgets : Type.
Variable State : Type.
Variable dependency_state : Widgets -> bool -> State.
Variable embed_snippet : Widgets -> string -> bool -> bool -> option State -> string.
Variable minimal_html : Widgets -> option State -> bool -> bool -> string.
(** [zipfile.ZipFile(io.BytesIO(content))]: the members of the archive,
    name and bytes, in archive order, or the exception it raises. *)
Variable zip_open : string -> result (list (string * string)).
(** What [str.format] makes of a field that is more than a name. *)
Variable format_field :
  string -> option ascii -> string -> gmap string string -> string -> result string.

Definition lift {A} (r : result A) : M A := fun w => (r, w).

(** Modelled from the spec: [ipyvolume.utils.download_to_file(url,
    filepath)], which is not part of the sources at hand.  It fetches
    the URL, a failed request surfacing as a retrievable-resource error,
    and writes the result, creating parent directories as needed. *)
Definition download_to_file (url filepath : string) : M unit :=
  emit (NetGet url);;
  match net url with
  | None => raise (URLError url)
  | Some (body, _) =>
      let parent := dirname filepath in
      ex ← path_exists cwd parent;
      (if (negb (String.eqb parent "") && negb ex)%bool
       then makedirs cwd parent else mret tt);;
      write_file cwd filepath body
  end.

(** Modelled from the spec: [ipyvolume.utils.download_to_bytes(url)],
    which is not part of the sources at hand.  It fetches the URL and
    returns the bytes (with their encoding, as the caller unpacks a
    pair); a failed request surfaces as a retrievable-resource error. *)
Definition download_to_bytes (url : string) : M (string * string) :=
  emit (NetGet url);;
  match net url with
  | None => raise (URLError url)
  | Some r => mret r
  end.

Definition devfile : string :=
  join_all (abspath cwd module_path) [".."; "js"; "dist"; "index.js"].

Definition threejs : string :=
  join_all (abspath cwd module_path) ["static"; "three.js"].

Definition ipyvolumejs_url (version : string) : string :=
  "https://unpkg.com/ipyvolume@" +:+ version +:+ "/dist/index.js".

Definition save_ipyvolumejs (folderpath version : string) (devmode : bool)
  : M string :=
  let url := ipyvolumejs_url version in
  let filename := "ipyvolume.js" in
  let filepath := join folderpath filename in
  dev_exists ← path_exists cwd devfile;
  (if (devmode && dev_exists)%bool then
     folder_exists ← path_exists cwd folderpath;
     (if (negb (String.eqb folderpath "") && negb folder_exists)%bool
      then makedirs cwd folderpath else mret tt);;
     copy cwd devfile filepath
   else download_to_file url filepath);;
  let directory := dirname filepath in
  copy cwd threejs directory;;
  mret "ipyvolume.js".

Definition requirejs_url (version : string) : string :=
  "https://cdnjs.cloudflare.com/ajax/libs/require.js/" +:+ version
  +:+ "/require.min.js".

Definition requirejs_filename (version : string) : string :=
  "require.min.v" +:+ version +:+ ".js".

Definition save_requirejs (folderpath version : string) : M string :=
  let url := requirejs_url version in
  let filename := requirejs_filename version in
  let filepath := join folderpath filename in
  download_to_file url filepath;;
  mret filename.

Definition embed_js_url (version : string) : string :=
  "https://unpkg.com/@jupyter-widgets/html-manager@" +:+ version
  +:+ "/dist/embed-amd.js".

Definition embed_js_filename (version : string) : string :=
  "embed-amd_v" +:+ Str.tail version +:+ ".js".

Definition save_embed_js (folderpath version : string) : M string :=
  let url := embed_js_url version in
  let filename := embed_js_filename version in
  let filepath := join folderpath filename in
  download_to_file url filepath;;
  mret filename.

(** [os.mkdir(p)], as [ZipFile.extract] uses it for a directory entry. *)
Definition mkdir (p : string) : M unit :=
  f ← get_fs;
  match resolve cwd p with
  | None => raise (FileNotFoundError p)
  | Some a =>
      if bool_decide (is_Some (f !! a)) then raise (FileExistsError p)
      else match f !! dirname a with
           | None => raise (absent cwd f p a)
           | Some (File _) => raise (NotADirectoryError p)
           | Some Dir => put_fs (<[a := Dir]> f);; emit (ExtractDir a)
           end
  end.

(** [ZipFile._extract_member]: the member name is stripped of empty,
    [.] and [..] parts and joined to the target directory. *)
Definition extract_member (targetdir : string) (member : string * string)
  : M unit :=
  let '(name, data) := member in
  let invalid x := (String.eqb x "" || String.eqb x "." || String.eqb x "..")%bool in
  let arcname := join_sep (List.filter (fun x => negb (invalid x)) (split_sep name)) in
  let targetpath := normpath (join targetdir arcname) in
  let upperdirs := dirname targetpath in
  ex ← path_exists cwd upperdirs;
  (if (negb (String.eqb upperdirs "") && negb ex)%bool
   then makedirs cwd upperdirs else mret tt);;
  if endswith_sep name then
    d ← path_isdir cwd targetpath;
    if (d : bool) then mret tt else mkdir targetpath
  else store cwd targetpath data ExtractFile.

(** [unzip.extractall(dirpath)] *)
Fixpoint extractall (dirpath : string) (members : list (string * string))
  : M unit :=
  match members with
  | [] => mret tt
  | m :: rest => extract_member dirpath m;; extractall dirpath rest
  end.

Definition font_awesome_url (version : string) : string :=
  "http://fontawesome.io/assets/font-awesome-" +:+ version +:+ ".zip".

Definition font_awesome_folder (version : string) : string :=
  "font-awesome-" +:+ version.

(** The body of the [try] block of [save_font_awesome]; its value is
    [top_level_name]. *)
Definition unzip_content (content dirpath : string) : M string :=
  unzip ← lift (zip_open content);
  top_level_name ←
    match unzip with
    | [] => raise (IndexError "list index out of range")
    | (name, _) :: _ => mret name
    end;
  extractall dirpath unzip;;
  mret top_level_name.

Definition unzip_error (url : string) (err : exn) : exn :=
  IOError ("Could not unzip content from: " +:+ url +:+ nl +:+ exn_str err).

Definition save_font_awesome (dirpath version : string) : M string :=
  let folder_name := font_awesome_folder version in
  let folder_path := join dirpath folder_name in
  ex ← path_exists cwd folder_path;
  if (ex : bool) then mret folder_name
  else
    let url := font_awesome_url version in
    '(content, encoding) ← download_to_bytes url;
    top_level_name ←
      try_except (unzip_content content dirpath)
                 (fun err => raise (unzip_error url err));
    rename cwd (join dirpath top_level_name) folder_path;;
    mret folder_name.

Definition path_escape_error : exn :=
  ValueError "The scripts_path must have the same root directory as the filepath".

(** Lines 152 to 161 of [embed_html]: the scripts folder as the code
    resolves it, and the prefix of the asset URLs. *)
Definition resolve_scripts_path (filepath scripts_path : string) : string :=
  if negb (isabs scripts_path) then join (dirname filepath) scripts_path
  else scripts_path.

Definition script_prefix (filepath scripts_path : string) : M string :=
  match relpath cwd scripts_path (dirname filepath) with
  | None => raise (ValueError "no path specified")
  | Some rel =>
      if Str.startswith ".." rel then raise path_escape_error
      else if String.eqb rel "." then mret ""
      else mret (rel +:+ "/")
  end.

(** [template_opts] after lines 135 and 136. *)
Definition template_opts (title : string) (template_options : list (string * string))
  : gmap string string :=
  dict_update
    (<["title" := title]> (<["extra_script_head" := ""]>
       (<["body_pre" := ""]> (<["body_post" := ""]> ∅))))
    template_options.

(** The keyword arguments of the call that builds [offline_snippet]. *)
Definition offline_snippet_args (prefix fontawe require snippet : string)
  : gmap string string :=
  <["rel_script_path" := prefix]> (<["fname_fontawe" := fontawe]>
    (<["fname_require" := require]> (<["snippet" := snippet]> ∅))).

Definition embed_html (filepath : string) (widgets : Widgets)
    (makedirs_ : bool) (title : string) (all_states offline offline_req : bool)
    (scripts_path : string) (drop_defaults : bool) (template : string)
    (template_options : list (string * string)) (devmode : bool) : M unit :=
  let dir_name_dst := dirname (abspath cwd filepath) in
  dst_exists ← path_exists cwd dir_name_dst;
  (if (negb dst_exists && makedirs_)%bool
   then makedirs cwd dir_name_dst else mret tt);;
  let template_opts := template_opts title template_options in
  let state :=
    if all_states then None
    else Some (dependency_state widgets drop_defaults) in
  if negb offline then
    (* wembed.embed_minimal_html(filepath, widgets, state=state,
                                 requirejs=True, drop_defaults=drop_defaults) *)
    write_file cwd filepath (minimal_html widgets state true drop_defaults);;
    let directory := dirname filepath in
    copy cwd threejs directory
  else
    vars ←
      (if offline_req then
         let scripts_path := resolve_scripts_path filepath scripts_path in
         rel_script_path ← script_prefix filepath scripts_path;
         save_ipyvolumejs dir_name_dst version_js devmode;;
         fname_require ← save_requirejs scripts_path "2.3.4";
         fname_embed ← save_embed_js scripts_path html_manager_version;
         fname_fontawe ← save_font_awesome scripts_path "4.7.0";
         mret (Locals (Some rel_script_path) (Some fname_require)
                      (Some fname_embed) (Some fname_fontawe))
       else mret no_locals);
    prefix ← load_local "rel_script_path" (rel_script_path vars);
    embed ← load_local "fname_embed" (fname_embed vars);
    let snippet :=
      embed_snippet widgets (prefix +:+ embed) false drop_defaults state in
    prefix ← load_local "rel_script_path" (rel_script_path vars);
    fontawe ← load_local "fname_fontawe" (fname_fontawe vars);
    require ← load_local "fname_require" (fname_require vars);
    offline_snippet ←
      lift (str_format format_field offline_snippet_template
              (offline_snippet_args prefix fontawe require snippet));
    let template_opts := <["snippet" := offline_snippet]> template_opts in
    html_code ← lift (str_format format_field template template_opts);
    write_file cwd filepath html_code.

(** The page a bundled call renders, as a function of the URL prefix and
    of the arguments: the wrapper around the framework's snippet, put in
    the template under [snippet] next to the merged options. *)
Definition bundled_page (prefix : string) (widgets : Widgets) (title : string)
    (all_states drop_defaults : bool) (template : string)
    (template_options : list (string * string)) : result string :=
  let state :=
    if all_states then None
    else Some (dependency_state widgets drop_defaults) in
  let snippet :=
    embed_snippet widgets (prefix +:+ embed_js_filename html_manager_version)
      false drop_defaults state in
  str_format format_field template
    (<["snippet" := offline_snippet prefix (font_awesome_folder "4.7.0")
                      (requirejs_filename "2.3.4") snippet]>
       (template_opts title template_options)).

End Embed.


(** ** Notions used in the statements *)

(** The regular files of a file system, with their bytes. *)
Definition files (f : gmap string node) : gmap string string :=
  omap (fun n => match n with File c => Some c | Dir => None end) f.

(** [m] only appends events to the trace, all of them satisfying [P],
    whatever its outcome. *)
Definition emits (P : event -> Prop) {A} (m : M A) : Prop :=
  forall w, exists evs, trace (m w).2 = trace w ++ evs /\ Forall P evs.

Definition offline (e : event) : Prop := is_net e = false.

(** The event is the creation of a directory tree. *)
Definition is_makedirs (e : event) : Prop := exists a, e = MakeDirs a.

(** [m] issues no HTTP request. *)
Definition quiet {A} (m : M A) : Prop := emits offline m.

(** The URLs requested in a trace, in the order of the requests. *)
Definition fetched (t : list event) : list string :=
  omap (fun e => match e with NetGet url => Some url | _ => None end) t.

(** [m] leaves the regular files as they are. *)
Definition keeps_files {A} (m : M A) : Prop :=
  forall w, files (fs (m w).2) = files (fs w).

(** ** A concrete environment

    A small machine on which the functions can be run: a home directory,
    an installed package with its [static/three.js], a remote side that
    answers the asset URLs, and an archive reader that knows one archive. *)

Module Example.

Definition cwd : string := "/home/user".
Definition module_path : string := "/site/ipyvolume".
Definition version_js : string := "0.4.5".
Definition html_manager_version : string := "^0.11.0".

Definition net (url : string) : option (string * string) :=
  if String.eqb url "http://fontawesome.io/assets/font-awesome-4.7.0.zip"
  then Some ("PK-font-awesome", "binary")
  else if String.eqb url "http://fontawesome.io/assets/font-awesome-4.6.0.zip"
  then Some ("<html>404</html>", "utf-8")
  else if Str.startswith "https://" url then Some ("// " +:+ url, "utf-8")
  else None.

Definition zip_open (content : string) : result (list (string * string)) :=
  if String.eqb content "PK-font-awesome"
  then Ok [("font-awesome-4.7.0-dist/", "");
           ("font-awesome-4.7.0-dist/css/font-awesome.min.css", ".fa{}")]
  else Raise (ExternalError "BadZipFile" "File is not a zip file").

Definition format_field (rest : string) (conv : option ascii) (spec : string)
    (kwargs : gmap string string) (value : string) : result string :=
  Raise (ExternalError "NotModelled" (rest +:+ ":" +:+ spec)).

Definition dependency_state (widgets : list string) (drop_defaults : bool)
  : list string := widgets.

Definition embed_snippet (widgets : list string) (embed_url : string)
    (requirejs drop_defaults : bool) (state : option (list string)) : string :=
  "<script src=" +:+ dquote +:+ embed_url +:+ dquote +:+ "></script>".

Definition minimal_html (widgets : list string) (state : option (list string))
    (requirejs drop_defaults : bool) : string :=
  "<html>minimal</html>".

(** The disk before any export. *)
Definition disk : gmap string node :=
  list_to_map
    [("/", Dir); ("/home", Dir); ("/home/user", Dir);
     ("/site", Dir); ("/site/ipyvolume", Dir);
     ("/site/ipyvolume/static", Dir);
     ("/site/ipyvolume/static/three.js", File "// three.js")].


(** The same disk with the icon font already unpacked into [out/scripts]. *)
Definition cached_disk : gmap string node :=
  list_to_map
    [("/home/user/out", Dir); ("/home/user/out/scripts", Dir);
     ("/home/user/out/scripts/font-awesome-4.7.0", Dir)] ∪ disk.

Definition start : world := World disk [].

Definition embed_html :=
  embed_html cwd net module_path version_js html_manager_version
    (list string) (list string) dependency_state embed_snippet minimal_html
    zip_open format_field.

Definition save_font_awesome := save_font_awesome cwd net zip_open.

Definition save_ipyvolumejs := save_ipyvolumejs cwd net module_path.

(** An archive reader for which every archive is empty. *)
Definition empty_zip (content : string) : result (list (string * string)) :=
  Ok [].



End Example.

(** ** Facts about the monad and the operating system *)

Lemma bind_run {A B} (m : M A) (f : A -> M B) (w : world) :
  (m ≫= f) w = match m w with
               | (Ok a, w') => f a w'
               | (Raise e, w') => (Raise e, w')
               end.
Proof. reflexivity. Qed.

Lemma bind_ret {A B} (a : A) (f : A -> M B) (w : world) :
  (mret a ≫= f) w = f a w.
Proof. reflexivity. Qed.

Lemma bind_lift {A B} (r : result A) (f : A -> M B) (w : world) :
  (lift r ≫= f) w = match r with
                    | Ok a => f a w
                    | Raise e => (Raise e, w)
                    end.
Proof. by destruct r. Qed.

Lemma bind_Ok_inv {A B} (m : M A) (f : A -> M B) (w w' : world) (b : B) :
  (m ≫= f) w = (Ok b, w') ->
  exists a w1, m w = (Ok a, w1) /\ f a w1 = (Ok b, w').
Proof.
  rewrite bind_run. destruct (m w) as [[a|e] w1]; [eauto | discriminate].
Qed.

Lemma requests_app (t1 t2 : list event) :
  requests (t1 ++ t2) = requests t1 + requests t2.
Proof. unfold requests. by rewrite List.filter_app, length_app. Qed.

Lemma offline_requests (evs : list event) : Forall offline evs -> requests evs = 0.
Proof.
  induction 1 as [|e evs He _ IH]; [done|].
  unfold requests in *. simpl. unfold offline in He. by rewrite He.
Qed.

Lemma emits_ret P {A} (a : A) : emits P (mret a : M A).
Proof. intros w. exists []. by rewrite app_nil_r. Qed.

Lemma emits_raise P {A} (e : exn) : emits P (raise e : M A).
Proof. intros w. exists []. by rewrite app_nil_r. Qed.

Lemma emits_lift P {A} (r : result A) : emits P (lift r).
Proof. intros w. exists []. by rewrite app_nil_r. Qed.

Lemma emits_get_fs P : emits P get_fs.
Proof. intros w. exists []. by rewrite app_nil_r. Qed.

Lemma emits_put_fs P f : emits P (put_fs f).
Proof. intros w. exists []. by rewrite app_nil_r. Qed.

Lemma emits_emit (P : event -> Prop) e : P e -> emits P (emit e).
Proof. intros He w. exists [e]. split; [done | by constructor]. Qed.

Lemma emits_bind P {A B} (m : M A) (f : A -> M B) :
  emits P m -> (forall a, emits P (f a)) -> emits P (m ≫= f).
Proof.
  intros Hm Hf w. rewrite bind_run.
  destruct (Hm w) as (e1 & Ht1 & HP1).
  destruct (m w) as [[a|e] w1]; simpl in *.
  - destruct (Hf a w1) as (e2 & Ht2 & HP2).
    exists (e1 ++ e2). rewrite Ht2, Ht1, app_assoc.
    split; [done | by apply Forall_app].
  - by exists e1.
Qed.

Lemma emits_try P {A} (m : M A) (h : exn -> M A) :
  emits P m -> (forall e, emits P (h e)) -> emits P (try_except m h).
Proof.
  intros Hm Hh w. unfold try_except.
  destruct (Hm w) as (e1 & Ht1 & HP1).
  destruct (m w) as [[a|e] w1]; simpl in *.
  - by exists e1.
  - destruct (Hh e w1) as (e2 & Ht2 & HP2).
    exists (e1 ++ e2). rewrite Ht2, Ht1, app_assoc.
    split; [done | by apply Forall_app].
Qed.

Lemma emits_weaken (P Q : event -> Prop) {A} (m : M A) :
  (forall e, P e -> Q e) -> emits P m -> emits Q m.
Proof.
  intros HPQ Hm w. destruct (Hm w) as (evs & Ht & HP).
  exists evs. split; [done|]. eapply Forall_impl; eauto.
Qed.

Ltac elem_solver :=
  repeat (rewrite elem_of_app || rewrite elem_of_cons); intuition auto.

Ltac emits_step :=
  first
    [ apply emits_ret | apply emits_raise | apply emits_lift
    | apply emits_get_fs | apply emits_put_fs
    | apply emits_emit; done
    | apply emits_bind; [| intros ?]
    | apply emits_try; [| intros ?]
    | progress case_match ].

Section OSFacts.
Variable cwd : string.
Variable P : event -> Prop.

Lemma emits_path_exists p : emits P (path_exists cwd p).
Proof. unfold path_exists. repeat emits_step. Qed.

Lemma emits_path_isdir p : emits P (path_isdir cwd p).
Proof. unfold path_isdir. repeat emits_step. Qed.

Lemma emits_makedirs p : (forall a, P (MakeDirs a)) -> emits P (makedirs cwd p).
Proof. intros HP. unfold makedirs. repeat emits_step. Qed.

Lemma emits_store p c ev : (forall a, P (ev a)) -> emits P (store cwd p c ev).
Proof. intros HP. unfold store. repeat emits_step. Qed.

Lemma emits_copy src dst :
  (forall s d, P (CopyFile s d)) -> emits P (copy cwd src dst).
Proof.
  intros HP. unfold copy.
  apply emits_bind; [apply emits_path_isdir | intros d].
  repeat first [apply emits_store; by auto | emits_step].
Qed.

Lemma emits_rename src dst :
  (forall s d, P (Rename s d)) -> emits P (rename cwd src dst).
Proof. intros HP. unfold rename. repeat emits_step. Qed.

Lemma emits_mkdir p : (forall a, P (ExtractDir a)) -> emits P (mkdir cwd p).
Proof. intros HP. unfold mkdir. repeat emits_step. Qed.

End OSFacts.

(** ** Facts about paths *)

Lemma rstrip_sep_empty (s : string) : rstrip_sep s = "" -> all_sep s = true.
Proof.
  induction s as [|c s IH]; [done|]. simpl.
  destruct (rstrip_sep s) eqn:Hr.
  - destruct (Ascii.eqb c sep); [auto | discriminate].
  - discriminate.
Qed.

Lemma dirname_of_absolute (s : string) : dirname (String "/" s) <> "".
Proof.
  unfold dirname. simpl.
  destruct (rsplit_sep s) as [h t]. destruct h as [|c h]; simpl; [done|].
  destruct (Ascii.eqb c sep && all_sep h)%bool eqn:Hall; simpl; [done|].
  destruct (rstrip_sep h) as [|c' r] eqn:Hr; [|done].
  destruct (Ascii.eqb c sep) eqn:Hc; [|done].
  apply rstrip_sep_empty in Hr. simpl in Hall. congruence.
Qed.

Lemma normpath_of_absolute (s : string) :
  exists r, normpath (String "/" s) = String "/" r.
Proof.
  unfold normpath, initial_slashes.
  replace (Str.startswith "/" (String "/" s)) with true by reflexivity.
  destruct (Str.startswith "//" (String "/" s) && negb (Str.startswith "///" (String "/" s)))%bool;
    cbn -[Str.startswith norm_comps split_sep join_sep]; eauto.
Qed.

Lemma isabs_inv (p : string) : isabs p = true -> exists s, p = String "/" s.
Proof.
  destruct p as [|c p]; [done|]. unfold isabs. cbn [Str.startswith].
  destruct (Ascii.eqb_spec "/" c) as [<-|]; [eauto | done].
Qed.

Lemma join_absolute (a b : string) : isabs a = true -> isabs (join a b) = true.
Proof.
  intros Ha. unfold join. destruct (Str.startswith "/" b) eqn:Hb; [done|].
  apply isabs_inv in Ha as [s ->]. by destruct (_ || _)%bool.
Qed.

Lemma abspath_absolute (cwd p : string) :
  isabs cwd = true -> exists r, abspath cwd p = String "/" r.
Proof.
  intros Hc. unfold abspath.
  assert (isabs (if isabs p then p else join cwd p) = true) as Habs.
  { destruct (isabs p) eqn:Hp; [done | by apply join_absolute]. }
  apply isabs_inv in Habs as [s ->]. apply normpath_of_absolute.
Qed.

Lemma dirname_abspath_nonempty (cwd p : string) :
  isabs cwd = true -> dirname (abspath cwd p) <> "".
Proof.
  intros Hc. destruct (abspath_absolute cwd p Hc) as [r ->].
  apply dirname_of_absolute.
Qed.

(** ** Facts about the file system *)

Lemma path_exists_run cwd p w :
  path_exists cwd p w = (Ok (bool_decide (is_Some (lookup_path cwd (fs w) p))), w).
Proof. reflexivity. Qed.

Lemma files_add_dir f p : files (add_dir f p) = files f.
Proof.
  unfold add_dir. destruct (f !! p) eqn:Hp; [done|].
  unfold files. apply map_eq. intros k. rewrite !lookup_omap.
  destruct (decide (p = k)) as [->|Hne].
  - by rewrite lookup_insert_eq, Hp.
  - by rewrite lookup_insert_ne.
Qed.

Lemma files_add_dirs ps f : files (fold_left add_dir ps f) = files f.
Proof.
  revert f. induction ps as [|p ps IH]; intros f; simpl; [done|].
  by rewrite IH, files_add_dir.
Qed.

Lemma makedirs_run cwd p a w :
  resolve cwd p = Some a -> fs w !! a = None ->
  blocked cwd (fs w) a = false ->
  makedirs cwd p w =
    (Ok tt, World (fold_left add_dir (ancestors a) (fs w)) (trace w ++ [MakeDirs a])).
Proof.
  intros Hr Ha Hb. unfold makedirs. rewrite bind_run. simpl. rewrite Hr.
  rewrite bool_decide_eq_false_2 by (rewrite Ha; by intros [? ?]).
  by rewrite Hb.
Qed.

Lemma makedirs_refused_run cwd p a w :
  resolve cwd p = Some a -> fs w !! a = None ->
  blocked cwd (fs w) a = true ->
  makedirs cwd p w
  = (Raise (NotADirectoryError (makedirs_first cwd (String.length p) (fs w) p)), w).
Proof.
  intros Hr Ha Hb. unfold makedirs. rewrite bind_run. simpl. rewrite Hr.
  rewrite bool_decide_eq_false_2 by (rewrite Ha; by intros [? ?]).
  by rewrite Hb.
Qed.

Lemma resolve_nonempty cwd p : p <> "" -> resolve cwd p = Some (abspath cwd p).
Proof.
  intros Hp. unfold resolve. destruct (String.eqb_spec p ""); [done | done].
Qed.

Lemma makedirs_are_offline (evs : list event) :
  Forall is_makedirs evs -> Forall offline evs.
Proof. intros H. eapply Forall_impl; [done|]. by intros e [a ->]. Qed.

Lemma add_dirs_lookup (ps : list string) (f : gmap string node) (p : string) :
  p ∉ ps -> fold_left add_dir ps f !! p = f !! p.
Proof.
  revert f. induction ps as [|q ps IH]; intros f Hp; cbn [fold_left]; [done|].
  apply not_elem_of_cons in Hp as [Hne Hp]. rewrite IH by done.
  unfold add_dir. destruct (f !! q); [done|]. by rewrite lookup_insert_ne.
Qed.

Lemma add_dirs_keeps (ps : list string) (f : gmap string node) (p : string) (n : node) :
  f !! p = Some n -> fold_left add_dir ps f !! p = Some n.
Proof.
  revert f. induction ps as [|q ps IH]; intros f Hp; cbn [fold_left]; [done|].
  apply IH. unfold add_dir. destruct (f !! q) eqn:Hq; [done|].
  rewrite lookup_insert_ne; [done|]. congruence.
Qed.

(** The first two statements of [embed_html]: the output directory is
    created when it is missing and [makedirs] is set.  Unless that is
    refused, the call goes on with the rest [k]. *)
Lemma ensure_dir_run {B} cwd dir (mk : bool) (k : M B) w :
  dir <> "" ->
  (mk && makedirs_refused cwd (fs w) dir)%bool = false ->
  exists w',
    (dst_exists ← path_exists cwd dir;
     (if (negb dst_exists && mk)%bool then makedirs cwd dir else mret tt);; k) w
    = k w' /\
    files (fs w') = files (fs w) /\
    (exists evs, trace w' = trace w ++ evs /\ Forall is_makedirs evs) /\
    (mk = false \/ is_Some (lookup_path cwd (fs w) dir) -> w' = w) /\
    (forall p, p ∉ ancestors (abspath cwd dir) -> fs w' !! p = fs w !! p).
Proof.
  intros Hd Hfree. rewrite bind_run, path_exists_run.
  assert (exists evs, trace w = trace w ++ evs /\ Forall is_makedirs evs) as Hnil.
  { exists []. by rewrite app_nil_r. }
  case_bool_decide as Hex; cbn [negb andb].
  - exists w. by split_and!.
  - destruct mk.
    + unfold lookup_path in Hex. rewrite (resolve_nonempty _ _ Hd) in Hex.
      cbn [mbind option_bind] in Hex.
      assert (fs w !! abspath cwd dir = None) as Hnone.
      { destruct (fs w !! abspath cwd dir) eqn:E; [|done]. destruct Hex; eauto. }
      cbn [andb] in Hfree. unfold makedirs_refused in Hfree.
      rewrite (resolve_nonempty _ _ Hd) in Hfree.
      rewrite bool_decide_eq_false_2 in Hfree by (rewrite Hnone; by intros [? ?]).
      cbn [negb andb] in Hfree.
      rewrite bind_run.
      erewrite makedirs_run; [| by apply resolve_nonempty | done | done].
      eexists. split; [done|]. cbn [fs trace]. split_and!.
      * apply files_add_dirs.
      * eexists. split; [done|]. repeat constructor. by eexists.
      * intros [?|Hs]; [done|].
        unfold lookup_path in Hs. rewrite (resolve_nonempty _ _ Hd) in Hs.
        cbn [mbind option_bind] in Hs. by destruct Hex.
      * intros p Hp. by apply add_dirs_lookup.
    + exists w. by split_and!.
Qed.


(** When the creation of the output directory is refused, the call ends
    there, with the error of [os.makedirs], and nothing has happened. *)
Lemma ensure_dir_refused {B} cwd dir (mk : bool) (k : M B) w :
  dir <> "" ->
  (mk && makedirs_refused cwd (fs w) dir)%bool = true ->
  exists q,
    (dst_exists ← path_exists cwd dir;
     (if (negb dst_exists && mk)%bool then makedirs cwd dir else mret tt);; k) w
    = (Raise (NotADirectoryError q), w).
Proof.
  intros Hd [-> Href]%andb_prop. unfold makedirs_refused in Href.
  rewrite (resolve_nonempty _ _ Hd) in Href.
  apply andb_prop in Href as [Hmissing Hblocked].
  apply negb_true_iff, bool_decide_eq_false in Hmissing.
  assert (fs w !! abspath cwd dir = None) as Hnone.
  { destruct (fs w !! abspath cwd dir) eqn:E; [|done]. destruct Hmissing; eauto. }
  rewrite bind_run, path_exists_run.
  rewrite bool_decide_eq_false_2.
  2:{ unfold lookup_path. rewrite (resolve_nonempty _ _ Hd).
      cbn [mbind option_bind]. rewrite Hnone. by intros [? ?]. }
  cbn [negb andb]. rewrite bind_run.
  erewrite makedirs_refused_run; [| by apply resolve_nonempty | done | done].
  eauto.
Qed.

(** A call that returns has got past its first two statements. *)
Lemma ensure_dir_Ok {B} cwd dir (mk : bool) (k : M B) w (b : B) w1 :
  dir <> "" ->
  (dst_exists ← path_exists cwd dir;
   (if (negb dst_exists && mk)%bool then makedirs cwd dir else mret tt);; k) w
  = (Ok b, w1) ->
  exists w',
    k w' = (Ok b, w1) /\
    files (fs w') = files (fs w) /\
    (exists evs, trace w' = trace w ++ evs /\ Forall is_makedirs evs) /\
    (mk = false \/ is_Some (lookup_path cwd (fs w) dir) -> w' = w) /\
    (forall p, p ∉ ancestors (abspath cwd dir) -> fs w' !! p = fs w !! p).
Proof.
  intros Hd Hrun.
  destruct (mk && makedirs_refused cwd (fs w) dir)%bool eqn:Href.
  - destruct (ensure_dir_refused cwd dir mk k w Hd Href) as [q Hq]. congruence.
  - destruct (ensure_dir_run cwd dir mk k w Hd Href) as (w' & Heq & ?).
    exists w'. split; [congruence | done].
Qed.


(** *** Splitting and joining at slashes *)

Local Arguments String.append !_ _ : simpl nomatch.

Lemma append_assoc (a b c : string) : (a +:+ b) +:+ c = a +:+ (b +:+ c).
Proof. induction a as [|x a IH]; cbn [String.append]; congruence. Qed.

Lemma append_nil_r (a : string) : a +:+ "" = a.
Proof. induction a as [|x a IH]; cbn [String.append]; congruence. Qed.

Lemma split_sep_cons (s : string) : exists h t, split_sep s = h :: t.
Proof.
  destruct s as [|c s]; cbn [split_sep]; [eauto|].
  destruct (Ascii.eqb c sep); [eauto|]. destruct (split_sep s); eauto.
Qed.

Lemma split_sep_app_sep (a b : string) :
  split_sep (a +:+ String sep b) = split_sep a ++ split_sep b.
Proof.
  induction a as [|c a IH]; cbn [split_sep String.append].
  - by rewrite Ascii.eqb_refl.
  - destruct (Ascii.eqb c sep); [by rewrite IH|].
    rewrite IH. by destruct (split_sep_cons a) as (h & t & ->).
Qed.

Lemma split_slash_free (x : string) : slash_free x = true -> split_sep x = [x].
Proof.
  induction x as [|c x IH]; cbn [split_sep slash_free]; [done|].
  intros [Hc Hx]%andb_prop. destruct (Ascii.eqb c sep); [done|].
  by rewrite IH.
Qed.

Lemma split_sep_slash_free (s : string) :
  Forall (fun x => slash_free x = true) (split_sep s).
Proof.
  induction s as [|c s IH]; cbn [split_sep]; [by repeat constructor|].
  destruct (Ascii.eqb c sep) eqn:Hc; [by constructor|].
  destruct (split_sep s) as [|h t].
  - repeat constructor. cbn [slash_free]. by rewrite Hc.
  - inversion IH; subst. constructor; [|done]. cbn [slash_free]. by rewrite Hc.
Qed.

Lemma join_sep_snoc (l : list string) (x : string) :
  l <> [] -> join_sep (l ++ [x]) = join_sep l +:+ String sep x.
Proof.
  induction l as [|a l IH]; [done|]. intros _.
  destruct l as [|b l]; [done|].
  change (join_sep ((a :: b :: l) ++ [x]))
    with (a +:+ "/" +:+ join_sep ((b :: l) ++ [x])).
  rewrite IH by done.
  change (join_sep (a :: b :: l)) with (a +:+ "/" +:+ join_sep (b :: l)).
  by rewrite !append_assoc.
Qed.

(** *** The loop of [normpath] *)

Lemma norm_comps_app (b : bool) (l1 l2 acc : list string) :
  norm_comps b (l1 ++ l2) acc = norm_comps b l2 (rev (norm_comps b l1 acc)).
Proof.
  revert acc. induction l1 as [|c l1 IH]; intros acc; cbn [norm_comps app].
  - by rewrite rev_involutive.
  - repeat case_match; apply IH.
Qed.

Lemma is_name_inv (x : string) :
  is_name x = true ->
  slash_free x = true /\ String.eqb x "" = false /\ String.eqb x "." = false
  /\ String.eqb x ".." = false.
Proof.
  unfold is_name. rewrite !andb_true_iff, !negb_true_iff. tauto.
Qed.

Lemma norm_comps_snoc_name (b : bool) (l : list string) (x : string) :
  is_name x = true ->
  norm_comps b (l ++ [x]) [] = norm_comps b l [] ++ [x].
Proof.
  intros (_ & H1 & H2 & H3)%is_name_inv.
  rewrite norm_comps_app. cbn [norm_comps]. rewrite H1, H2, H3.
  cbn [orb negb rev]. by rewrite rev_involutive.
Qed.

Lemma norm_comps_snoc_empty (b : bool) (l : list string) :
  norm_comps b (l ++ [""]) [] = norm_comps b l [].
Proof. rewrite norm_comps_app. cbn. by rewrite rev_involutive. Qed.

Lemma norm_comps_is_comp (b : bool) (l acc : list string) :
  Forall (fun x => slash_free x = true) l ->
  Forall (fun x => is_comp x = true) acc ->
  Forall (fun x => is_comp x = true) (norm_comps b l acc).
Proof.
  revert acc. induction l as [|c l IH]; intros acc Hl Hacc; cbn [norm_comps].
  - by apply Forall_rev.
  - inversion Hl as [|? ? Hc Hl']; subst.
    destruct (String.eqb c "") eqn:H1; [by apply IH|].
    destruct (String.eqb c ".") eqn:H2; [by apply IH|].
    assert (is_comp c = true) as Hcomp.
    { unfold is_comp. by rewrite Hc, H1, H2. }
    cbn [orb]. destruct (negb (String.eqb c "..")); [apply IH; by try constructor|].
    destruct acc as [|last acc'].
    + destruct b; apply IH; by try constructor.
    + destruct (String.eqb last ".."); apply IH; try done; [by constructor|].
      by inversion Hacc.
Qed.

(** *** Heads, tails and trailing slashes *)

Lemma slash_free_head (x : string) :
  slash_free x = true -> String.eqb x "" = false ->
  exists c x', x = String c x' /\ Ascii.eqb c sep = false.
Proof.
  destruct x as [|c x']; [done|]. cbn [slash_free].
  intros [Hc _]%andb_prop _. apply negb_true_iff in Hc. eauto.
Qed.

Lemma rsplit_slash_free (x : string) :
  slash_free x = true -> rsplit_sep x = ("", x).
Proof.
  induction x as [|c x IH]; [done|]. cbn [slash_free rsplit_sep].
  intros [Hc Hx]%andb_prop. apply negb_true_iff in Hc.
  by rewrite IH, Hc.
Qed.

Lemma rsplit_app_sep (y x : string) :
  slash_free x = true -> rsplit_sep (y +:+ String sep x) = (y +:+ "/", x).
Proof.
  intros Hx. induction y as [|c y IH]; cbn [String.append rsplit_sep].
  - by rewrite (rsplit_slash_free x Hx), Ascii.eqb_refl.
  - rewrite IH. by destruct y.
Qed.

Lemma rstrip_app_sep (y : string) : rstrip_sep (y +:+ "/") = rstrip_sep y.
Proof.
  induction y as [|c y IH]; cbn [String.append rstrip_sep]; [done|].
  by rewrite IH.
Qed.

Lemma rstrip_no_trailing (y : string) :
  endswith_sep y = false -> rstrip_sep y = y.
Proof.
  induction y as [|c y IH]; [done|]. cbn [endswith_sep rstrip_sep].
  destruct y as [|c' y'].
  - cbn. by intros ->.
  - intros H. by rewrite IH.
Qed.

Lemma endswith_rstrip (s : string) : endswith_sep (rstrip_sep s) = false.
Proof.
  induction s as [|c s IH]; [done|]. cbn [rstrip_sep].
  destruct (rstrip_sep s) as [|c' r] eqn:Hr.
  - destruct (Ascii.eqb c sep) eqn:Hc; [done|]. cbn. done.
  - done.
Qed.

Lemma all_sep_app (a b : string) : all_sep (a +:+ b) = all_sep a && all_sep b.
Proof.
  induction a as [|c a IH]; cbn [String.append all_sep]; [done|].
  by rewrite IH, andb_assoc.
Qed.

Lemma all_sep_trailing (s : string) :
  all_sep s = true -> s = "" \/ endswith_sep s = true.
Proof.
  induction s as [|c s IH]; [by left|]. cbn [all_sep].
  intros [Hc Hs]%andb_prop. right. cbn [endswith_sep].
  destruct s as [|c' s']; [done|]. by destruct (IH Hs).
Qed.

Lemma endswith_sep_inv (s : string) :
  endswith_sep s = true -> exists y, s = y +:+ "/".
Proof.
  induction s as [|c s IH]; [done|]. cbn [endswith_sep].
  destruct s as [|c' s'].
  - intros ->%Ascii.eqb_eq. by exists "".
  - intros [y ->]%IH. by exists (String c y).
Qed.

Lemma endswith_sep_app (a b : string) :
  String.eqb b "" = false -> endswith_sep (a +:+ b) = endswith_sep b.
Proof.
  intros Hb. induction a as [|c a IH]; [done|].
  cbn [String.append endswith_sep]. rewrite IH.
  destruct (a +:+ b) eqn:Hab; [|done].
  destruct a, b; done.
Qed.

Lemma endswith_slash_free (x : string) :
  slash_free x = true -> endswith_sep x = false.
Proof.
  induction x as [|c x IH]; [done|]. cbn [slash_free endswith_sep].
  intros [Hc Hx]%andb_prop. apply negb_true_iff in Hc.
  destruct x; [done | by apply IH].
Qed.

(** The parent of [z/x] is [z], when [z] is not empty and has no
    trailing slash. *)
Lemma dirname_app_sep (z x : string) :
  slash_free x = true -> endswith_sep z = false -> String.eqb z "" = false ->
  dirname (z +:+ String sep x) = z.
Proof.
  intros Hx Hz Hne. unfold dirname. rewrite (rsplit_app_sep z x Hx). cbn [fst].
  assert (all_sep z = false) as Hall.
  { destruct (all_sep z) eqn:Ha; [|done].
    destruct (all_sep_trailing z Ha) as [->|?]; [done | congruence]. }
  rewrite all_sep_app, Hall.
  replace (String.eqb (z +:+ "/") "") with false by (by destruct z).
  cbn [negb andb]. by rewrite rstrip_app_sep, rstrip_no_trailing.
Qed.

(** The parent of [/x] is [/], and that of [//x] is [//]. *)
Lemma dirname_root_name (n : nat) (x : string) :
  slash_free x = true -> dirname (root_of n +:+ x) = root_of n.
Proof.
  intros Hx. unfold dirname.
  destruct n as [|[|n]]; cbn [root_of String.append rsplit_sep];
    rewrite (rsplit_slash_free x Hx); [|done..].
  cbn [fst]. done.
Qed.

(** *** Normalising a path and one more component *)

Lemma initial_slashes_absolute (d : string) :
  isabs d = true -> initial_slashes d = 1 \/ initial_slashes d = 2.
Proof.
  unfold isabs, initial_slashes. intros ->.
  destruct (_ && _)%bool; auto.
Qed.

Lemma initial_slashes_app_name (d : string) (c : ascii) (x : string) :
  isabs d = true -> Ascii.eqb c sep = false ->
  initial_slashes (d +:+ String c x) = initial_slashes d.
Proof.
  intros Hd Hc. assert (Ascii.eqb "/" c = false) as Hc'.
  { rewrite Ascii.eqb_sym. exact Hc. }
  apply isabs_inv in Hd as [d1 ->]. unfold initial_slashes.
  destruct d1 as [|b [|e d3]]; cbn [String.append Str.startswith];
    rewrite ?Ascii.eqb_refl, ?Hc'; cbn [andb negb]; done.
Qed.

Lemma initial_slashes_app_sep (d z : string) :
  isabs d = true -> endswith_sep d = false ->
  initial_slashes (d +:+ String sep z) = initial_slashes d.
Proof.
  intros Hd He. apply isabs_inv in Hd as [d1 ->]. unfold initial_slashes.
  destruct d1 as [|b [|e d3]]; cbn [String.append Str.startswith];
    rewrite ?Ascii.eqb_refl; cbn [andb negb]; try done.
  cbn [endswith_sep] in He. unfold sep in He.
  rewrite Ascii.eqb_sym in He. by rewrite He.
Qed.

Lemma root_of_initial_slashes (d : string) :
  isabs d = true ->
  String.eqb (root_of (initial_slashes d)) "" = false
  /\ all_sep (root_of (initial_slashes d)) = true
  /\ endswith_sep (root_of (initial_slashes d)) = true.
Proof. by intros [-> | ->]%initial_slashes_absolute. Qed.

Lemma normpath_absolute (d : string) :
  isabs d = true ->
  normpath d = root_of (initial_slashes d)
               +:+ join_sep (norm_comps true (split_sep d) []).
Proof.
  intros Hd. unfold normpath.
  destruct (isabs_inv d Hd) as [r ->]. cbn [String.eqb].
  destruct (initial_slashes_absolute _ Hd) as [-> | ->]; by cbn.
Qed.

Lemma join_sep_comps_tail (l : list string) :
  l <> [] -> Forall (fun x => is_comp x = true) l ->
  String.eqb (join_sep l) "" = false /\ endswith_sep (join_sep l) = false.
Proof.
  intros Hne Hl. destruct (exists_last Hne) as (l' & x & ->).
  apply Forall_app in Hl as [_ Hx]. inversion Hx as [|? ? Hcomp _]; subst.
  unfold is_comp in Hcomp. rewrite !andb_true_iff, !negb_true_iff in Hcomp.
  destruct Hcomp as [[Hfree Hx1] _].
  destruct l' as [|a l'].
  - cbn [app join_sep]. split; [done | by apply endswith_slash_free].
  - rewrite join_sep_snoc by done. split.
    + by destruct (join_sep (a :: l')).
    + rewrite endswith_sep_app by done. cbn [endswith_sep].
      destruct x as [|c x]; [done|]. by apply (endswith_slash_free (String c x)).
Qed.

(** For an absolute [d] and a file name [x], the normal form of [d/x] is
    that of [d] with one more component. *)
Lemma normpath_join_name (d x : string) :
  isabs d = true -> is_name x = true ->
  exists n C,
    (n = 1 \/ n = 2)
    /\ Forall (fun c => is_comp c = true) C
    /\ normpath d = root_of n +:+ join_sep C
    /\ normpath (join d x) = root_of n +:+ join_sep (C ++ [x]).
Proof.
  intros Hd Hx. pose proof Hx as (Hfree & Hx1 & Hx2 & Hx3)%is_name_inv.
  destruct (slash_free_head x Hfree Hx1) as (c & x' & -> & Hc).
  assert (Ascii.eqb "/" c = false) as Hc' by (by rewrite Ascii.eqb_sym).
  assert (exists y,
    join d (String c x') = y +:+ String sep (String c x')
    /\ norm_comps true (split_sep y) [] = norm_comps true (split_sep d) []
    /\ initial_slashes (join d (String c x')) = initial_slashes d)
    as (y & Hjoin & Hcomps & Hinit).
  { unfold join. cbn [Str.startswith]. rewrite Hc'. cbn [andb].
    destruct (isabs_inv d Hd) as [r ->]. cbn [String.eqb orb].
    destruct (endswith_sep (String "/" r)) eqn:He.
    - destruct (endswith_sep_inv _ He) as [y Hy]. exists y. rewrite Hy.
      split_and!.
      + by rewrite append_assoc.
      + change (y +:+ "/") with (y +:+ String sep "").
        by rewrite split_sep_app_sep, norm_comps_snoc_empty.
      + rewrite <- Hy. by apply initial_slashes_app_name.
    - exists (String "/" r). split_and!; [done | done |].
      by apply initial_slashes_app_sep. }
  assert (isabs (join d (String c x')) = true) as Habs by (by apply join_absolute).
  exists (initial_slashes d), (norm_comps true (split_sep d) []).
  split_and!.
  - by apply initial_slashes_absolute.
  - apply norm_comps_is_comp; [apply split_sep_slash_free | constructor].
  - by apply normpath_absolute.
  - rewrite (normpath_absolute _ Habs), Hinit.
    rewrite Hjoin, split_sep_app_sep, (split_slash_free _ Hfree).
    by rewrite (norm_comps_snoc_name _ _ _ Hx), Hcomps.
Qed.

(** For an absolute [d] and a file name [x], normalising [d/x] and taking
    the parent gives [d] normalised. *)
Lemma dirname_normpath_join (d x : string) :
  isabs d = true -> is_name x = true ->
  dirname (normpath (join d x)) = normpath d.
Proof.
  intros Hd Hx. pose proof Hx as (Hfree & _)%is_name_inv.
  destruct (normpath_join_name d x Hd Hx) as (n & C & Hn & HC & -> & ->).
  assert (String.eqb (root_of n) "" = false /\ endswith_sep (root_of n) = true)
    as [Hr1 Hr3] by (by destruct Hn as [-> | ->]).
  destruct C as [|a C'].
  - cbn [app join_sep]. rewrite append_nil_r. by apply dirname_root_name.
  - rewrite join_sep_snoc by done.
    destruct (join_sep_comps_tail (a :: C') ltac:(done) HC) as [Hj1 Hj2].
    rewrite <- append_assoc. apply dirname_app_sep; [done | |].
    + by rewrite endswith_sep_app.
    + by destruct (root_of n).
Qed.

(** *** Joining a directory and a file name *)

(** [os.path.join(y, x)] for a file name [x], case by case. *)
Lemma join_name (y x : string) :
  is_name x = true ->
  (y = "" /\ join y x = x)
  \/ (exists y', y = y' +:+ "/" /\ join y x = y' +:+ String sep x)
  \/ (String.eqb y "" = false /\ endswith_sep y = false
      /\ join y x = y +:+ String sep x).
Proof.
  intros (Hfree & Hx1 & _)%is_name_inv.
  destruct (slash_free_head x Hfree Hx1) as (c & x' & -> & Hc).
  assert (Ascii.eqb "/" c = false) as Hc' by (by rewrite Ascii.eqb_sym).
  unfold join. cbn [Str.startswith]. rewrite Hc'.
  cbn [andb]. destruct (String.eqb_spec y "") as [->|Hy]; [by left|].
  cbn [orb]. destruct (endswith_sep y) eqn:He.
  - right. left. destruct (endswith_sep_inv y He) as [y' ->].
    exists y'. by rewrite append_assoc.
  - right. right. done.
Qed.

Lemma join_name_nonempty (y x : string) :
  is_name x = true -> join y x <> "".
Proof.
  intros Hx. pose proof Hx as (Hfree & Hx1 & _)%is_name_inv.
  destruct (join_name y x Hx) as [[_ ->] | [(y' & _ & ->) | (_ & _ & ->)]].
  - by intros ->.
  - by destruct y'.
  - by destruct y.
Qed.

Lemma basename_join (y x : string) :
  is_name x = true -> basename (join y x) = x.
Proof.
  intros Hx. pose proof Hx as (Hfree & _)%is_name_inv. unfold basename.
  destruct (join_name y x Hx) as [[_ ->] | [(y' & _ & ->) | (_ & _ & ->)]].
  - by rewrite rsplit_slash_free.
  - by rewrite rsplit_app_sep.
  - by rewrite rsplit_app_sep.
Qed.

(** The result of [dirname] ends with a slash only when it is made of
    slashes. *)
Lemma dirname_trailing (q : string) :
  endswith_sep (dirname q) = true -> all_sep (dirname q) = true.
Proof.
  unfold dirname. destruct (rsplit_sep q) as [h t]. cbn [fst].
  destruct (String.eqb h "") eqn:Hh; cbn [negb andb].
  - apply String.eqb_eq in Hh as ->. done.
  - destruct (all_sep h) eqn:Ha; cbn [negb]; [done|].
    by rewrite endswith_rstrip.
Qed.

Lemma dirname_join (y x : string) :
  is_name x = true ->
  (endswith_sep y = true -> all_sep y = true) ->
  dirname (join y x) = y.
Proof.
  intros Hx Hy. pose proof Hx as (Hfree & _)%is_name_inv.
  destruct (join_name y x Hx) as [[-> ->] | [(y' & -> & ->) | (Hne & He & ->)]].
  - unfold dirname. by rewrite rsplit_slash_free.
  - unfold dirname. rewrite rsplit_app_sep by done. cbn [fst].
    rewrite Hy; [by rewrite andb_false_r|].
    by rewrite endswith_sep_app.
  - by apply dirname_app_sep.
Qed.

Lemma isabs_dirname (s : string) : isabs (dirname (String "/" s)) = true.
Proof.
  unfold dirname. cbn [rsplit_sep].
  destruct (rsplit_sep s) as [h t].
  assert (exists h', (match h with
                      | "" => if Ascii.eqb "/" sep then ("/", s) else ("", String "/" s)
                      | _ => (String "/" h, t)
                      end).1 = String "/" h') as [h' ->].
  { destruct h; cbn; eauto. }
  cbn [String.eqb negb andb all_sep]. rewrite Ascii.eqb_refl. cbn [andb].
  destruct (all_sep h') eqn:Ha; cbn [negb]; [done|].
  cbn [rstrip_sep]. destruct (rstrip_sep h') eqn:Hr; [|done].
  apply rstrip_sep_empty in Hr. congruence.
Qed.

Lemma isabs_dirname_abspath (cwd p : string) :
  isabs cwd = true -> isabs (dirname (abspath cwd p)) = true.
Proof.
  intros Hc. destruct (abspath_absolute cwd p Hc) as [r ->].
  apply isabs_dirname.
Qed.

Lemma abspath_of_absolute (cwd p : string) :
  isabs p = true -> abspath cwd p = normpath p.
Proof. intros Hp. unfold abspath. by rewrite Hp. Qed.

(** Joining to the working directory and then to a name is joining to
    the name first. *)
Lemma join_join (cwd d x : string) :
  isabs d = false -> String.eqb d "" = false -> is_name x = true ->
  join cwd (join d x) = join (join cwd d) x.
Proof.
  intros Hd Hne Hx.
  assert (isabs (join d x) = false) as Hdx.
  { destruct (join_name d x Hx) as [[-> _] | [(y' & -> & ->) | (_ & _ & ->)]];
      [done | |]; unfold isabs in *.
    - destruct y'; [done|]. exact Hd.
    - destruct d; [done|]. exact Hd. }
  assert (endswith_sep (join cwd d) = endswith_sep d) as Hends.
  { unfold join. unfold isabs in Hd. rewrite Hd.
    destruct (_ || _)%bool; [by apply endswith_sep_app|].
    rewrite endswith_sep_app by done. by destruct d. }
  assert (String.eqb (join cwd d) "" = false) as Hjne.
  { unfold join. unfold isabs in Hd. rewrite Hd.
    destruct (_ || _)%bool; [destruct cwd, d; done | destruct cwd; done]. }
  pose proof Hx as (Hfree & Hx1 & _)%is_name_inv.
  destruct (slash_free_head x Hfree Hx1) as (c & x' & -> & Hc).
  assert (Str.startswith "/" (String c x') = false) as Hcx.
  { cbn [Str.startswith]. rewrite Ascii.eqb_sym. fold sep. by rewrite Hc. }
  unfold join at 1 3. unfold isabs in Hdx. rewrite Hdx, Hcx, Hjne, Hends.
  cbn [orb]. unfold join. unfold isabs in Hd. rewrite Hd, Hcx, Hne. cbn [orb].
  destruct (String.eqb cwd "" || endswith_sep cwd)%bool, (endswith_sep d);
    by rewrite ?append_assoc.
Qed.

(** The parent of [d/x], resolved, is [d] resolved. *)
Lemma dirname_abspath_join (cwd d x : string) :
  isabs cwd = true -> String.eqb d "" = false -> is_name x = true ->
  dirname (abspath cwd (join d x)) = abspath cwd d.
Proof.
  intros Hc Hd Hx. unfold abspath at 2. destruct (isabs d) eqn:Habs.
  - rewrite abspath_of_absolute by (by apply join_absolute).
    by apply dirname_normpath_join.
  - assert (isabs (join d x) = false) as Hdx.
    { destruct (join_name d x Hx) as [[-> _] | [(y' & -> & ->) | (_ & _ & ->)]];
        [done | |]; unfold isabs in *.
      - destruct y'; [done|]. exact Habs.
      - destruct d; [done|]. exact Habs. }
    unfold abspath. rewrite Hdx, join_join by done.
    apply dirname_normpath_join; [by apply join_absolute | done].
Qed.

(** Normalising and joining a file name commute. *)
Lemma normpath_join (d x : string) :
  isabs d = true -> is_name x = true ->
  normpath (join d x) = join (normpath d) x.
Proof.
  intros Hd Hx.
  destruct (normpath_join_name d x Hd Hx) as (n & C & Hn & HC & -> & ->).
  assert (String.eqb (root_of n) "" = false /\ endswith_sep (root_of n) = true)
    as [Hr1 Hr3] by (by destruct Hn as [-> | ->]).
  destruct C as [|a C'].
  - cbn [app join_sep]. rewrite append_nil_r.
    destruct (join_name (root_of n) x Hx) as [[Hy _] | [(y' & Hy & ->) | (_ & He & _)]].
    + by rewrite Hy in Hr1.
    + rewrite Hy, append_assoc. done.
    + congruence.
  - destruct (join_sep_comps_tail (a :: C') ltac:(done) HC) as [Hj1 Hj2].
    assert (endswith_sep (root_of n +:+ join_sep (a :: C')) = false) as Hend
      by (by rewrite endswith_sep_app).
    rewrite join_sep_snoc by done.
    destruct (join_name (root_of n +:+ join_sep (a :: C')) x Hx)
      as [[Hy _] | [(y' & Hy & _) | (_ & _ & ->)]].
    + rewrite Hy in Hend. by destruct (root_of n).
    + rewrite Hy, endswith_sep_app in Hend by done. done.
    + by rewrite append_assoc.
Qed.

Lemma abspath_join (cwd d x : string) :
  isabs cwd = true -> String.eqb d "" = false -> is_name x = true ->
  abspath cwd (join d x) = join (abspath cwd d) x.
Proof.
  intros Hc Hd Hx. unfold abspath at 2. destruct (isabs d) eqn:Habs.
  - rewrite abspath_of_absolute by (by apply join_absolute).
    by apply normpath_join.
  - assert (isabs (join d x) = false) as Hdx.
    { destruct (join_name d x Hx) as [[-> _] | [(y' & -> & ->) | (_ & _ & ->)]];
        [done | |]; unfold isabs in *.
      - destruct y'; [done|]. exact Habs.
      - destruct d; [done|]. exact Habs. }
    unfold abspath. rewrite Hdx, join_join by done.
    apply normpath_join; [by apply join_absolute | done].
Qed.

(** Two folders hold the same file exactly when they are the same
    folder. *)
Lemma same_file_same_folder (cwd d1 d2 x : string) :
  isabs cwd = true -> String.eqb d1 "" = false -> String.eqb d2 "" = false ->
  is_name x = true ->
  abspath cwd (join d1 x) = abspath cwd (join d2 x)
  <-> abspath cwd d1 = abspath cwd d2.
Proof.
  intros Hc H1 H2 Hx. split.
  - intros Heq. apply (f_equal dirname) in Heq.
    by rewrite !dirname_abspath_join in Heq.
  - intros Heq. by rewrite !abspath_join, Heq.
Qed.

(** *** Components and ancestors of a normalised path *)

Lemma is_comp_inv (x : string) :
  is_comp x = true ->
  slash_free x = true /\ String.eqb x "" = false /\ String.eqb x "." = false.
Proof. unfold is_comp. rewrite !andb_true_iff, !negb_true_iff. tauto. Qed.

Lemma is_name_comp (x : string) : is_name x = true -> is_comp x = true.
Proof.
  intros (H1 & H2 & H3 & _)%is_name_inv. unfold is_comp. by rewrite H1, H2, H3.
Qed.

Lemma split_join_sep (l : list string) :
  l <> [] -> Forall (fun c => is_comp c = true) l -> split_sep (join_sep l) = l.
Proof.
  induction l as [|a l IH]; [done|]. intros _ Hl.
  inversion Hl as [|? ? Ha Hl']; subst. apply is_comp_inv in Ha as (Ha & _).
  destruct l as [|b l]; [by apply split_slash_free|].
  change (join_sep (a :: b :: l)) with (a +:+ String sep (join_sep (b :: l))).
  by rewrite split_sep_app_sep, (split_slash_free a Ha), IH.
Qed.

Lemma join_sep_head (l : list string) :
  l <> [] -> Forall (fun c => is_comp c = true) l ->
  exists c r, join_sep l = String c r /\ Ascii.eqb "/" c = false.
Proof.
  destruct l as [|a l]; [done|]. intros _ Hl.
  inversion Hl as [|? ? Ha Hl']; subst. apply is_comp_inv in Ha as (Ha & Hne & _).
  destruct (slash_free_head a Ha Hne) as (c & a' & -> & Hc).
  assert (Ascii.eqb "/" c = false) as Hc' by (by rewrite Ascii.eqb_sym).
  destruct l; cbn [join_sep String.append]; eauto.
Qed.

Lemma filter_nonempty_comps (l : list string) :
  Forall (fun c => is_comp c = true) l ->
  filter (fun x : string => x <> "") l = l.
Proof.
  induction 1 as [|a l Ha _ IH]; [done|].
  apply is_comp_inv in Ha as (_ & Hne & _).
  rewrite filter_cons_True; [by rewrite IH|].
  intros ->. done.
Qed.

Lemma components_normal (n : nat) (C : list string) :
  n = 1 \/ n = 2 -> Forall (fun c => is_comp c = true) C ->
  components (root_of n +:+ join_sep C) = C.
Proof.
  intros Hn HC. unfold components.
  destruct C as [|a C'].
  - by destruct Hn as [-> | ->].
  - assert (split_sep (root_of n +:+ join_sep (a :: C'))
            = replicate n "" ++ a :: C') as ->.
    { destruct Hn as [-> | ->]; cbn [root_of replicate].
      - change ("/" +:+ join_sep (a :: C'))
          with ("" +:+ String sep (join_sep (a :: C'))).
        by rewrite split_sep_app_sep, split_join_sep.
      - change ("//" +:+ join_sep (a :: C'))
          with ("/" +:+ String sep (join_sep (a :: C'))).
        by rewrite split_sep_app_sep, split_join_sep. }
    rewrite filter_app, (filter_nonempty_comps _ HC).
    by destruct Hn as [-> | ->].
Qed.

Lemma ancestors_normal (n : nat) (C : list string) :
  n = 1 \/ n = 2 -> Forall (fun c => is_comp c = true) C ->
  ancestors (root_of n +:+ join_sep C)
  = map (fun k => root_of n +:+ join_sep (take k C)) (seq 0 (S (length C))).
Proof.
  intros Hn HC. unfold ancestors. rewrite (components_normal n C Hn HC).
  assert (Str.startswith "//" (root_of n +:+ join_sep C) = Nat.eqb n 2) as ->.
  { destruct C as [|a C'].
    - by destruct Hn as [-> | ->].
    - destruct (join_sep_head (a :: C') ltac:(done) HC) as (c & r & -> & Hc).
      destruct Hn as [-> | ->]; cbn [root_of String.append Str.startswith];
        rewrite ?Ascii.eqb_refl, ?Hc; done. }
  by destruct Hn as [-> | ->].
Qed.

(** [d/x] is none of the directories from the root down to [d]. *)
Lemma child_not_ancestor (cwd d x : string) :
  isabs cwd = true -> String.eqb d "" = false -> is_name x = true ->
  abspath cwd (join d x) ∉ ancestors (abspath cwd d).
Proof.
  intros Hc Hd Hx.
  assert (exists D, isabs D = true /\ abspath cwd d = normpath D
                    /\ abspath cwd (join d x) = normpath (join D x))
    as (D & HD & -> & ->).
  { unfold abspath at 1. destruct (isabs d) eqn:Habs.
    - exists d. split_and!; [done | done |].
      apply abspath_of_absolute. by apply join_absolute.
    - exists (join cwd d). split_and!; [by apply join_absolute | done |].
      assert (isabs (join d x) = false) as Hdx.
      { destruct (join_name d x Hx) as [[-> _] | [(y' & -> & ->) | (_ & _ & ->)]];
          [done | |]; unfold isabs in *.
        - destruct y'; [done|]. exact Habs.
        - destruct d; [done|]. exact Habs. }
      unfold abspath. by rewrite Hdx, join_join. }
  destruct (normpath_join_name D x HD Hx) as (n & C & Hn & HC & -> & ->).
  rewrite (ancestors_normal n C Hn HC).
  intros (k & Heq & _)%list_elem_of_fmap.
  apply String.app_inj in Heq.
  assert (Forall (fun c => is_comp c = true) (C ++ [x])) as HCx.
  { apply Forall_app. split; [done|]. constructor; [by apply is_name_comp | done]. }
  assert (Forall (fun c => is_comp c = true) (take k C)) as HCk.
  { by apply Forall_take. }
  destruct (join_sep_comps_tail (C ++ [x]) ltac:(by destruct C) HCx) as [Hne _].
  destruct (take k C) as [|a T] eqn:Htake.
  - rewrite Heq in Hne. done.
  - apply (f_equal split_sep) in Heq.
    rewrite !split_join_sep in Heq by (done || by destruct C).
    apply (f_equal length) in Heq. rewrite <- Htake in Heq.
    rewrite length_app, length_take in Heq. cbn in Heq. lia.
Qed.

Lemma join_nonempty (a b : string) : b <> "" -> join a b <> "".
Proof.
  intros Hb. unfold join. destruct (Str.startswith "/" b); [done|].
  destruct (_ || _)%bool.
  - destruct a; [done|]. by cbn.
  - destruct a; [|by cbn]. cbn. done.
Qed.

(** *** Relative paths *)

Lemma abspath_normal (cwd p : string) :
  isabs cwd = true ->
  exists n C,
    (n = 1 \/ n = 2) /\ Forall (fun c => is_comp c = true) C
    /\ abspath cwd p = root_of n +:+ join_sep C.
Proof.
  intros Hc. unfold abspath.
  set (q := if isabs p then p else join cwd p).
  assert (isabs q = true) as Hq.
  { unfold q. destruct (isabs p) eqn:Hp; [done | by apply join_absolute]. }
  exists (initial_slashes q), (norm_comps true (split_sep q) []). split_and!.
  - by apply initial_slashes_absolute.
  - apply norm_comps_is_comp; [apply split_sep_slash_free | constructor].
  - by apply normpath_absolute.
Qed.

Lemma components_abspath (cwd p : string) :
  isabs cwd = true ->
  Forall (fun c => is_comp c = true) (components (abspath cwd p)).
Proof.
  intros Hc. destruct (abspath_normal cwd p Hc) as (n & C & Hn & HC & ->).
  by rewrite components_normal.
Qed.

(** Joining components one after the other is joining them with
    slashes. *)
Lemma join_all_comps (x : string) (l : list string) :
  Forall (fun c => is_comp c = true) (x :: l) ->
  join_all x l = join_sep (x :: l).
Proof.
  unfold join_all. induction l as [|b l IH] using rev_ind; [done|].
  intros Hall. rewrite fold_left_app. cbn [fold_left].
  rewrite app_comm_cons in Hall. apply Forall_app in Hall as [Hl Hb].
  inversion Hb as [|? ? Hbc _]; subst.
  rewrite IH by done. rewrite app_comm_cons, join_sep_snoc by done.
  destruct (join_sep_comps_tail (x :: l) ltac:(done) Hl) as [Hne Hends].
  apply is_comp_inv in Hbc as (Hfree & Hbne & _).
  destruct (slash_free_head b Hfree Hbne) as (c & b' & -> & Hc).
  unfold join. cbn [Str.startswith]. rewrite Ascii.eqb_sym. fold sep.
  rewrite Hc, Hne, Hends. done.
Qed.

Lemma join_all_comps_not_dot (x : string) (l : list string) :
  Forall (fun c => is_comp c = true) (x :: l) -> join_all x l <> ".".
Proof.
  intros Hall Hdot. rewrite join_all_comps in Hdot by done.
  apply (f_equal split_sep) in Hdot. rewrite split_join_sep in Hdot by done.
  injection Hdot as -> _. by inversion Hall.
Qed.

Lemma common_len_le (l1 l2 : list string) :
  common_len l1 l2 <= length l1 /\ common_len l1 l2 <= length l2.
Proof.
  revert l2. induction l1 as [|x l1 IH]; intros [|y l2]; cbn; try lia.
  destruct (String.eqb x y); cbn; [|lia]. specialize (IH l2). lia.
Qed.

Lemma common_len_full (l1 l2 : list string) :
  common_len l1 l2 = length l1 -> length l2 <= common_len l1 l2 -> l1 = l2.
Proof.
  revert l2. induction l1 as [|x l1 IH]; intros [|y l2]; cbn; try done; try lia.
  destruct (String.eqb_spec x y) as [->|]; cbn; [|done].
  intros H1 H2. f_equal. apply IH; lia.
Qed.

(** [relpath] answers [.] only for the directory itself. *)
Lemma relpath_dot (cwd path start : string) :
  isabs cwd = true ->
  relpath cwd path start = Some "." ->
  path <> "" /\ components (abspath cwd path) = components (abspath cwd start).
Proof.
  intros Hc. unfold relpath. destruct (String.eqb_spec path ""); [done|].
  cbv zeta.
  pose proof (components_abspath cwd path Hc) as Hp.
  pose proof (components_abspath cwd start Hc) as Hs.
  set (sl := components (abspath cwd start)) in *.
  set (pl := components (abspath cwd path)) in *.
  destruct (common_len_le sl pl) as [Hle1 Hle2].
  destruct (replicate (length sl - common_len sl pl) ".." ++ drop (common_len sl pl) pl)
    as [|x l] eqn:Hrel.
  - intros _. split; [done|]. apply app_eq_nil in Hrel as [Hrep Hdrop].
    apply (f_equal length) in Hrep, Hdrop.
    rewrite length_replicate in Hrep. rewrite length_drop in Hdrop. cbn in *.
    symmetry. apply common_len_full; lia.
  - intros [= Hdot]. exfalso. apply (join_all_comps_not_dot x l); [|done].
    rewrite <- Hrel. apply Forall_app. split.
    + apply Forall_replicate. done.
    + by apply Forall_drop.
Qed.

(** *** A folder inside a directory *)

Lemma normpath_app_sep (d : string) :
  isabs d = true -> endswith_sep d = false -> normpath (d +:+ "/") = normpath d.
Proof.
  intros Hd He.
  assert (isabs (d +:+ "/") = true) as Hd'.
  { apply isabs_inv in Hd as [s ->]. done. }
  rewrite (normpath_absolute _ Hd'), (normpath_absolute _ Hd).
  change "/" with (String sep "").
  rewrite initial_slashes_app_sep, split_sep_app_sep by done.
  change (split_sep "") with [""]. by rewrite norm_comps_snoc_empty.
Qed.

Lemma normpath_join_empty (d : string) :
  isabs d = true -> normpath (join d "") = normpath d.
Proof.
  intros Hd. unfold join. cbn [Str.startswith].
  destruct (String.eqb_spec d "") as [->|_]; [done|]. cbn [orb].
  destruct (endswith_sep d) eqn:He.
  - by rewrite append_nil_r.
  - by apply normpath_app_sep.
Qed.

Lemma is_name_relative (x : string) : is_name x = true -> isabs x = false.
Proof.
  intros (Hfree & Hx & _)%is_name_inv.
  destruct (slash_free_head x Hfree Hx) as (c & x' & -> & Hc).
  assert (Ascii.eqb "/" c = false) as Hc' by (by rewrite Ascii.eqb_sym).
  unfold isabs. cbn [Str.startswith]. by rewrite Hc'.
Qed.

(** A directory and an entry of it, both resolved: the components of the
    entry are those of the directory and its name. *)
Lemma abspath_join_normal (cwd d x : string) :
  isabs cwd = true -> is_name x = true ->
  exists n C,
    (n = 1 \/ n = 2) /\ Forall (fun c => is_comp c = true) C
    /\ abspath cwd d = root_of n +:+ join_sep C
    /\ abspath cwd (join d x) = root_of n +:+ join_sep (C ++ [x]).
Proof.
  intros Hc Hx. pose proof (is_name_relative x Hx) as Hrel.
  destruct (String.eqb_spec d "") as [->|Hd%String.eqb_neq].
  - destruct (normpath_join_name cwd x Hc Hx) as (n & C & Hn & HC & H1 & H2).
    exists n, C. split_and!; [done | done | |].
    + unfold abspath. cbn [isabs Str.startswith]. by rewrite normpath_join_empty.
    + destruct (join_name "" x Hx) as [[_ ->] | [(y' & Hy & _) | (Hy & _)]];
        [| by destruct y' | done].
      unfold abspath. by rewrite Hrel.
  - destruct (isabs d) eqn:Habs.
    + destruct (normpath_join_name d x Habs Hx) as (n & C & Hn & HC & H1 & H2).
      exists n, C. split_and!; [done | done | |].
      * by rewrite abspath_of_absolute.
      * by rewrite abspath_of_absolute by (by apply join_absolute).
    + assert (isabs (join d x) = false) as Hdx.
      { destruct (join_name d x Hx) as [[-> _] | [(y' & -> & ->) | (_ & _ & ->)]];
          [done | |]; unfold isabs in *.
        - destruct y'; [done|]. exact Habs.
        - destruct d; [done|]. exact Habs. }
      destruct (normpath_join_name (join cwd d) x (join_absolute _ _ Hc) Hx)
        as (n & C & Hn & HC & H1 & H2).
      exists n, C. split_and!; [done | done | |].
      * unfold abspath. by rewrite Habs.
      * unfold abspath. by rewrite Hdx, join_join.
Qed.

Lemma common_len_app (l l' : list string) : common_len l (l ++ l') = length l.
Proof.
  induction l as [|x l IH]; [by destruct l'|].
  cbn [app common_len length]. by rewrite String.eqb_refl, IH.
Qed.

(** The path of an entry relative to its directory is its name. *)
Lemma relpath_child (cwd d x : string) :
  isabs cwd = true -> is_name x = true ->
  relpath cwd (join d x) d = Some x
  /\ components (abspath cwd (join d x)) = components (abspath cwd d) ++ [x].
Proof.
  intros Hc Hx.
  destruct (abspath_join_normal cwd d x Hc Hx) as (n & C & Hn & HC & H1 & H2).
  assert (components (abspath cwd (join d x)) = C ++ [x]) as Hp.
  { rewrite H2. apply components_normal; [done|].
    apply Forall_app. split; [done|]. constructor; [by apply is_name_comp | done]. }
  assert (components (abspath cwd d) = C) as Hs.
  { rewrite H1. by apply components_normal. }
  split; [|by rewrite Hp, Hs].
  unfold relpath.
  destruct (String.eqb_spec (join d x) "") as [He|_];
    [by apply join_name_nonempty in He|].
  cbv zeta. rewrite Hp, Hs, common_len_app, Nat.sub_diag, drop_app_length.
  done.
Qed.

Lemma abspath_join_empty (cwd d : string) :
  isabs cwd = true -> String.eqb d "" = false ->
  abspath cwd (join d "") = abspath cwd d.
Proof.
  intros Hc Hd. destruct (isabs d) eqn:Habs.
  - rewrite !abspath_of_absolute by (done || by apply join_absolute).
    by apply normpath_join_empty.
  - unfold join at 1. cbn [Str.startswith]. rewrite Hd. cbn [orb].
    destruct (endswith_sep d) eqn:He; [by rewrite append_nil_r|].
    change ("/" +:+ "") with "/".
    assert (isabs (d +:+ "/") = false) as Habs'.
    { destruct d; [done|]. exact Habs. }
    unfold abspath. rewrite Habs, Habs'.
    assert (join cwd (d +:+ "/") = join cwd d +:+ "/") as ->.
    { unfold join. fold (isabs (d +:+ "/")). fold (isabs d). rewrite Habs, Habs'.
      destruct (_ || _)%bool; by rewrite ?append_assoc. }
    apply normpath_app_sep; [by apply join_absolute|].
    unfold join. fold (isabs d). rewrite Habs.
    destruct (_ || _)%bool; rewrite ?endswith_sep_app; done.
Qed.

(** *** Resolving a resolved path *)

Lemma norm_comps_abs_names (l acc : list string) :
  Forall (fun x => slash_free x = true) l ->
  Forall (fun x => is_name x = true) acc ->
  Forall (fun x => is_name x = true) (norm_comps true l acc).
Proof.
  revert acc. induction l as [|c l IH]; intros acc Hl Hacc; cbn [norm_comps].
  - by apply Forall_rev.
  - inversion Hl as [|? ? Hc Hl']; subst.
    destruct (String.eqb c "") eqn:H1; [by apply IH|].
    destruct (String.eqb c ".") eqn:H2; [by apply IH|].
    cbn [orb]. destruct (String.eqb c "..") eqn:H3; cbn [negb].
    + destruct acc as [|last acc']; [by apply IH|].
      inversion Hacc as [|? ? Hlast Hacc']; subst.
      apply is_name_inv in Hlast as (_ & _ & _ & ->). by apply IH.
    + apply IH; [done|]. constructor; [|done].
      unfold is_name. by rewrite Hc, H1, H2, H3.
Qed.

Lemma norm_comps_skip_empty (b : bool) (l : list string) :
  forall acc,
    norm_comps b (filter (fun x : string => x <> "") l) acc = norm_comps b l acc.
Proof.
  induction l as [|c l IH]; intros acc; [done|].
  rewrite filter_cons. destruct (decide (c <> "")) as [Hc|Hc].
  - cbn [norm_comps]. repeat case_match; apply IH.
  - assert (c = "") as -> by (by destruct (decide (c = ""))).
    cbn [norm_comps]. apply IH.
Qed.

Lemma norm_comps_names (b : bool) (C : list string) :
  Forall (fun x => is_name x = true) C -> norm_comps b C [] = C.
Proof.
  induction C as [|x C IH] using rev_ind; [done|].
  intros [HC Hx]%Forall_app. inversion Hx; subst.
  by rewrite norm_comps_snoc_name, IH.
Qed.

Lemma initial_slashes_normal (n : nat) (C : list string) :
  n = 1 \/ n = 2 -> Forall (fun c => is_comp c = true) C ->
  initial_slashes (root_of n +:+ join_sep C) = n.
Proof.
  intros Hn HC. destruct C as [|a C'].
  - by destruct Hn as [-> | ->].
  - destruct (join_sep_head (a :: C') ltac:(done) HC) as (c & r & -> & Hc).
    unfold initial_slashes.
    destruct Hn as [-> | ->]; cbn [root_of String.append Str.startswith];
      rewrite ?Ascii.eqb_refl, Hc; done.
Qed.



(** *** The working directory and the directories above it *)

Lemma rsplit_head_empty (p : string) :
  fst (rsplit_sep p) = "" -> slash_free p = true.
Proof.
  induction p as [|c p IH]; [done|]. cbn [rsplit_sep slash_free].
  destruct (rsplit_sep p) as [[|c' h] t]; cbn [fst] in *; [|done].
  destruct (Ascii.eqb c sep); [done|]. intros _. by rewrite IH.
Qed.

Lemma dirname_empty_slash_free (p : string) :
  dirname p = "" -> slash_free p = true.
Proof.
  unfold dirname. intros Hd. apply rsplit_head_empty.
  destruct (fst (rsplit_sep p)) as [|c h] eqn:Hh; [done|]. exfalso.
  cbn [String.eqb negb andb] in Hd.
  destruct (all_sep (String c h)) eqn:Hall; cbn [negb] in Hd; [done|].
  apply rstrip_sep_empty in Hd. congruence.
Qed.

(** Joining a name without slash to an absolute path and normalising:
    one more step of the loop of [normpath]. *)
Lemma normpath_join_free (d x : string) :
  isabs d = true -> slash_free x = true -> String.eqb x "" = false ->
  normpath (join d x)
  = root_of (initial_slashes d)
    +:+ join_sep (norm_comps true [x] (rev (norm_comps true (split_sep d) []))).
Proof.
  intros Hd Hfree Hx1.
  destruct (slash_free_head x Hfree Hx1) as (c & x' & -> & Hc).
  assert (Ascii.eqb "/" c = false) as Hc' by (by rewrite Ascii.eqb_sym).
  assert (exists y,
    join d (String c x') = y +:+ String sep (String c x')
    /\ norm_comps true (split_sep y) [] = norm_comps true (split_sep d) []
    /\ initial_slashes (join d (String c x')) = initial_slashes d)
    as (y & Hjoin & Hcomps & Hinit).
  { unfold join. cbn [Str.startswith]. rewrite Hc'. cbn [andb].
    destruct (isabs_inv d Hd) as [r ->]. cbn [String.eqb orb].
    destruct (endswith_sep (String "/" r)) eqn:He.
    - destruct (endswith_sep_inv _ He) as [y Hy]. exists y. rewrite Hy.
      split_and!.
      + by rewrite append_assoc.
      + change (y +:+ "/") with (y +:+ String sep "").
        by rewrite split_sep_app_sep, norm_comps_snoc_empty.
      + rewrite <- Hy. by apply initial_slashes_app_name.
    - exists (String "/" r). split_and!; [done | done |].
      by apply initial_slashes_app_sep. }
  assert (isabs (join d (String c x')) = true) as Habs by (by apply join_absolute).
  rewrite (normpath_absolute _ Habs), Hinit.
  rewrite Hjoin, split_sep_app_sep, (split_slash_free _ Hfree).
  by rewrite norm_comps_app, Hcomps.
Qed.

(** A resolved path is its own resolution. *)
Lemma abspath_of_normal (cwd : string) (n : nat) (C : list string) :
  n = 1 \/ n = 2 -> Forall (fun c => is_name c = true) C ->
  abspath cwd (root_of n +:+ join_sep C) = root_of n +:+ join_sep C.
Proof.
  intros Hn HC.
  assert (Forall (fun c => is_comp c = true) C) as HC'.
  { eapply Forall_impl; [exact HC|]. intros x. apply is_name_comp. }
  assert (isabs (root_of n +:+ join_sep C) = true) as Habs.
  { by destruct Hn as [-> | ->]. }
  rewrite abspath_of_absolute, normpath_absolute by done.
  rewrite initial_slashes_normal by done.
  rewrite <- norm_comps_skip_empty.
  fold (components (root_of n +:+ join_sep C)).
  by rewrite components_normal, norm_comps_names.
Qed.

(** The directory of a resolved path: one name less. *)
Lemma dirname_normal (n : nat) (C : list string) :
  n = 1 \/ n = 2 -> Forall (fun c => is_comp c = true) C ->
  dirname (root_of n +:+ join_sep C)
  = root_of n +:+ join_sep (take (length C - 1) C).
Proof.
  intros Hn HC.
  assert (String.eqb (root_of n) "" = false /\ endswith_sep (root_of n) = true)
    as [Hr1 Hr3] by (by destruct Hn as [-> | ->]).
  destruct C as [|x C] using rev_ind.
  - cbn [join_sep length take]. rewrite append_nil_r.
    by destruct Hn as [-> | ->].
  - clear IHC. rewrite length_app. cbn [length].
    replace (length C + 1 - 1) with (length C) by lia.
    rewrite take_app_length.
    apply Forall_app in HC as [HC Hx]. inversion Hx as [|? ? Hx' _]; subst.
    apply is_comp_inv in Hx' as (Hfree & _).
    destruct C as [|a C'].
    + cbn [app join_sep]. rewrite append_nil_r. by apply dirname_root_name.
    + rewrite join_sep_snoc by done.
      destruct (join_sep_comps_tail (a :: C') ltac:(done) HC) as [Hj1 Hj2].
      rewrite <- append_assoc. apply dirname_app_sep; [done | |].
      * by rewrite endswith_sep_app.
      * by destruct (root_of n).
Qed.

Lemma parents_normal (n : nat) (C : list string) :
  n = 1 \/ n = 2 -> Forall (fun c => is_comp c = true) C ->
  parents (root_of n +:+ join_sep C)
  = rev (map (fun k => root_of n +:+ join_sep (take k C)) (seq 0 (length C))).
Proof.
  intros Hn HC. unfold parents. rewrite (components_normal n C Hn HC).
  assert (Str.startswith "//" (root_of n +:+ join_sep C) = Nat.eqb n 2) as ->.
  { destruct C as [|a C'].
    - by destruct Hn as [-> | ->].
    - destruct (join_sep_head (a :: C') ltac:(done) HC) as (c & r & -> & Hc).
      destruct Hn as [-> | ->]; cbn [root_of String.append Str.startswith];
        rewrite ?Ascii.eqb_refl, ?Hc; done. }
  by destruct Hn as [-> | ->].
Qed.

Lemma take_in_ancestors (n : nat) (C : list string) (m : nat) :
  n = 1 \/ n = 2 -> Forall (fun c => is_comp c = true) C ->
  root_of n +:+ join_sep (take m C) ∈ ancestors (root_of n +:+ join_sep C).
Proof.
  intros Hn HC. rewrite (ancestors_normal n C Hn HC).
  apply list_elem_of_fmap. exists (m `min` length C). split.
  - destruct (Nat.le_gt_cases m (length C)).
    + by rewrite Nat.min_l.
    + rewrite Nat.min_r by lia. by rewrite !take_ge by lia.
  - apply elem_of_seq. lia.
Qed.

Lemma nearest_working (cwd : string) (f : gmap string node) (qs : list string) :
  (forall q, q ∈ qs -> working cwd q = true) ->
  nearest cwd f qs = None \/ nearest cwd f qs = Some Dir.
Proof.
  intros Hqs. destruct qs as [|q qs]; [by left|]. right.
  cbn [nearest]. by rewrite (Hqs q) by apply list_elem_of_here.
Qed.

(** Nothing stands in the way of the working directory and of the
    directories above it. *)
Lemma blocked_above_cwd (cwd : string) (f : gmap string node)
    (n : nat) (Cs : list string) (j : nat) :
  n = 1 \/ n = 2 -> Forall (fun c => is_name c = true) Cs ->
  abspath cwd "" = root_of n +:+ join_sep Cs ->
  blocked cwd f (root_of n +:+ join_sep (take j Cs)) = false.
Proof.
  intros Hn HCs Hcwd.
  assert (Forall (fun c => is_comp c = true) Cs) as HCs'.
  { eapply Forall_impl; [exact HCs|]. intros x. apply is_name_comp. }
  unfold blocked. rewrite parents_normal by (done || by apply Forall_take).
  destruct (nearest_working cwd f
              (rev (map (fun k => root_of n +:+ join_sep (take k (take j Cs)))
                      (seq 0 (length (take j Cs)))))) as [-> | ->]; [|done..].
  intros q Hq. apply list_elem_of_In, in_rev, list_elem_of_In in Hq.
  apply list_elem_of_fmap in Hq as (k & -> & _).
  unfold working. apply bool_decide_eq_true_2. rewrite Hcwd, take_take.
  by apply take_in_ancestors.
Qed.

(** The resolution of a path without slash: the working directory, a
    directory above it, or an entry of it. *)
Lemma abspath_slash_free (cwd x : string) :
  isabs cwd = true -> slash_free x = true ->
  exists n Cs,
    (n = 1 \/ n = 2) /\ Forall (fun c => is_name c = true) Cs
    /\ abspath cwd "" = root_of n +:+ join_sep Cs
    /\ (is_name x = true /\ abspath cwd x = root_of n +:+ join_sep (Cs ++ [x])
        \/ exists j, abspath cwd x = root_of n +:+ join_sep (take j Cs)).
Proof.
  intros Hc Hfree.
  set (n := initial_slashes cwd).
  set (Cs := norm_comps true (split_sep cwd) []).
  assert (Forall (fun c => is_name c = true) Cs) as HCs.
  { apply norm_comps_abs_names; [apply split_sep_slash_free | constructor]. }
  assert (abspath cwd "" = root_of n +:+ join_sep Cs) as Hcwd.
  { unfold abspath. cbn [isabs Str.startswith].
    rewrite normpath_join_empty by done. by apply normpath_absolute. }
  exists n, Cs. split_and!; [by apply initial_slashes_absolute | done | done |].
  destruct (String.eqb_spec x "") as [->|Hx%String.eqb_neq].
  { right. exists (length Cs). by rewrite firstn_all. }
  assert (isabs x = false) as Hrel.
  { destruct (slash_free_head x Hfree Hx) as (c & x' & -> & Hc').
    assert (Ascii.eqb "/" c = false) as Hc'' by (by rewrite Ascii.eqb_sym).
    unfold isabs. cbn [Str.startswith]. by rewrite Hc''. }
  assert (abspath cwd x
          = root_of n +:+ join_sep (norm_comps true [x] (rev Cs))) as ->.
  { unfold abspath. rewrite Hrel. by apply normpath_join_free. }
  cbn [norm_comps]. rewrite Hx. cbn [orb].
  destruct (String.eqb x ".") eqn:Hdot.
  { right. exists (length Cs). by rewrite rev_involutive, firstn_all. }
  destruct (String.eqb x "..") eqn:Hdots; cbn [negb].
  - right. destruct (rev Cs) as [|last acc] eqn:Hrev.
    + exists 0. done.
    + assert (Cs = rev acc ++ [last]) as HCs'.
      { rewrite <- (rev_involutive Cs), Hrev. done. }
      assert (String.eqb last ".." = false) as ->.
      { rewrite HCs' in HCs. apply Forall_app in HCs as [_ Hl].
        inversion Hl as [|? ? Hl' _]; subst.
        by apply is_name_inv in Hl' as (_ & _ & _ & ?). }
      exists (length (rev acc)). by rewrite HCs', take_app_length.
  - left. split.
    + unfold is_name. by rewrite Hfree, Hx, Hdot, Hdots.
    + cbn [rev]. by rewrite rev_involutive.
Qed.

(** For a bare file name the output directory is the working directory
    or one above it: its creation is never refused. *)
Lemma bare_output_dir_is_free (cwd : string) (f : gmap string node)
    (filepath : string) :
  isabs cwd = true -> dirname filepath = "" ->
  makedirs_refused cwd f (dirname (abspath cwd filepath)) = false.
Proof.
  intros Hc Hfree%dirname_empty_slash_free.
  destruct (abspath_slash_free cwd filepath Hc Hfree)
    as (n & Cs & Hn & HCs & Hcwd & Hpath).
  assert (Forall (fun c => is_comp c = true) Cs) as HCs'.
  { eapply Forall_impl; [exact HCs|]. intros x. apply is_name_comp. }
  assert (exists j, dirname (abspath cwd filepath)
                    = root_of n +:+ join_sep (take j Cs)) as [j Hdir].
  { destruct Hpath as [[Hname ->] | [j ->]].
    - exists (length Cs). rewrite dirname_normal; [| done |].
      + rewrite length_app. cbn [length].
        replace (length Cs + 1 - 1) with (length Cs) by lia.
        by rewrite take_app_length, firstn_all.
      + apply Forall_app. split; [done|].
        constructor; [by apply is_name_comp | done].
    - exists ((length (take j Cs) - 1) `min` j).
      rewrite dirname_normal by (done || by apply Forall_take).
      by rewrite take_take. }
  unfold makedirs_refused.
  destruct (resolve cwd (dirname (abspath cwd filepath))) as [a|] eqn:Ha; [|done].
  unfold resolve in Ha. destruct (String.eqb _ ""); [done|].
  injection Ha as <-. rewrite Hdir.
  rewrite abspath_of_normal by (done || by apply Forall_take).
  rewrite (blocked_above_cwd cwd f n Cs j) by done.
  apply andb_false_r.
Qed.

(** ** Facts about [str.format] *)

Section FormatFacts.
Variable format_field :
  string -> option ascii -> string -> gmap string string -> string -> result string.

Lemma result_map_Raise {A B} (f : A -> B) (r : result A) (e : exn) :
  r = Raise e -> result_map f r = Raise e.
Proof. by intros ->. Qed.

Lemma result_map_Ok {A B} (f : A -> B) (r : result A) (a : A) :
  r = Ok a -> result_map f r = Ok (f a).
Proof. by intros ->. Qed.

(** Scanning from any state: a reached placeholder without a value stops
    the formatter with a [KeyError], that of the first such placeholder. *)
Lemma format_from_missing (kwargs : gmap string string) (n : nat) :
  forall (s : string) (m : fmode) (k : string),
    String.length s <= n ->
    k ∈ placeholders_from s m -> kwargs !! k = None ->
    exists k',
      format_from format_field kwargs s m = Raise (KeyError k')
      /\ k' ∈ placeholders_from s m /\ kwargs !! k' = None.
Proof.
  induction n as [|n IH]; intros s m k Hlen Hin Hk.
  { destruct s; [|simpl in Hlen; lia]. simpl in Hin. by apply elem_of_nil in Hin. }
  destruct s as [|c s]; [simpl in Hin; by apply elem_of_nil in Hin|].
  simpl in Hlen. destruct m; cbn [format_from placeholders_from] in *.
  1: { destruct (Ascii.eqb c "{").
    { destruct s as [|c' s]; [by apply elem_of_nil in Hin|].
      simpl in Hlen. destruct (Ascii.eqb c' "{").
      - destruct (IH s Text k ltac:(lia) Hin Hk) as (k' & -> & ? & ?). eauto.
      - destruct (IH (String c' s) (Field "") k ltac:(simpl; lia) Hin Hk)
          as (k' & -> & ? & ?). eauto. }
    destruct (Ascii.eqb c "}").
    { destruct s as [|c' s]; [by apply elem_of_nil in Hin|].
      simpl in Hlen. destruct (Ascii.eqb c' "}"); [|by apply elem_of_nil in Hin].
      destruct (IH s Text k ltac:(lia) Hin Hk) as (k' & -> & ? & ?). eauto. }
    destruct (IH s Text k ltac:(lia) Hin Hk) as (k' & -> & ? & ?). eauto. }
  all: destruct (field_step _ c) as [m'|nm rs cv sp|msg];
    [ by apply (IH s m' k); [lia | |] | | by apply elem_of_nil in Hin ].
  all: unfold get_value, render_field;
    destruct (classify nm); try by apply elem_of_nil in Hin.
  all: destruct (kwargs !! nm) as [v|] eqn:Hname;
    [| exists nm; split_and!; [done | by apply list_elem_of_here | done] ].
  all: apply elem_of_cons in Hin as [->|Hin]; [congruence|].
  all: destruct (is_plain_field rs cv sp); [|by apply elem_of_nil in Hin].
  all: destruct (IH s Text k ltac:(lia) Hin Hk) as (k' & -> & ? & ?).
  all: exists k'; split_and!; [done | by apply list_elem_of_further | done].
Qed.

(** A field without a value anywhere in the template: the formatter
    yields no text. *)
Lemma format_from_referenced (kwargs : gmap string string) (n : nat) :
  forall (s : string) (m : fmode) (k : string),
    String.length s <= n ->
    k ∈ fields_from s m -> kwargs !! k = None ->
    exists e, format_from format_field kwargs s m = Raise e.
Proof.
  induction n as [|n IH]; intros s m k Hlen Hin Hk.
  { destruct s; [|simpl in Hlen; lia]. simpl in Hin. by apply elem_of_nil in Hin. }
  destruct s as [|c s]; [simpl in Hin; by apply elem_of_nil in Hin|].
  simpl in Hlen. destruct m; cbn [format_from fields_from] in *.
  1: { destruct (Ascii.eqb c "{").
    { destruct s as [|c' s]; [by apply elem_of_nil in Hin|].
      simpl in Hlen. destruct (Ascii.eqb c' "{").
      - destruct (IH s Text k ltac:(lia) Hin Hk) as (e & ->). eauto.
      - apply (IH (String c' s) (Field "") k); [simpl; lia | done | done]. }
    destruct (Ascii.eqb c "}").
    { destruct s as [|c' s]; [by apply elem_of_nil in Hin|].
      simpl in Hlen. destruct (Ascii.eqb c' "}"); [|by apply elem_of_nil in Hin].
      destruct (IH s Text k ltac:(lia) Hin Hk) as (e & ->). eauto. }
    destruct (IH s Text k ltac:(lia) Hin Hk) as (e & ->). eauto. }
  all: destruct (field_step _ c) as [m'|nm rs cv sp|msg];
    [ by apply (IH s m' k); [lia | |] | | by eauto ].
  all: unfold get_value; destruct (classify nm); [| by eauto | by eauto].
  all: destruct (kwargs !! nm) as [v|] eqn:Hname; [| by eauto].
  all: apply elem_of_cons in Hin as [->|Hin]; [congruence|].
  all: destruct (render_field _ _ _ _ _ _); [| by eauto].
  all: destruct (IH s Text k ltac:(lia) Hin Hk) as (e & ->); eauto.
Qed.

(** In a template of literal text and plain named placeholders, the
    formatter reaches every field unless it stops at one. *)
Lemma plain_fields (n : nat) :
  forall (s : string) (m : fmode),
    String.length s <= n ->
    plain_from s m = true -> fields_from s m = placeholders_from s m.
Proof.
  induction n as [|n IH]; intros s m Hlen Hplain.
  { destruct s; [|simpl in Hlen; lia]. by destruct m. }
  destruct s as [|c s]; [by destruct m|].
  simpl in Hlen. destruct m; cbn [plain_from fields_from placeholders_from] in *.
  1: { destruct (Ascii.eqb c "{").
    { destruct s as [|c' s]; [done|].
      simpl in Hlen. destruct (Ascii.eqb c' "{").
      - apply IH; [lia | done].
      - apply IH; [simpl; lia | done]. }
    destruct (Ascii.eqb c "}").
    { destruct s as [|c' s]; [done|].
      simpl in Hlen. destruct (Ascii.eqb c' "}"); [|done]. apply IH; [lia | done]. }
    apply IH; [lia | done]. }
  all: destruct (field_step _ c) as [m'|nm rs cv sp|msg];
    [ apply IH; [lia | done] | | done ].
  all: destruct (classify nm); try done.
  all: apply andb_prop in Hplain as [-> Hplain].
  all: f_equal; apply IH; [lia | done].
Qed.

(** C6, as the code has it.  Rendering a template one of whose fields
    names a placeholder that the mapping lacks never yields text: nothing
    is substituted for the missing value, the call raises.  The error is a
    [KeyError], for a placeholder that the mapping lacks, whenever the
    formatter gets as far as such a placeholder; that is so in every
    well-formed template of literal text and named placeholders.  (An
    earlier part of the template that is malformed, that asks for a
    positional argument or that fails to render raises its own error
    first.) *)
Theorem missing_placeholder_never_renders
    (template : string) (kwargs : gmap string string) (k : string) :
  k ∈ fields template -> kwargs !! k = None ->
  (exists e, str_format format_field template kwargs = Raise e)
  /\ (plain template = true \/ k ∈ placeholders template ->
      exists k',
        str_format format_field template kwargs = Raise (KeyError k')
        /\ k' ∈ placeholders template /\ kwargs !! k' = None).
Proof.
  intros Hin Hk. split.
  - by apply (format_from_referenced kwargs (String.length template) template Text k).
  - intros Hreached.
    apply (format_from_missing kwargs (String.length template) template Text k);
      [done | | done].
    destruct Hreached as [Hplain|Hreached]; [|done].
    unfold placeholders, plain, fields in *.
    by rewrite <- (plain_fields (String.length template) template Text).
Qed.

Lemma format_from_plain (kwargs : gmap string string) (n : nat) :
  forall (s : string) (m : fmode),
    String.length s <= n ->
    plain_from s m = true ->
    (forall k, k ∈ placeholders_from s m -> is_Some (kwargs !! k)) ->
    exists html,
      format_from format_field kwargs s m = Ok html
      /\ forall kwargs' : gmap string string,
           (forall k, k ∈ placeholders_from s m -> kwargs' !! k = kwargs !! k) ->
           format_from format_field kwargs' s m = Ok html.
Proof.
  induction n as [|n IH]; intros s m Hlen Hplain Hfull.
  { destruct s; [|simpl in Hlen; lia]. destruct m; try done. by exists "". }
  destruct s as [|c s]; [destruct m; try done; by exists ""|].
  simpl in Hlen. destruct m; cbn [format_from placeholders_from plain_from] in *.
  1: { destruct (Ascii.eqb c "{").
    { destruct s as [|c' s]; [done|].
      simpl in Hlen. destruct (Ascii.eqb c' "{").
      - destruct (IH s Text ltac:(lia) Hplain Hfull) as (html & -> & Hsame).
        eexists. split; [done|]. intros kw' Hkw'. by rewrite (Hsame kw' Hkw').
      - destruct (IH (String c' s) (Field "") ltac:(simpl; lia) Hplain Hfull)
          as (html & -> & Hsame). eauto. }
    destruct (Ascii.eqb c "}").
    { destruct s as [|c' s]; [done|].
      simpl in Hlen. destruct (Ascii.eqb c' "}"); [|done].
      destruct (IH s Text ltac:(lia) Hplain Hfull) as (html & -> & Hsame).
      eexists. split; [done|]. intros kw' Hkw'. by rewrite (Hsame kw' Hkw'). }
    destruct (IH s Text ltac:(lia) Hplain Hfull) as (html & -> & Hsame).
    eexists. split; [done|]. intros kw' Hkw'. by rewrite (Hsame kw' Hkw'). }
  all: destruct (field_step _ c) as [m'|nm rs cv sp|msg];
    [ by apply (IH s m'); [lia | |] | | done ].
  all: unfold get_value, render_field; destruct (classify nm); try done.
  all: apply andb_prop in Hplain as [Hfield Hplain]; rewrite Hfield in *.
  all: destruct (Hfull nm) as [v Hv]; [by apply list_elem_of_here|].
  all: destruct (IH s Text ltac:(lia) Hplain) as (html & -> & Hsame);
    [ intros k Hk; apply Hfull; by apply list_elem_of_further |].
  all: rewrite Hv; eexists; split; [done|]; intros kw' Hkw'.
  all: rewrite (Hkw' nm) by apply list_elem_of_here; rewrite Hv.
  all: rewrite (Hsame kw'); [done|].
  all: intros k Hk; apply Hkw'; by apply list_elem_of_further.
Qed.

(** C7.  For a well-formed template of literal text and named
    placeholders, and a mapping that has a value for each of them,
    rendering yields one text, and yields that same text again from any
    mapping that gives the placeholders of the template the same values:
    the output is a function of the template and of those values alone. *)
Theorem rendering_is_deterministic
    (template : string) (kwargs : gmap string string) :
  plain template = true ->
  (forall k, k ∈ placeholders template -> is_Some (kwargs !! k)) ->
  exists html,
    str_format format_field template kwargs = Ok html
    /\ forall kwargs' : gmap string string,
         (forall k, k ∈ placeholders template -> kwargs' !! k = kwargs !! k) ->
         str_format format_field template kwargs' = Ok html.
Proof.
  intros Hplain Hfull.
  by apply (format_from_plain kwargs (String.length template) template Text).
Qed.

End FormatFacts.

(** ** Facts about [embed_html] *)

Section EmbedFacts.
Variable cwd : string.
Variable net : string -> option (string * string).
Variable module_path : string.
Variable version_js : string.
Variable html_manager_version : string.
Variable Widgets : Type.
Variable State : Type.
Variable dependency_state : Widgets -> bool -> State.
Variable embed_snippet : Widgets -> string -> bool -> bool -> option State -> string.
Variable minimal_html : Widgets -> option State -> bool -> bool -> string.
Variable zip_open : string -> result (list (string * string)).
Variable format_field :
  string -> option ascii -> string -> gmap string string -> string -> result string.

Local Abbreviation embed_html' :=
  (embed_html cwd net module_path version_js html_manager_version Widgets
     State dependency_state embed_snippet minimal_html zip_open format_field).



(** *** The icon-font archive *)

Local Abbreviation save_font_awesome' := (save_font_awesome cwd net zip_open).

Lemma quiet_extract_member dir m : quiet (extract_member cwd dir m).
Proof.
  destruct m as [name data]. unfold quiet, extract_member. cbv zeta.
  repeat first
    [ apply emits_path_exists | apply emits_path_isdir
    | apply emits_makedirs; done | apply emits_mkdir; done
    | apply emits_store; done | emits_step ].
Qed.

Lemma quiet_extractall dir ms : quiet (extractall cwd dir ms).
Proof.
  induction ms as [|m ms IH]; simpl; [apply emits_ret|].
  apply emits_bind; [apply quiet_extract_member | by intros _].
Qed.

Lemma quiet_unzip_content content dir :
  quiet (unzip_content cwd zip_open content dir).
Proof.
  unfold quiet, unzip_content.
  repeat first [ apply quiet_extractall | emits_step ].
Qed.

Lemma rename_Ok src dst w w1 :
  rename cwd src dst w = (Ok tt, w1) ->
  is_Some (lookup_path cwd (fs w1) dst).
Proof.
  unfold rename, lookup_path. rewrite bind_run. cbn [get_fs].
  destruct (resolve cwd src) as [s|]; [|done].
  destruct (resolve cwd dst) as [d|]; [|done].
  destruct (fs w !! s) as [n|] eqn:Hs; [|done].
  destruct (String.eqb_spec s d) as [<-|Hne].
  { intros [= <-]. cbn. rewrite Hs. eauto. }
  intros Hrun.
  enough (fs w1 !! d = Some n) as Hd by (cbn; rewrite Hd; eauto).
  repeat case_match; try done;
    rewrite bind_run in Hrun; cbn in Hrun; injection Hrun as <-;
    cbn [fs]; apply lookup_insert_eq.
Qed.

Lemma download_to_bytes_Ok url r w w1 :
  download_to_bytes net url w = (Ok r, w1) ->
  net url = Some r /\ fs w1 = fs w /\ trace w1 = trace w ++ [NetGet url].
Proof.
  unfold download_to_bytes. rewrite bind_run. cbn [emit].
  destruct (net url) as [r'|]; [|done]. by intros [= <- <-].
Qed.

Lemma save_font_awesome_cached dirpath version w :
  is_Some (lookup_path cwd (fs w) (join dirpath (font_awesome_folder version))) ->
  save_font_awesome' dirpath version w = (Ok (font_awesome_folder version), w).
Proof.
  intros Hex. unfold save_font_awesome. cbv zeta.
  rewrite bind_run, path_exists_run. by rewrite bool_decide_eq_true_2.
Qed.

Lemma save_font_awesome_Ok dirpath version name w w1 :
  save_font_awesome' dirpath version w = (Ok name, w1) ->
  name = font_awesome_folder version
  /\ is_Some (lookup_path cwd (fs w1) (join dirpath (font_awesome_folder version)))
  /\ exists evs, trace w1 = trace w ++ evs /\ requests evs <= 1.
Proof.
  unfold save_font_awesome. cbv zeta.
  rewrite bind_run, path_exists_run.
  case_bool_decide as Hex.
  - intros [= <- <-]. split_and!; [done | done |].
    exists []. rewrite app_nil_r. split; [done | cbn; lia].
  - intros Hrun.
    apply bind_Ok_inv in Hrun as ([content encoding] & w2 & Hget & Hrun).
    apply bind_Ok_inv in Hrun as (top & w3 & Hzip & Hrun).
    apply bind_Ok_inv in Hrun as ([] & w4 & Hren & Hret).
    injection Hret as <- <-.
    split_and!; [done | by eapply rename_Ok |].
    apply download_to_bytes_Ok in Hget as (_ & _ & Ht2).
    destruct (emits_try offline _ _
                (quiet_unzip_content content dirpath)
                (fun err => emits_raise offline (unzip_error (font_awesome_url version) err)) w2)
      as (e3 & Ht3 & Hq3).
    rewrite Hzip in Ht3. cbn [snd] in Ht3.
    destruct (emits_rename cwd offline (join dirpath top)
                (join dirpath (font_awesome_folder version))
                (fun _ _ => eq_refl) w3) as (e4 & Ht4 & Hq4).
    rewrite Hren in Ht4. cbn [snd] in Ht4.
    exists ([NetGet (font_awesome_url version)] ++ e3 ++ e4). split.
    + by rewrite Ht4, Ht3, Ht2, <- !app_assoc.
    + rewrite !requests_app, (offline_requests _ Hq3), (offline_requests _ Hq4).
      cbn. lia.
Qed.

(** C3.  When the folder [font-awesome-<version>] already exists under
    the destination, [save_font_awesome] returns its name and leaves the
    world as it is: no request, no write.  The name is the one every
    successful call returns.  After a call that succeeded the folder
    exists, so a second call in a row does nothing more, and the two
    calls together have made at most one request. *)
Theorem save_font_awesome_idempotent (dirpath version : string) (w : world) :
  (is_Some (lookup_path cwd (fs w) (join dirpath (font_awesome_folder version))) ->
   save_font_awesome' dirpath version w = (Ok (font_awesome_folder version), w))
  /\
  (forall name w1,
     save_font_awesome' dirpath version w = (Ok name, w1) ->
     name = font_awesome_folder version
     /\ save_font_awesome' dirpath version w1 = (Ok name, w1)
     /\ requests (trace w1) <= S (requests (trace w))).
Proof.
  split; [apply save_font_awesome_cached|].
  intros name w1 (-> & Hex & evs & Htr & Hreq)%save_font_awesome_Ok.
  split_and!; [done | by apply save_font_awesome_cached |].
  rewrite Htr, requests_app. lia.
Qed.

(** C5.  When the folder is not cached, the archive has been fetched, and
    the [try] block (opening the archive, reading the name of its first
    member, extracting it) raises [err], then [save_font_awesome] raises
    an [IOError] in its place, whose message is made of the URL and of
    [str(err)]. *)
Theorem unzip_failure_is_io_error
    (dirpath version content encoding : string) (err : exn) (w w1 : world) :
  lookup_path cwd (fs w) (join dirpath (font_awesome_folder version)) = None ->
  net (font_awesome_url version) = Some (content, encoding) ->
  unzip_content cwd zip_open content dirpath
    (World (fs w) (trace w ++ [NetGet (font_awesome_url version)]))
    = (Raise err, w1) ->
  save_font_awesome' dirpath version w
  = (Raise (IOError ("Could not unzip content from: "
                     +:+ font_awesome_url version +:+ nl +:+ exn_str err)), w1).
Proof.
  intros Hmiss Hnet Hzip. unfold save_font_awesome. cbv zeta.
  rewrite bind_run, path_exists_run.
  rewrite bool_decide_eq_false_2 by (rewrite Hmiss; by intros [? ?]).
  rewrite bind_run. unfold download_to_bytes at 1.
  rewrite bind_run. cbn [emit]. rewrite Hnet.
  cbn [mret M_ret]. rewrite bind_run. unfold try_except. by rewrite Hzip.
Qed.

(** *** Copies and downloads *)

Lemma store_Ok p c ev w w1 :
  store cwd p c ev w = (Ok tt, w1) ->
  exists a, resolve cwd p = Some a
    /\ fs w1 = <[a := File c]> (fs w)
    /\ trace w1 = trace w ++ [ev a].
Proof.
  unfold store. rewrite bind_run. cbn [get_fs].
  destruct (resolve cwd p) as [a|]; [|done].
  destruct (fs w !! dirname a) as [[|?]|]; try done.
  destruct (fs w !! a) as [[|?]|]; try done;
    rewrite bind_run; cbn; intros [= <-]; eauto.
Qed.

Lemma copy_Ok src dst w w1 :
  copy cwd src dst w = (Ok tt, w1) ->
  exists s d c,
    resolve cwd src = Some s /\ fs w !! s = Some (File c)
    /\ (resolve cwd dst = Some d \/ resolve cwd (join dst (basename src)) = Some d)
    /\ fs w1 = <[d := File c]> (fs w)
    /\ trace w1 = trace w ++ [CopyFile s d].
Proof.
  unfold copy. rewrite bind_run.
  change (path_isdir cwd dst w)
    with (Ok (bool_decide (lookup_path cwd (fs w) dst = Some Dir)), w).
  cbv beta iota. rewrite bind_run. cbn [get_fs].
  destruct (resolve cwd src) as [s|]; [|done].
  case_bool_decide; [done|].
  destruct (fs w !! s) as [[|c]|] eqn:Hs; try done.
  intros (d & Hd & Hfs & Htr)%store_Ok.
  exists s, d, c. split_and!; try done.
  case_bool_decide; eauto.
Qed.

Lemma download_to_file_trace url filepath w :
  exists evs,
    trace (download_to_file cwd net url filepath w).2
    = trace w ++ NetGet url :: evs /\ Forall offline evs.
Proof.
  unfold download_to_file. rewrite bind_run. cbn [emit].
  destruct (net url) as [[body enc]|].
  - match goal with
    | |- context [ ?m {| fs := ?f; trace := ?t |} ] =>
        assert (quiet m) as Hq
    end.
    { unfold quiet, write_file.
      repeat first [ apply emits_path_exists | apply emits_makedirs; done
                   | apply emits_store; done | emits_step ]. }
    destruct (Hq (World (fs w) (trace w ++ [NetGet url]))) as (evs & Ht & Hoff).
    cbn [trace] in Ht. exists evs. by rewrite Ht, <- app_assoc.
  - by exists [].
Qed.

Lemma download_to_file_Ok url filepath w w1 :
  download_to_file cwd net url filepath w = (Ok tt, w1) ->
  exists body enc dst,
    net url = Some (body, enc) /\ resolve cwd filepath = Some dst
    /\ fs w1 !! dst = Some (File body)
    /\ exists evs, trace w1 = trace w ++ NetGet url :: evs ++ [WriteFile dst]
                   /\ Forall offline evs.
Proof.
  unfold download_to_file. rewrite bind_run. cbn [emit].
  destruct (net url) as [[body enc]|]; [|done].
  intros Hrun.
  apply bind_Ok_inv in Hrun as (ex & w2 & Hex & Hrun).
  rewrite path_exists_run in Hex. injection Hex as <- <-.
  apply bind_Ok_inv in Hrun as ([] & w3 & Hmk & Hrun).
  apply store_Ok in Hrun as (dst & Hdst & Hfs & Htr).
  exists body, enc, dst. split_and!; [done | done | |].
  { rewrite Hfs. apply lookup_insert_eq. }
  assert (quiet (if (negb (dirname filepath =? "")%string
                     && negb (bool_decide (is_Some
                          (lookup_path cwd (fs w) (dirname filepath)))))%bool
                 then makedirs cwd (dirname filepath) else mret tt)) as Hq.
  { unfold quiet. repeat first [ apply emits_makedirs; done | emits_step ]. }
  destruct (Hq (World (fs w) (trace w ++ [NetGet url]))) as (evs & Ht & Hoff).
  cbn [fs] in Hmk. rewrite Hmk in Ht. cbn [snd trace] in Ht.
  exists evs. split; [|done].
  by rewrite Htr, Ht, <- !app_assoc.
Qed.

Local Abbreviation save_ipyvolumejs' := (save_ipyvolumejs cwd net module_path).

Lemma quiet_copy src dst : quiet (copy cwd src dst).
Proof. by apply emits_copy. Qed.

(** C8.  [save_ipyvolumejs] takes the script from one of two places.
    When [devmode] is set and the developer build exists, the call makes
    no HTTP request at all, and a call that returns has copied the
    developer build to the destination.  In every other case the first
    thing the call does is to request the remote URL, it makes no other
    request, and a call that returns has written the answer to the
    destination. *)
Theorem save_ipyvolumejs_source
    (folderpath version : string) (devmode : bool) (w : world) :
  let run := save_ipyvolumejs' folderpath version devmode w in
  let filepath := join folderpath "ipyvolume.js" in
  let devfile := devfile cwd module_path in
  if (devmode && bool_decide (is_Some (lookup_path cwd (fs w) devfile)))%bool
  then
    exists evs,
      trace run.2 = trace w ++ evs /\ requests evs = 0
      /\ forall name, run.1 = Ok name ->
           exists dev dst,
             resolve cwd devfile = Some dev
             /\ (resolve cwd filepath = Some dst
                 \/ resolve cwd (join filepath (basename devfile)) = Some dst)
             /\ CopyFile dev dst ∈ evs
  else
    exists evs,
      trace run.2 = trace w ++ NetGet (ipyvolumejs_url version) :: evs
      /\ requests evs = 0
      /\ forall name, run.1 = Ok name ->
           exists body encoding dst,
             net (ipyvolumejs_url version) = Some (body, encoding)
             /\ resolve cwd filepath = Some dst
             /\ WriteFile dst ∈ evs.
Proof.
  cbv zeta. unfold save_ipyvolumejs. cbv zeta.
  rewrite bind_run, path_exists_run.
  set (threejs_copy := copy cwd (threejs cwd module_path) _).
  assert (forall w2, exists e3,
            trace ((threejs_copy;; mret "ipyvolume.js") w2).2 = trace w2 ++ e3
            /\ Forall offline e3) as Hrest.
  { intros w2. apply (emits_bind offline); [apply quiet_copy | intros _; apply emits_ret]. }
  destruct (devmode && bool_decide _)%bool eqn:Hdev; rewrite bind_run.
  - rewrite bind_run, path_exists_run.
    match goal with |- context [ (?m ≫= _) w ] => set (prepare := m) end.
    assert (quiet prepare) as Hprep.
    { unfold quiet, prepare.
      repeat first [ apply emits_makedirs; done | emits_step ]. }
    rewrite bind_run. destruct (Hprep w) as (e0 & Ht0 & Hoff0).
    destruct (prepare w) as [[[]|err] w0]; cbn [snd] in Ht0.
    + destruct (quiet_copy (devfile cwd module_path)
                             (join folderpath "ipyvolume.js") w0) as (e1 & Ht1 & Hoff1).
      destruct (copy cwd _ _ w0) as [[[]|err] w1] eqn:Hcp; cbn [snd] in Ht1.
      * destruct (Hrest w1) as (e3 & Ht3 & Hoff3).
        apply copy_Ok in Hcp as (dev & dst & c & Hdev' & _ & Hdst & _ & Ht1').
        rewrite Ht1' in Ht3. rewrite Ht0 in Ht3.
        exists (e0 ++ [CopyFile dev dst] ++ e3).
        split_and!.
        -- rewrite Ht3. by rewrite <- !app_assoc.
        -- apply offline_requests. rewrite !Forall_app. by repeat constructor.
        -- intros name _. exists dev, dst. split_and!; [done | done |].
           rewrite !elem_of_app, !list_elem_of_singleton. auto.
      * exists (e0 ++ e1). cbn [fst snd]. split_and!; [| | done].
        -- by rewrite Ht1, Ht0, app_assoc.
        -- apply offline_requests. by rewrite Forall_app.
    + exists e0. cbn [fst snd]. split_and!; [done | by apply offline_requests | done].
  - destruct (download_to_file_trace (ipyvolumejs_url version)
                (join folderpath "ipyvolume.js") w) as (e1 & Ht1 & Hoff1).
    destruct (download_to_file cwd net _ _ w) as [[[]|err] w1] eqn:Hdl; cbn [snd] in Ht1.
    + destruct (Hrest w1) as (e3 & Ht3 & Hoff3).
      apply download_to_file_Ok in Hdl
        as (body & enc & dst & Hnet & Hdst & _ & (e1' & Ht1' & Hoff1')).
      exists (e1' ++ [WriteFile dst] ++ e3). split_and!.
      * rewrite Ht3, Ht1', <- app_assoc. cbn [app]. by rewrite <- app_assoc.
      * apply offline_requests. rewrite !Forall_app. by repeat constructor.
      * intros name _. exists body, enc, dst. split_and!; [done | done |].
        rewrite !elem_of_app, !list_elem_of_singleton. auto.
    + exists e1. cbn [fst snd]. split_and!; [done | by apply offline_requests | done].
Qed.

(** *** Template options *)

Lemma dict_update_lookup (pairs : list (string * string)) :
  forall (d : gmap string string) (k : string),
    dict_update d pairs !! k =
      match dict_update ∅ pairs !! k with
      | Some v => Some v
      | None => d !! k
      end.
Proof.
  unfold dict_update.
  induction pairs as [|[k0 v0] pairs IH]; intros d k; cbn [fold_left fst snd].
  { by rewrite lookup_empty. }
  rewrite (IH (<[k0:=v0]> d)), (IH (<[k0:=v0]> ∅)).
  destruct (fold_left _ pairs ∅ !! k); [done|].
  destruct (decide (k0 = k)) as [->|Hne].
  - by rewrite !lookup_insert_eq.
  - by rewrite !lookup_insert_ne, lookup_empty.
Qed.


(** *** The online branch and a bare file name *)

Lemma store_Raise p c ev e w w1 :
  store cwd p c ev w = (Raise e, w1) -> w1 = w.
Proof.
  unfold store. rewrite bind_run. cbn [get_fs].
  destruct (resolve cwd p) as [a|]; [|by intros [= _ <-]].
  destruct (fs w !! dirname a) as [[|?]|]; try by intros [= _ <-].
  destruct (fs w !! a) as [[|?]|]; try (by intros [= _ <-]);
    rewrite bind_run; cbn; done.
Qed.

(** [shutil.copy(src, '')]: the empty path is no directory and cannot be
    opened, so the copy fails and changes nothing. *)
Lemma copy_to_empty_path src w :
  exists e, copy cwd src "" w = (Raise e, w).
Proof.
  unfold copy. rewrite bind_run.
  change (path_isdir cwd "" w) with (Ok false, w).
  cbv beta iota. rewrite bind_run. cbn [get_fs].
  destruct (resolve cwd src) as [s|]; [|by eexists].
  rewrite bool_decide_eq_false_2 by (by intros [_ ?]).
  destruct (fs w !! s) as [[|c]|]; by eexists.
Qed.

(** X18.  In the online branch the copy of [three.js] goes to
    [os.path.dirname(filepath)], which is the empty string for a file name
    without a directory part.  Such a call never returns: it raises, and
    no copy of [three.js] (no copy at all) has been made, whatever the
    state of the disk. *)
Lemma online_bare_filename_never_places_threejs
    (filepath : string) (widgets : Widgets) (makedirs_ : bool) (title : string)
    (all_states offline_req : bool) (scripts_path : string) (drop_defaults : bool)
    (template : string) (template_options : list (string * string))
    (devmode : bool) (w : world) :
  isabs cwd = true ->
  dirname filepath = "" ->
  exists e w' evs,
    embed_html' filepath widgets makedirs_ title all_states false offline_req
      scripts_path drop_defaults template template_options devmode w
    = (Raise e, w')
    /\ trace w' = trace w ++ evs
    /\ forall s d, CopyFile s d ∉ evs.
Proof.
  intros Hcwd Hdir. unfold embed_html. cbv zeta.
  destruct (makedirs_
            && makedirs_refused cwd (fs w) (dirname (abspath cwd filepath)))%bool
    eqn:Href.
  { edestruct (ensure_dir_refused (B:=unit) cwd (dirname (abspath cwd filepath))
                 makedirs_) as [q Hq]; [by apply dirname_abspath_nonempty | done |].
    rewrite Hq. exists (NotADirectoryError q), w, []. split_and!.
    - done.
    - by rewrite app_nil_r.
    - intros s d Hin. by apply elem_of_nil in Hin. }
  edestruct (ensure_dir_run (B:=unit) cwd (dirname (abspath cwd filepath)) makedirs_)
    as (w1 & Heq & _ & (evs & Htr & Hmk) & _);
    [by apply dirname_abspath_nonempty | done |].
  rewrite Heq. cbn [negb]. rewrite bind_run, Hdir.
  assert (forall s d, CopyFile s d ∉ evs) as Hnocopy.
  { intros s d Hin. rewrite Forall_forall in Hmk. by destruct (Hmk _ Hin). }
  destruct (write_file cwd filepath _ w1) as [[[]|e] w2] eqn:Hwrite.
  - apply store_Ok in Hwrite as (a & _ & _ & Htr2).
    destruct (copy_to_empty_path (threejs cwd module_path) w2) as [e ->].
    exists e, w2, (evs ++ [WriteFile a]). split_and!; [done | |].
    + by rewrite Htr2, Htr, app_assoc.
    + intros s d [Hin|Hin%list_elem_of_singleton]%elem_of_app; [|done].
      by apply (Hnocopy s d).
  - apply store_Raise in Hwrite as ->. by exists e, w1, evs.
Qed.

(** *** A bundled call that returns *)

Lemma offline_snippet_format (prefix fontawe require snippet : string) :
  str_format format_field offline_snippet_template
    (offline_snippet_args prefix fontawe require snippet)
  = Ok (offline_snippet prefix fontawe require snippet).
Proof. vm_compute. reflexivity. Qed.

Local Abbreviation bundled_page' :=
  (bundled_page html_manager_version Widgets State dependency_state
     embed_snippet format_field).

Lemma script_prefix_Ok filepath scripts prefix w w1 :
  script_prefix cwd filepath scripts w = (Ok prefix, w1) ->
  w1 = w /\ exists rel,
    relpath cwd scripts (dirname filepath) = Some rel
    /\ Str.startswith ".." rel = false
    /\ prefix = if String.eqb rel "." then "" else rel +:+ "/".
Proof.
  unfold script_prefix.
  destruct (relpath cwd scripts (dirname filepath)) as [rel|]; [|done].
  destruct (Str.startswith ".." rel) eqn:Hdots; [done|].
  destruct (String.eqb rel ".") eqn:Hdot; intros [= <- <-];
    (split; [done|]); exists rel; by rewrite Hdot.
Qed.

Lemma save_ipyvolumejs_Ok folder version devmode name w w1 :
  save_ipyvolumejs' folder version devmode w = (Ok name, w1) ->
  name = "ipyvolume.js".
Proof.
  unfold save_ipyvolumejs. cbv zeta. intros Hrun.
  apply bind_Ok_inv in Hrun as (? & ? & _ & Hrun).
  apply bind_Ok_inv in Hrun as (? & ? & _ & Hrun).
  apply bind_Ok_inv in Hrun as (? & ? & _ & Hrun).
  by injection Hrun as <- _.
Qed.

Lemma save_requirejs_Ok folder version name w w1 :
  save_requirejs cwd net folder version w = (Ok name, w1) ->
  name = requirejs_filename version
  /\ download_to_file cwd net (requirejs_url version)
       (join folder (requirejs_filename version)) w = (Ok tt, w1).
Proof.
  unfold save_requirejs. cbv zeta. intros Hrun.
  apply bind_Ok_inv in Hrun as ([] & ? & Hdl & Hrun).
  by injection Hrun as <- <-.
Qed.

Lemma save_embed_js_Ok folder version name w w1 :
  save_embed_js cwd net folder version w = (Ok name, w1) ->
  name = embed_js_filename version
  /\ download_to_file cwd net (embed_js_url version)
       (join folder (embed_js_filename version)) w = (Ok tt, w1).
Proof.
  unfold save_embed_js. cbv zeta. intros Hrun.
  apply bind_Ok_inv in Hrun as ([] & ? & Hdl & Hrun).
  by injection Hrun as <- <-.
Qed.

(** A bundled call that returns went through every stage: the output
    directory, the prefix, the four assets, the page, the write. *)
Lemma bundled_Ok
    (filepath : string) (widgets : Widgets) (makedirs_ : bool) (title : string)
    (all_states : bool) (scripts_path : string) (drop_defaults : bool)
    (template : string) (template_options : list (string * string))
    (devmode : bool) (w w' : world) :
  isabs cwd = true ->
  embed_html' filepath widgets makedirs_ title all_states true true
    scripts_path drop_defaults template template_options devmode w
  = (Ok tt, w') ->
  let scripts := resolve_scripts_path filepath scripts_path in
  exists prefix html w0 w1 w2 w3 w4,
    (exists evs, trace w0 = trace w ++ evs /\ Forall is_makedirs evs)
    /\ (forall p, p ∉ ancestors (abspath cwd (dirname (abspath cwd filepath))) ->
         fs w0 !! p = fs w !! p)
    /\ script_prefix cwd filepath scripts w0 = (Ok prefix, w0)
    /\ save_ipyvolumejs' (dirname (abspath cwd filepath)) version_js devmode w0
       = (Ok "ipyvolume.js", w1)
    /\ save_requirejs cwd net scripts "2.3.4" w1
       = (Ok (requirejs_filename "2.3.4"), w2)
    /\ save_embed_js cwd net scripts html_manager_version w2
       = (Ok (embed_js_filename html_manager_version), w3)
    /\ save_font_awesome' scripts "4.7.0" w3
       = (Ok (font_awesome_folder "4.7.0"), w4)
    /\ bundled_page' prefix widgets title all_states drop_defaults template
         template_options = Ok html
    /\ write_file cwd filepath html w4 = (Ok tt, w').
Proof.
  intros Hcwd. unfold embed_html. cbv zeta. intros Hrun.
  apply ensure_dir_Ok in Hrun as (w0 & Hrun & _ & Hevs & _ & Hlook);
    [|by apply dirname_abspath_nonempty].
  cbn [negb] in Hrun.
  apply bind_Ok_inv in Hrun as (vars & w4 & Hvars & Hrun).
  apply bind_Ok_inv in Hvars as (prefix & w0' & Hprefix & Hvars).
  pose proof Hprefix as (-> & _)%script_prefix_Ok.
  apply bind_Ok_inv in Hvars as (n1 & w1 & H1 & Hvars).
  pose proof H1 as ->%save_ipyvolumejs_Ok.
  apply bind_Ok_inv in Hvars as (n2 & w2 & H2 & Hvars).
  pose proof H2 as (-> & _)%save_requirejs_Ok.
  apply bind_Ok_inv in Hvars as (n3 & w3 & H3 & Hvars).
  pose proof H3 as (-> & _)%save_embed_js_Ok.
  apply bind_Ok_inv in Hvars as (n4 & w4' & H4 & Hvars).
  pose proof H4 as (-> & _)%save_font_awesome_Ok.
  injection Hvars as <- <-.
  cbn [load_local rel_script_path fname_embed fname_fontawe fname_require] in Hrun.
  rewrite !bind_ret, bind_lift, offline_snippet_format, bind_lift in Hrun.
  match type of Hrun with
  | match str_format ?f ?t ?k with _ => _ end = _ =>
      destruct (str_format f t k) as [html|e] eqn:Hfmt; [|done]
  end.
  exists prefix, html, w0, w1, w2, w3, w4'. by split_and!.
Qed.

(** *** The URL prefix *)

Lemma common_len_refl (l : list string) : common_len l l = length l.
Proof. induction l as [|x l IH]; simpl; [done|]. by rewrite String.eqb_refl, IH. Qed.

Lemma relpath_same (path start : string) :
  path <> "" ->
  components (abspath cwd path) = components (abspath cwd start) ->
  relpath cwd path start = Some ".".
Proof.
  intros Hne Heq. unfold relpath.
  destruct (String.eqb_spec path ""); [done|].
  cbv zeta. rewrite Heq, common_len_refl, Nat.sub_diag, drop_all. done.
Qed.

(** C9.  In a bundled call the prefix of the asset URLs is computed from
    the scripts folder relative to the directory of the output file.
    When the two resolve to the same directory the prefix is the empty
    string; when they do not, and the relative path does not start with a
    parent-directory step, the prefix is that path followed by a slash.
    A call that returns has written, at [filepath], the page whose snippet
    wrapper refers to the icon-font stylesheet, the module loader and the
    embedding script each as that prefix followed by the file name. *)
Theorem prefix_of_asset_urls (filepath scripts_path : string) :
  isabs cwd = true ->
  let scripts := resolve_scripts_path filepath scripts_path in
  (forall w,
     scripts <> "" ->
     components (abspath cwd scripts) = components (abspath cwd (dirname filepath)) ->
     script_prefix cwd filepath scripts w = (Ok "", w))
  /\
  (forall w rel,
     relpath cwd scripts (dirname filepath) = Some rel ->
     Str.startswith ".." rel = false ->
     components (abspath cwd scripts) <> components (abspath cwd (dirname filepath)) ->
     script_prefix cwd filepath scripts w = (Ok (rel +:+ "/"), w))
  /\
  (forall (widgets : Widgets) (makedirs_ : bool) (title : string)
          (all_states drop_defaults : bool) (template : string)
          (template_options : list (string * string)) (devmode : bool)
          (w w' : world),
     embed_html' filepath widgets makedirs_ title all_states true true
       scripts_path drop_defaults template template_options devmode w
     = (Ok tt, w') ->
     exists prefix html,
       script_prefix cwd filepath scripts w = (Ok prefix, w)
       /\ bundled_page' prefix widgets title all_states drop_defaults template
            template_options = Ok html
       /\ lookup_path cwd (fs w') filepath = Some (File html)).
Proof.
  intros Hcwd. cbv zeta. split_and!.
  - intros w Hne Hsame. unfold script_prefix.
    by rewrite (relpath_same _ _ Hne Hsame).
  - intros w rel Hrel Hdots Hdiff. unfold script_prefix. rewrite Hrel, Hdots.
    destruct (String.eqb_spec rel ".") as [->|]; [|done].
    by apply relpath_dot in Hrel as [_ ?].
  - intros widgets mk title all_states dd template topts devmode w w' Hrun.
    apply bundled_Ok in Hrun
      as (prefix & html & w0 & w1 & w2 & w3 & w4 & _ & _ & Hprefix & _ & _ & _ & _
          & Hpage & Hwrite); [|done].
    exists prefix, html. split_and!; [| done |].
    + apply script_prefix_Ok in Hprefix as (_ & rel & Hrel & Hdots & ->).
      unfold script_prefix. rewrite Hrel, Hdots. by destruct (String.eqb rel ".").
    + apply store_Ok in Hwrite as (a & Ha & Hfs & _).
      unfold lookup_path. rewrite Ha. cbn. rewrite Hfs. apply lookup_insert_eq.
Qed.

(** *** Where the assets land *)

Lemma store_Ok_parent p c ev w w1 :
  store cwd p c ev w = (Ok tt, w1) ->
  exists a, resolve cwd p = Some a
    /\ fs w1 !! dirname a = Some Dir
    /\ (forall q, q <> a -> fs w1 !! q = fs w !! q)
    /\ trace w1 = trace w ++ [ev a].
Proof.
  unfold store. rewrite bind_run. cbn [get_fs].
  destruct (resolve cwd p) as [a|]; [|done].
  destruct (fs w !! dirname a) as [[|?]|] eqn:Hparent; try done.
  destruct (fs w !! a) as [[|?]|] eqn:Ha; try done;
    (assert (a <> dirname a) as Hne
       by (intros Heq; rewrite <- Heq in Hparent; congruence));
    rewrite bind_run; cbn; intros [= <-]; exists a; cbn [fs trace];
    (split_and!;
       [ done | by rewrite lookup_insert_ne
       | intros q Hq; by rewrite lookup_insert_ne | done ]).
Qed.

Lemma makedirs_Ok p w w1 :
  makedirs cwd p w = (Ok tt, w1) ->
  exists a, resolve cwd p = Some a
    /\ fs w1 = fold_left add_dir (ancestors a) (fs w)
    /\ trace w1 = trace w ++ [MakeDirs a].
Proof.
  unfold makedirs. rewrite bind_run. cbn [get_fs].
  destruct (resolve cwd p) as [a|]; [|done].
  case_bool_decide; [done|]. destruct (blocked cwd (fs w) a); [done|].
  rewrite bind_run. cbn. intros [= <-]. eauto.
Qed.

(** [shutil.copy(src, dst)] when [dst] is no directory: [dst] is the
    file written. *)
Lemma copy_file_Ok src dst w w1 :
  lookup_path cwd (fs w) dst <> Some Dir ->
  copy cwd src dst w = (Ok tt, w1) ->
  exists s d,
    resolve cwd src = Some s /\ resolve cwd dst = Some d
    /\ fs w1 !! dirname d = Some Dir
    /\ trace w1 = trace w ++ [CopyFile s d].
Proof.
  intros Hnodir. unfold copy. rewrite bind_run.
  change (path_isdir cwd dst w)
    with (Ok (bool_decide (lookup_path cwd (fs w) dst = Some Dir)), w).
  cbv beta iota. rewrite bool_decide_eq_false_2 by done.
  rewrite bind_run. cbn [get_fs].
  destruct (resolve cwd src) as [s|]; [|done].
  case_bool_decide; [done|].
  destruct (fs w !! s) as [[|c]|] eqn:Hs; try done.
  intros (d & Hd & Hpar & _ & Htr)%store_Ok_parent. eauto 10.
Qed.

(** [shutil.copy(src, dst)] when [dst] is a directory: the file is
    written into it, under the name of [src]. *)
Lemma copy_dir_Ok src dst w w1 :
  lookup_path cwd (fs w) dst = Some Dir ->
  copy cwd src dst w = (Ok tt, w1) ->
  exists s d,
    resolve cwd src = Some s /\ resolve cwd (join dst (basename src)) = Some d
    /\ trace w1 = trace w ++ [CopyFile s d].
Proof.
  intros Hdir. unfold copy. rewrite bind_run.
  change (path_isdir cwd dst w)
    with (Ok (bool_decide (lookup_path cwd (fs w) dst = Some Dir)), w).
  cbv beta iota. rewrite bool_decide_eq_true_2 by done.
  rewrite bind_run. cbn [get_fs].
  destruct (resolve cwd src) as [s|]; [|done].
  case_bool_decide; [done|].
  destruct (fs w !! s) as [[|c]|] eqn:Hs; try done.
  intros (d & Hd & _ & _ & Htr)%store_Ok_parent. eauto 10.
Qed.

Lemma download_to_file_parent url filepath w w1 :
  download_to_file cwd net url filepath w = (Ok tt, w1) ->
  exists dst, resolve cwd filepath = Some dst
    /\ fs w1 !! dirname dst = Some Dir.
Proof.
  unfold download_to_file. rewrite bind_run. cbn [emit].
  destruct (net url) as [[body enc]|]; [|done].
  intros Hrun.
  apply bind_Ok_inv in Hrun as (ex & w2 & _ & Hrun).
  apply bind_Ok_inv in Hrun as ([] & w3 & _ & Hrun).
  apply store_Ok_parent in Hrun as (dst & Hdst & Hpar & _). eauto.
Qed.

Lemma basename_threejs : basename (threejs cwd module_path) = "three.js".
Proof. unfold threejs, join_all. cbn [fold_left]. by apply basename_join. Qed.

(** A call of [save_ipyvolumejs] that returns has put [ipyvolume.js] and
    [three.js] into [folder], provided no directory stands in the place of
    [ipyvolume.js] ([shutil.copy] would copy the developer build into
    it). *)
Lemma save_ipyvolumejs_layout folder version devmode name w w1 :
  isabs cwd = true ->
  String.eqb folder "" = false ->
  (endswith_sep folder = true -> all_sep folder = true) ->
  fs w !! abspath cwd (join folder "ipyvolume.js") <> Some Dir ->
  save_ipyvolumejs' folder version devmode w = (Ok name, w1) ->
  exists evs three,
    trace w1 = trace w ++ evs
    /\ resolve cwd (threejs cwd module_path) = Some three
    /\ (WriteFile (abspath cwd (join folder "ipyvolume.js")) ∈ evs
        \/ exists dev, CopyFile dev (abspath cwd (join folder "ipyvolume.js")) ∈ evs)
    /\ CopyFile three (abspath cwd (join folder "three.js")) ∈ evs.
Proof.
  intros Hcwd Hne Hshape Hnodir.
  set (fp := join folder "ipyvolume.js").
  assert (dirname fp = folder) as Hdir by (by apply dirname_join).
  assert (resolve cwd fp = Some (abspath cwd fp)) as Hres
    by (by apply resolve_nonempty, join_name_nonempty).
  assert (dirname (abspath cwd fp) = abspath cwd folder) as Hparent
    by (by apply dirname_abspath_join).
  assert (abspath cwd fp ∉ ancestors (abspath cwd folder)) as Hchild
    by (by apply child_not_ancestor).
  assert (resolve cwd folder = Some (abspath cwd folder)) as Hresf.
  { apply resolve_nonempty. intros ->. done. }
  unfold save_ipyvolumejs. cbv zeta. fold fp. rewrite Hdir.
  rewrite bind_run, path_exists_run. intros Hrun.
  apply bind_Ok_inv in Hrun as ([] & wA & Hstage & Hrun).
  apply bind_Ok_inv in Hrun as ([] & wB & Hthree & Hret).
  injection Hret as _ <-.
  assert (exists e1,
    trace wA = trace w ++ e1
    /\ (WriteFile (abspath cwd fp) ∈ e1 \/ exists dev, CopyFile dev (abspath cwd fp) ∈ e1)
    /\ fs wA !! abspath cwd folder = Some Dir) as (e1 & Ht1 & Hipy & Hfolder).
  { destruct (devmode && _)%bool.
    - rewrite bind_run, path_exists_run in Hstage.
      apply bind_Ok_inv in Hstage as ([] & wm & Hmk & Hcopy).
      assert (exists mk, trace wm = trace w ++ mk
                /\ fs wm !! abspath cwd fp = fs w !! abspath cwd fp)
        as (mk & Htm & Hsame).
      { destruct (_ && _)%bool.
        - apply makedirs_Ok in Hmk as (a & Ha & Hfs & Htr).
          rewrite Hresf in Ha. injection Ha as <-.
          eexists. split; [done|]. rewrite Hfs. by apply add_dirs_lookup.
        - injection Hmk as <-. exists []. by rewrite app_nil_r. }
      apply copy_file_Ok in Hcopy as (s & d & _ & Hd & Hpar & Htr).
      2:{ unfold lookup_path. rewrite Hres.
          change (fs wm !! abspath cwd fp <> Some Dir). by rewrite Hsame. }
      rewrite Hres in Hd. injection Hd as <-.
      exists (mk ++ [CopyFile s (abspath cwd fp)]). split_and!.
      + by rewrite Htr, Htm, app_assoc.
      + right. exists s. rewrite elem_of_app, list_elem_of_singleton. auto.
      + by rewrite <- Hparent.
    - pose proof Hstage as (dst & Hdst & Hpar)%download_to_file_parent.
      apply download_to_file_Ok in Hstage
        as (body & enc & dst' & _ & Hdst' & _ & (e1' & Ht1' & _)).
      rewrite Hres in Hdst, Hdst'. injection Hdst as <-. injection Hdst' as <-.
      exists (NetGet (ipyvolumejs_url version) :: e1' ++ [WriteFile (abspath cwd fp)]).
      split_and!; [done | | by rewrite <- Hparent].
      left. rewrite elem_of_cons, elem_of_app, list_elem_of_singleton. auto. }
  apply copy_dir_Ok in Hthree as (three & d & Hthree & Hd & Htr).
  2:{ unfold lookup_path. by rewrite Hresf. }
  rewrite basename_threejs in Hd.
  rewrite resolve_nonempty in Hd by (by apply join_name_nonempty).
  injection Hd as <-.
  exists (e1 ++ [CopyFile three (abspath cwd (join folder "three.js"))]), three.
  split_and!; [by rewrite Htr, Ht1, app_assoc | done | |].
  - destruct Hipy as [Hin | [dev Hin]]; [left | right; exists dev];
      rewrite elem_of_app; auto.
  - rewrite elem_of_app, list_elem_of_singleton. auto.
Qed.

(** C4, as the code has it.  A bundled call that returns has put
    [ipyvolume.js] (downloaded, or copied from the developer build) and
    [three.js] into the directory of the output file, has downloaded
    [require.min.v2.3.4.js] and [embed-amd_v<version>.js] into the scripts
    folder, and leaves the folder [font-awesome-4.7.0] there.  The
    destination of [three.js] does not depend on [scripts_path]: it is the
    file of that name in the scripts folder exactly when that folder is
    the directory of the output file.  An online call for a file [name] in a directory [dir]
    that returns has copied [three.js] into [dir].  (The side condition of
    the first part: no directory stands where [ipyvolume.js] goes.) *)
Theorem assets_layout :
  isabs cwd = true ->
  (forall (filepath : string) (widgets : Widgets) (makedirs_ : bool)
          (title : string) (all_states : bool) (scripts_path : string)
          (drop_defaults : bool) (template : string)
          (template_options : list (string * string)) (devmode : bool)
          (w w' : world),
     let out := dirname (abspath cwd filepath) in
     let scripts := resolve_scripts_path filepath scripts_path in
     fs w !! abspath cwd (join out "ipyvolume.js") <> Some Dir ->
     embed_html' filepath widgets makedirs_ title all_states true true
       scripts_path drop_defaults template template_options devmode w
     = (Ok tt, w') ->
     exists evs three,
       trace w' = trace w ++ evs
       /\ resolve cwd (threejs cwd module_path) = Some three
       /\ (WriteFile (abspath cwd (join out "ipyvolume.js")) ∈ evs
           \/ exists dev, CopyFile dev (abspath cwd (join out "ipyvolume.js")) ∈ evs)
       /\ CopyFile three (abspath cwd (join out "three.js")) ∈ evs
       /\ WriteFile (abspath cwd (join scripts (requirejs_filename "2.3.4"))) ∈ evs
       /\ WriteFile (abspath cwd (join scripts (embed_js_filename html_manager_version))) ∈ evs
       /\ is_Some (lookup_path cwd (fs w') (join scripts (font_awesome_folder "4.7.0")))
       /\ (abspath cwd (join scripts "three.js") = abspath cwd (join out "three.js")
           <-> abspath cwd scripts = abspath cwd out))
  /\
  (forall (dir name : string) (widgets : Widgets) (makedirs_ : bool)
          (title : string) (all_states offline_req : bool) (scripts_path : string)
          (drop_defaults : bool) (template : string)
          (template_options : list (string * string)) (devmode : bool)
          (w w' : world),
     String.eqb dir "" = false ->
     (endswith_sep dir = true -> all_sep dir = true) ->
     is_name name = true ->
     embed_html' (join dir name) widgets makedirs_ title all_states false
       offline_req scripts_path drop_defaults template template_options devmode w
     = (Ok tt, w') ->
     exists evs three,
       trace w' = trace w ++ evs
       /\ resolve cwd (threejs cwd module_path) = Some three
       /\ CopyFile three (abspath cwd (join dir "three.js")) ∈ evs).
Proof.
  intros Hcwd. split.
  - intros filepath widgets mk title all_states sp dd template topts devmode
      w w' out scripts Hnodir Hrun.
    apply bundled_Ok in Hrun
      as (prefix & html & w0 & w1 & w2 & w3 & w4 & (evs0 & Ht0 & _) & Hlook & Hprefix
          & Hipy & Hreq & Hemb & Hfa & _ & Hwrite); [|done].
    fold out scripts in Hlook, Hprefix, Hipy, Hreq, Hemb, Hfa.
    assert (String.eqb scripts "" = false) as Hscripts.
    { apply script_prefix_Ok in Hprefix as (_ & rel & Hrel & _).
      unfold relpath in Hrel. by destruct (String.eqb scripts ""). }
    assert (String.eqb out "" = false) as Hout.
    { apply String.eqb_neq. by apply dirname_abspath_nonempty. }
    apply save_ipyvolumejs_layout in Hipy
      as (e1 & three & Ht1 & Hthree & Hipy & Hcopy);
      [| done | done | apply dirname_trailing |].
    2:{ rewrite Hlook; [done|]. by apply child_not_ancestor. }
    apply save_requirejs_Ok in Hreq as (_ & Hreq).
    apply download_to_file_Ok in Hreq
      as (? & ? & d2 & _ & Hd2 & _ & (e2 & Ht2 & _)).
    rewrite resolve_nonempty in Hd2 by (by apply join_nonempty).
    injection Hd2 as <-.
    apply save_embed_js_Ok in Hemb as (_ & Hemb).
    apply download_to_file_Ok in Hemb
      as (? & ? & d3 & _ & Hd3 & _ & (e3 & Ht3 & _)).
    rewrite resolve_nonempty in Hd3
      by (apply join_nonempty; unfold embed_js_filename; done).
    injection Hd3 as <-.
    apply save_font_awesome_Ok in Hfa as (_ & Hfolder & e4 & Ht4 & _).
    apply store_Ok in Hwrite as (a & _ & Hfs & Ht5).
    eexists _, three. split_and!.
    + rewrite Ht5, Ht4, Ht3, Ht2, Ht1, Ht0. rewrite <- !app_assoc. reflexivity.
    + done.
    + destruct Hipy as [Hin | [dev Hin]]; [left | right; exists dev]; elem_solver.
    + elem_solver.
    + elem_solver.
    + elem_solver.
    + unfold lookup_path in *.
      destruct (resolve cwd (join scripts (font_awesome_folder "4.7.0"))) as [q|];
        [|done]. cbn in *. rewrite Hfs. rewrite lookup_insert_is_Some.
      destruct (decide (a = q)); auto.
    + by apply same_file_same_folder.
  - intros dir name widgets mk title all_states req sp dd template topts devmode
      w w' Hdir Hshape Hname. unfold embed_html. cbv zeta.
    intros Hrun.
    apply ensure_dir_Ok in Hrun as (w0 & Hrun & _ & (evs0 & Ht0 & _) & _);
      [|by apply dirname_abspath_nonempty].
    cbn [negb] in Hrun.
    apply bind_Ok_inv in Hrun as ([] & w2 & Hwrite & Hcopy).
    apply store_Ok_parent in Hwrite as (a & Ha & Hparent & _ & Ht2).
    rewrite resolve_nonempty in Ha by (by apply join_name_nonempty).
    injection Ha as <-.
    rewrite dirname_abspath_join in Hparent by done.
    rewrite dirname_join in Hcopy by done.
    apply copy_dir_Ok in Hcopy as (three & d & Hthree & Hd & Ht3).
    2:{ unfold lookup_path. rewrite resolve_nonempty; [done|]. intros ->. done. }
    rewrite basename_threejs in Hd.
    rewrite resolve_nonempty in Hd by (by apply join_name_nonempty).
    injection Hd as <-.
    eexists _, three. split_and!;
      [rewrite Ht3, Ht2, Ht0, <- !app_assoc; reflexivity | done | elem_solver].
Qed.

(** ** Further properties of the module *)

Lemma quiet_makedirs p : quiet (makedirs cwd p).
Proof. by apply emits_makedirs. Qed.

Lemma quiet_write_file p c : quiet (write_file cwd p c).
Proof. by apply emits_store. Qed.

Lemma quiet_requests {A} (m : M A) (w : world) :
  quiet m -> requests (trace (m w).2) = requests (trace w).
Proof.
  intros Hm. destruct (Hm w) as (evs & -> & Hevs).
  rewrite requests_app, (offline_requests evs Hevs). lia.
Qed.

(** X1.  A call with [offline=False] issues no HTTP request, whatever its
    outcome: the page then refers to the CDN and nothing is downloaded.
    In that mode the arguments [title], [template], [template_options],
    [offline_req], [scripts_path] and [devmode] have no effect at all:
    the page is the one the widget framework writes. *)
Theorem online_call_is_local
    (filepath : string) (widgets : Widgets) (makedirs_ : bool) (title : string)
    (all_states offline_req : bool) (scripts_path : string) (drop_defaults : bool)
    (template : string) (template_options : list (string * string))
    (devmode : bool) (w : world) :
  let run :=
    embed_html' filepath widgets makedirs_ title all_states false offline_req
      scripts_path drop_defaults template template_options devmode w in
  requests (trace run.2) = requests (trace w)
  /\ forall (title' : string) (offline_req' : bool) (scripts_path' template' : string)
            (template_options' : list (string * string)) (devmode' : bool),
       embed_html' filepath widgets makedirs_ title' all_states false offline_req'
         scripts_path' drop_defaults template' template_options' devmode' w
       = run.
Proof.
  cbv zeta. split; [|reflexivity].
  apply quiet_requests. unfold embed_html. cbv zeta. cbn [negb].
  apply emits_bind; [apply emits_path_exists | intros ex].
  apply emits_bind.
  { destruct (negb ex && makedirs_)%bool; [apply quiet_makedirs | apply emits_ret]. }
  intros _. apply emits_bind; [apply quiet_write_file | intros _].
  apply quiet_copy.
Qed.

(** X2.  [save_ipyvolumejs] called with the empty [folderpath], its
    default, never returns: the directory it copies [three.js] into is
    [os.path.dirname('ipyvolume.js')], the empty string, which names
    nothing.  Whatever the version, the mode and the state of the disk and
    of the network, the call raises, at the latest at that copy. *)
Theorem save_ipyvolumejs_default_folder_raises
    (version : string) (devmode : bool) (w : world) :
  exists e w', save_ipyvolumejs' "" version devmode w = (Raise e, w').
Proof.
  unfold save_ipyvolumejs. cbv zeta.
  rewrite bind_run, path_exists_run.
  match goal with
  | |- context [(?m ≫= _) w] => rewrite (bind_run m); destruct (m w) as [[[]|e] w1]
  end; [|by eauto].
  change (dirname (join "" "ipyvolume.js")) with "".
  rewrite bind_run.
  destruct (copy_to_empty_path (threejs cwd module_path) w1) as [e ->]. eauto.
Qed.
(** X3.  [save_requirejs] makes exactly one request, the first thing it
    does, to the cdnjs address of [require.min.js] for the version asked
    for.  A call that returns has returned [require.min.v<version>.js] and
    has stored what the address answered under that name in
    [folderpath]. *)
Theorem save_requirejs_fetches_one_file (folderpath version : string) (w : world) :
  let run := save_requirejs cwd net folderpath version w in
  let url := "https://cdnjs.cloudflare.com/ajax/libs/require.js/" +:+ version
             +:+ "/require.min.js" in
  (exists evs, trace run.2 = trace w ++ NetGet url :: evs /\ requests evs = 0)
  /\ forall name, run.1 = Ok name ->
       name = "require.min.v" +:+ version +:+ ".js"
       /\ exists body encoding dst,
            net url = Some (body, encoding)
            /\ resolve cwd (join folderpath name) = Some dst
            /\ fs run.2 !! dst = Some (File body).
Proof.
  cbv zeta. fold (requirejs_url version). fold (requirejs_filename version).
  split.
  - unfold save_requirejs. cbv zeta. rewrite bind_run.
    destruct (download_to_file_trace (requirejs_url version)
                (join folderpath (requirejs_filename version)) w)
      as (evs & Ht & Hevs).
    destruct (download_to_file _ _ _ _ w) as [[[]|e] w1]; simpl in *;
      exists evs; by rewrite Ht, (offline_requests evs Hevs).
  - intros name Hrun.
    destruct (save_requirejs cwd net folderpath version w) as [r w1] eqn:Heq.
    cbn [fst snd] in *. subst r.
    apply save_requirejs_Ok in Heq as (-> & Hdl). split; [done|].
    apply download_to_file_Ok in Hdl as (body & enc & dst & ? & ? & ? & _).
    by exists body, enc, dst.
Qed.

(** X4.  [save_embed_js] makes exactly one request, the first thing it
    does, to the unpkg address of the html-manager for the whole version
    string.  The file name is built from [version[1:]]: the first
    character of the version, whatever it is, is left out of it, so two
    versions that differ in it alone are stored under one name.  A call
    that returns has returned that name and has stored what the address
    answered under it in [folderpath]. *)
Theorem save_embed_js_drops_first_character (folderpath version : string) (w : world) :
  let run := save_embed_js cwd net folderpath version w in
  let url := "https://unpkg.com/@jupyter-widgets/html-manager@" +:+ version
             +:+ "/dist/embed-amd.js" in
  (exists evs, trace run.2 = trace w ++ NetGet url :: evs /\ requests evs = 0)
  /\ (forall name, run.1 = Ok name ->
       name = "embed-amd_v" +:+ Str.tail version +:+ ".js"
       /\ exists body encoding dst,
            net url = Some (body, encoding)
            /\ resolve cwd (join folderpath name) = Some dst
            /\ fs run.2 !! dst = Some (File body))
  /\ forall (c c' : ascii) (rest : string),
       embed_js_filename (String c rest) = "embed-amd_v" +:+ rest +:+ ".js"
       /\ embed_js_filename (String c rest) = embed_js_filename (String c' rest).
Proof.
  cbv zeta. fold (embed_js_url version). fold (embed_js_filename version).
  split_and!.
  - unfold save_embed_js. cbv zeta. rewrite bind_run.
    destruct (download_to_file_trace (embed_js_url version)
                (join folderpath (embed_js_filename version)) w)
      as (evs & Ht & Hevs).
    destruct (download_to_file _ _ _ _ w) as [[[]|e] w1]; simpl in *;
      exists evs; by rewrite Ht, (offline_requests evs Hevs).
  - intros name Hrun.
    destruct (save_embed_js cwd net folderpath version w) as [r w1] eqn:Heq.
    cbn [fst snd] in *. subst r.
    apply save_embed_js_Ok in Heq as (-> & Hdl). split; [done|].
    apply download_to_file_Ok in Hdl as (body & enc & dst & ? & ? & ? & _).
    by exists body, enc, dst.
  - done.
Qed.

(** X5.  A scripts folder given by a plain name (no slash, not [.] or
    [..]) that does not begin with two dots is taken inside the directory
    of the output file, whatever [filepath] is, and the prefix of the
    asset URLs is that name followed by a slash. *)
Theorem scripts_folder_name_prefix (filepath name : string) (w : world) :
  isabs cwd = true -> is_name name = true -> Str.startswith ".." name = false ->
  resolve_scripts_path filepath name = join (dirname filepath) name
  /\ script_prefix cwd filepath (resolve_scripts_path filepath name) w
     = (Ok (name +:+ "/"), w).
Proof.
  intros Hcwd Hname Hdots.
  assert (resolve_scripts_path filepath name = join (dirname filepath) name) as ->.
  { unfold resolve_scripts_path. by rewrite (is_name_relative name Hname). }
  split; [done|]. unfold script_prefix.
  destruct (relpath_child cwd (dirname filepath) name Hcwd Hname) as [-> _].
  rewrite Hdots. apply is_name_inv in Hname as (_ & _ & -> & _). done.
Qed.


(** X7.  The empty [scripts_path].  For an output file with a directory
    part it means that directory: the prefix of the asset URLs is empty,
    as for [.].  For a bare file name the scripts folder is the empty
    path, and the call raises the [ValueError] of [os.path.relpath], not
    the path-escape error, before any request and any file is written. *)
Theorem empty_scripts_path :
  isabs cwd = true ->
  (forall (filepath : string) (w : world),
     dirname filepath <> "" ->
     script_prefix cwd filepath (resolve_scripts_path filepath "") w = (Ok "", w))
  /\
  (forall (filepath : string) (widgets : Widgets) (makedirs_ : bool)
          (title : string) (all_states drop_defaults : bool) (template : string)
          (template_options : list (string * string)) (devmode : bool) (w : world),
     dirname filepath = "" ->
     exists w',
       embed_html' filepath widgets makedirs_ title all_states true true
         "" drop_defaults template template_options devmode w
       = (Raise (ValueError "no path specified"), w')
       /\ requests (trace w') = requests (trace w)
       /\ files (fs w') = files (fs w)).
Proof.
  intros Hcwd. split.
  - intros filepath w Hdir%String.eqb_neq.
    change (resolve_scripts_path filepath "") with (join (dirname filepath) "").
    unfold script_prefix. rewrite relpath_same.
    + done.
    + unfold join. cbn [Str.startswith]. rewrite Hdir. cbn [orb].
      destruct (endswith_sep _); by destruct (dirname filepath).
    + by rewrite abspath_join_empty.
  - intros filepath widgets mk title all_states dd template topts devmode w Hdir.
    unfold embed_html. cbv zeta.
    edestruct (ensure_dir_run (B:=unit) cwd (dirname (abspath cwd filepath)) mk)
      as (w' & Heq & Hfiles & (evs & Htr & Hoff) & _);
      [ by apply dirname_abspath_nonempty
      | by rewrite bare_output_dir_is_free, andb_false_r |].
    rewrite Heq. exists w'. split_and!; [ | | done].
    + cbn [negb]. rewrite !bind_run. unfold script_prefix, resolve_scripts_path.
      by rewrite Hdir.
    + rewrite Htr, requests_app, (offline_requests _ (makedirs_are_offline _ Hoff)). lia.
Qed.

Lemma dict_update_is_Some (pairs : list (string * string))
    (d : gmap string string) (k : string) :
  is_Some (d !! k) -> is_Some (dict_update d pairs !! k).
Proof.
  intros [v Hv]. rewrite dict_update_lookup, Hv.
  destruct (dict_update ∅ pairs !! k); eauto.
Qed.

Lemma html_template_format (kwargs : gmap string string)
    (title head pre snippet post : string) :
  kwargs !! "title" = Some title ->
  kwargs !! "extra_script_head" = Some head ->
  kwargs !! "body_pre" = Some pre ->
  kwargs !! "snippet" = Some snippet ->
  kwargs !! "body_post" = Some post ->
  str_format format_field html_template kwargs
  = Ok (html_page title head pre snippet post).
Proof.
  intros Ht Hh Hp Hs Hq.
  set (known := <["title" := title]> (<["extra_script_head" := head]>
                  (<["body_pre" := pre]> (<["snippet" := snippet]>
                     (<["body_post" := post]> (∅ : gmap string string)))))).
  assert (format_from format_field known html_template Text
          = Ok (html_page title head pre snippet post)) as Hknown
    by (vm_compute; reflexivity).
  assert (placeholders_from html_template Text
          = ["title"; "extra_script_head"; "body_pre"; "snippet"; "body_post"])
    as Hnames by (vm_compute; reflexivity).
  assert (plain_from html_template Text = true) as Hplain
    by (vm_compute; reflexivity).
  destruct (format_from_plain format_field known (String.length html_template)
              html_template Text (le_n _) Hplain) as (html & Hhtml & Hsame).
  - rewrite Hnames. intros k Hk.
    repeat (apply elem_of_cons in Hk as [->|Hk]; [by eexists|]).
    by apply elem_of_nil in Hk.
  - unfold str_format. rewrite Hhtml in Hknown. rewrite <- Hknown.
    apply Hsame. rewrite Hnames. intros k Hk.
    repeat (apply elem_of_cons in Hk as [->|Hk]; [by (rewrite ?Ht, ?Hh, ?Hp, ?Hs, ?Hq)|]).
    by apply elem_of_nil in Hk.
Qed.

(** X8.  With the default template a bundled page always renders,
    whatever [template_options] the caller passes, the empty one
    included: the four keys the template needs besides [snippet] are
    installed before the caller's options are merged in.  The page is the
    template with the values put in as they are (braces in a value are
    not interpreted again), and its [snippet] is the one the call builds,
    also when the options have a [snippet] of their own. *)
Theorem default_template_always_renders
    (prefix : string) (widgets : Widgets) (title : string)
    (all_states drop_defaults : bool) (template_options : list (string * string)) :
  let opts := template_opts title template_options in
  let state :=
    if all_states then None else Some (dependency_state widgets drop_defaults) in
  let snippet :=
    offline_snippet prefix (font_awesome_folder "4.7.0") (requirejs_filename "2.3.4")
      (embed_snippet widgets (prefix +:+ embed_js_filename html_manager_version)
         false drop_defaults state) in
  exists t head pre post,
    opts !! "title" = Some t /\ opts !! "extra_script_head" = Some head
    /\ opts !! "body_pre" = Some pre /\ opts !! "body_post" = Some post
    /\ bundled_page' prefix widgets title all_states drop_defaults html_template
         template_options
       = Ok (html_page t head pre snippet post).
Proof.
  cbv zeta.
  assert (forall k, k ∈ ["title"; "extra_script_head"; "body_pre"; "body_post"] ->
            is_Some (template_opts title template_options !! k)) as Hkeys.
  { intros k Hk. apply dict_update_is_Some.
    repeat (apply elem_of_cons in Hk as [->|Hk]; [by eexists|]).
    by apply elem_of_nil in Hk. }
  destruct (Hkeys "title") as [t Ht]; [elem_solver|].
  destruct (Hkeys "extra_script_head") as [head Hh]; [elem_solver|].
  destruct (Hkeys "body_pre") as [pre Hp]; [elem_solver|].
  destruct (Hkeys "body_post") as [post Hq]; [elem_solver|].
  exists t, head, pre, post. split_and!; [done..|].
  unfold bundled_page. cbv zeta. apply html_template_format.
  - by rewrite lookup_insert_ne.
  - by rewrite lookup_insert_ne.
  - by rewrite lookup_insert_ne.
  - by rewrite lookup_insert_eq.
  - by rewrite lookup_insert_ne.
Qed.

Lemma fetched_app (t1 t2 : list event) : fetched (t1 ++ t2) = fetched t1 ++ fetched t2.
Proof. apply omap_app. Qed.

Lemma fetched_offline (evs : list event) : Forall offline evs -> fetched evs = [].
Proof.
  induction 1 as [|e evs He _ IH]; [done|].
  unfold fetched in *. cbn [omap list_omap]. rewrite IH.
  unfold offline in He. by destruct e.
Qed.

(** Whatever its outcome, [save_ipyvolumejs] requests nothing or the one
    address of the script, and the latter when [devmode] is unset. *)
Lemma save_ipyvolumejs_fetched folder version devmode w :
  exists evs,
    trace (save_ipyvolumejs' folder version devmode w).2 = trace w ++ evs
    /\ (fetched evs = [] \/ fetched evs = [ipyvolumejs_url version])
    /\ (devmode = false -> fetched evs = [ipyvolumejs_url version]).
Proof.
  unfold save_ipyvolumejs. cbv zeta. rewrite bind_run, path_exists_run.
  destruct (devmode && _)%bool eqn:Hdev.
  - match goal with
    | |- context [(?m ≫= ?f) w] =>
        assert (quiet (m ≫= f)) as Hq
    end.
    { apply emits_bind.
      - apply emits_bind; [apply emits_path_exists | intros ex].
        apply emits_bind; [| intros _; apply quiet_copy].
        destruct (negb _ && negb ex)%bool; [apply quiet_makedirs | apply emits_ret].
      - intros _. apply emits_bind; [apply quiet_copy | intros _; apply emits_ret]. }
    destruct (Hq w) as (evs & Ht & Hevs). exists evs.
    rewrite (fetched_offline evs Hevs). split_and!; [done | by left |].
    intros ->. done.
  - rewrite bind_run.
    destruct (download_to_file_trace (ipyvolumejs_url version)
                (join folder "ipyvolume.js") w) as (evs & Ht & Hevs).
    destruct (download_to_file _ _ _ _ w) as [[[]|e] w1]; cbn [snd] in Ht.
    + assert (quiet (copy cwd (threejs cwd module_path)
                       (dirname (join folder "ipyvolume.js"))
                     ≫= fun _ => (mret "ipyvolume.js" : M string))) as Hq.
      { apply emits_bind; [apply quiet_copy | intros _; apply emits_ret]. }
      destruct (Hq w1) as (evs2 & Ht2 & Hevs2).
      exists (NetGet (ipyvolumejs_url version) :: evs ++ evs2).
      rewrite Ht2, Ht, <- app_assoc.
      assert (fetched (NetGet (ipyvolumejs_url version) :: evs ++ evs2)
              = [ipyvolumejs_url version]) as Hf.
      { change (NetGet (ipyvolumejs_url version) :: evs ++ evs2)
          with ([NetGet (ipyvolumejs_url version)] ++ (evs ++ evs2)).
        rewrite !fetched_app, (fetched_offline evs Hevs), (fetched_offline evs2 Hevs2).
        done. }
      split_and!; [done | by right | done].
    + exists (NetGet (ipyvolumejs_url version) :: evs).
      assert (fetched (NetGet (ipyvolumejs_url version) :: evs)
              = [ipyvolumejs_url version]) as Hf.
      { change (NetGet (ipyvolumejs_url version) :: evs)
          with ([NetGet (ipyvolumejs_url version)] ++ evs).
        by rewrite fetched_app, (fetched_offline evs Hevs). }
      split_and!; [done | by right | done].
Qed.
Lemma download_to_bytes_run url w :
  download_to_bytes net url w
  = match net url with
    | Some r => (Ok r, World (fs w) (trace w ++ [NetGet url]))
    | None => (Raise (URLError url), World (fs w) (trace w ++ [NetGet url]))
    end.
Proof. unfold download_to_bytes. rewrite bind_run. cbn. by destruct (net url). Qed.

(** Whatever its outcome, [save_font_awesome] does nothing when the folder
    is there, and otherwise begins with the request for the archive and
    makes no other. *)
Lemma save_font_awesome_fetched dirpath version w :
  exists evs,
    trace (save_font_awesome' dirpath version w).2 = trace w ++ evs
    /\ if bool_decide
            (is_Some (lookup_path cwd (fs w) (join dirpath (font_awesome_folder version))))
       then evs = []
       else exists evs', evs = NetGet (font_awesome_url version) :: evs'
                         /\ Forall offline evs'.
Proof.
  unfold save_font_awesome. cbv zeta. rewrite bind_run, path_exists_run.
  case_bool_decide as Hex.
  - exists []. by rewrite app_nil_r.
  - rewrite bind_run, download_to_bytes_run.
    destruct (net (font_awesome_url version)) as [[content encoding]|].
    + match goal with
      | |- context [(?m ≫= ?f) ?w1] => assert (quiet (m ≫= f)) as Hq
      end.
      { apply emits_bind.
        - apply emits_try; [apply quiet_unzip_content | intros e; apply emits_raise].
        - intros top. apply emits_bind; [by apply emits_rename | intros _; apply emits_ret]. }
      match goal with
      | |- context [(?m ≫= ?f) ?w1] => destruct (Hq w1) as (evs & Ht & Hevs)
      end.
      cbn [trace] in Ht.
      exists (NetGet (font_awesome_url version) :: evs). split; [|by eauto].
      rewrite Ht, <- app_assoc. done.
    + exists [NetGet (font_awesome_url version)]. split; [done | by eauto].
Qed.
Lemma resolve_Some p a : resolve cwd p = Some a -> a = abspath cwd p.
Proof. unfold resolve. destruct (String.eqb p ""); [done|]. by intros [= <-]. Qed.

(** X9.  What a bundled call that returns has done, in order.  It has
    made at most four requests: for [ipyvolume.js] (always when [devmode]
    is unset, never otherwise than first), for require.js 2.3.4, for the
    embedding script of the framework's version, and last for the icon
    font 4.7.0 unless its folder was there; the two versions are fixed by
    the code.  Its last effect is the writing of the page, after every
    asset is in place. *)
Theorem bundled_call_effects_in_order
    (filepath : string) (widgets : Widgets) (makedirs_ : bool) (title : string)
    (all_states : bool) (scripts_path : string) (drop_defaults : bool)
    (template : string) (template_options : list (string * string))
    (devmode : bool) (w w' : world) :
  isabs cwd = true ->
  embed_html' filepath widgets makedirs_ title all_states true true
    scripts_path drop_defaults template template_options devmode w
  = (Ok tt, w') ->
  exists evs first last,
    trace w' = trace w ++ evs ++ [WriteFile (abspath cwd filepath)]
    /\ fetched evs
       = first ++ [requirejs_url "2.3.4"; embed_js_url html_manager_version] ++ last
    /\ (first = [] \/ first = [ipyvolumejs_url version_js])
    /\ (devmode = false -> first = [ipyvolumejs_url version_js])
    /\ (last = [] \/ last = [font_awesome_url "4.7.0"]).
Proof.
  intros Hcwd Hrun.
  apply bundled_Ok in Hrun
    as (prefix & html & w0 & w1 & w2 & w3 & w4 & (evs0 & Ht0 & Hmk) & _ & _
        & Hipy & Hreq & Hemb & Hfa & _ & Hwrite); [|done].
  destruct (save_ipyvolumejs_fetched (dirname (abspath cwd filepath)) version_js
              devmode w0) as (evs1 & Ht1 & Hfirst & Hdev).
  rewrite Hipy in Ht1. cbn [snd] in Ht1.
  apply save_requirejs_Ok in Hreq as (_ & Hreq).
  apply download_to_file_Ok in Hreq
    as (? & ? & d2 & _ & _ & _ & (evs2 & Ht2 & Hoff2)).
  apply save_embed_js_Ok in Hemb as (_ & Hemb).
  apply download_to_file_Ok in Hemb
    as (? & ? & d3 & _ & _ & _ & (evs3 & Ht3 & Hoff3)).
  destruct (save_font_awesome_fetched
              (resolve_scripts_path filepath scripts_path) "4.7.0" w3)
    as (evs4 & Ht4 & Hlast).
  rewrite Hfa in Ht4. cbn [snd] in Ht4.
  apply store_Ok in Hwrite as (a & ->%resolve_Some & _ & Ht5).
  exists (evs0 ++ evs1
          ++ (NetGet (requirejs_url "2.3.4") :: evs2 ++ [WriteFile d2])
          ++ (NetGet (embed_js_url html_manager_version) :: evs3 ++ [WriteFile d3])
          ++ evs4),
    (fetched evs1), (fetched evs4).
  split_and!.
  - rewrite Ht5, Ht4, Ht3, Ht2, Ht1, Ht0. by rewrite <- !app_assoc.
  - rewrite !fetched_app.
    rewrite (fetched_offline evs0 (makedirs_are_offline _ Hmk)).
    change (NetGet (requirejs_url "2.3.4") :: evs2 ++ [WriteFile d2])
      with ([NetGet (requirejs_url "2.3.4")] ++ evs2 ++ [WriteFile d2]).
    change (NetGet (embed_js_url html_manager_version) :: evs3 ++ [WriteFile d3])
      with ([NetGet (embed_js_url html_manager_version)] ++ evs3 ++ [WriteFile d3]).
    rewrite !fetched_app, (fetched_offline evs2 Hoff2), (fetched_offline evs3 Hoff3).
    cbn. done.
  - destruct Hfirst as [-> | ->]; auto.
  - done.
  - case_bool_decide; [left; by subst|].
    destruct Hlast as (evs' & -> & Hoff). right.
    change (NetGet (font_awesome_url "4.7.0") :: evs')
      with ([NetGet (font_awesome_url "4.7.0")] ++ evs').
    by rewrite fetched_app, (fetched_offline evs' Hoff).
Qed.

(** X10.  When the folder of the icon font is not there, the first thing
    [save_font_awesome] does is to request the archive, over plain HTTP,
    and it makes no other request, whatever its outcome.  The download is
    outside the [try] block: an error of the download is passed on as it
    is, not turned into the [IOError] of a failed extraction. *)
Theorem font_awesome_download_is_not_wrapped (dirpath version : string) (w : world) :
  lookup_path cwd (fs w) (join dirpath (font_awesome_folder version)) = None ->
  let run := save_font_awesome' dirpath version w in
  let url := "http://fontawesome.io/assets/font-awesome-" +:+ version +:+ ".zip" in
  (exists evs, trace run.2 = trace w ++ NetGet url :: evs /\ requests evs = 0)
  /\ forall e w1, download_to_bytes net url w = (Raise e, w1) -> run = (Raise e, w1).
Proof.
  intros Hnew. cbv zeta. fold (font_awesome_url version). split.
  - destruct (save_font_awesome_fetched dirpath version w) as (evs & Ht & Hevs).
    rewrite bool_decide_eq_false_2 in Hevs by (rewrite Hnew; by intros [? ?]).
    destruct Hevs as (evs' & -> & Hoff).
    exists evs'. by rewrite (offline_requests evs' Hoff).
  - intros e w1 Hdl. unfold save_font_awesome. cbv zeta.
    rewrite bind_run, path_exists_run.
    rewrite bool_decide_eq_false_2 by (rewrite Hnew; by intros [? ?]).
    by rewrite bind_run, Hdl.
Qed.

(** X11.  An archive without members: reading the name of its first
    member fails, and [save_font_awesome] raises the [IOError] of a failed
    extraction, whose cause is the index error of the empty list.  Nothing
    has been extracted: the disk is as it was. *)
Theorem empty_archive_is_io_error
    (dirpath version content encoding : string) (w : world) :
  lookup_path cwd (fs w) (join dirpath (font_awesome_folder version)) = None ->
  net (font_awesome_url version) = Some (content, encoding) ->
  zip_open content = Ok [] ->
  save_font_awesome' dirpath version w
  = (Raise (IOError ("Could not unzip content from: "
                     +:+ font_awesome_url version +:+ nl
                     +:+ "list index out of range")),
     World (fs w) (trace w ++ [NetGet (font_awesome_url version)])).
Proof.
  intros Hnew Hnet Hzip. unfold save_font_awesome. cbv zeta.
  rewrite bind_run, path_exists_run.
  rewrite bool_decide_eq_false_2 by (rewrite Hnew; by intros [? ?]).
  rewrite bind_run, download_to_bytes_run, Hnet. cbv beta iota.
  rewrite bind_run. unfold try_except, unzip_content.
  rewrite bind_lift, Hzip. reflexivity.
Qed.

Lemma rename_moves src dst w w1 :
  rename cwd src dst w = (Ok tt, w1) ->
  exists n, lookup_path cwd (fs w) src = Some n
            /\ lookup_path cwd (fs w1) dst = Some n.
Proof.
  unfold rename, lookup_path. rewrite bind_run. cbn [get_fs fst snd].
  destruct (resolve cwd src) as [s|]; [|done].
  destruct (resolve cwd dst) as [d|]; [|by destruct (fs w !! s)].
  cbn [mbind option_bind].
  destruct (fs w !! s) as [n|] eqn:Hs; [|done].
  destruct (String.eqb_spec s d) as [->|Hsd].
  { intros [= <-]. by exists n. }
  destruct (below s d); [done|].
  destruct (fs w !! dirname d) as [[|?]|]; [|done|done].
  intros Hrun. exists n. split; [done|].
  destruct n, (fs w !! d) as [[|?]|]; try done;
    (case_bool_decide; [|done]); injection Hrun as <-; cbn [fs];
    by rewrite lookup_insert_eq.
Qed.

(** X12.  The folder [save_font_awesome] produces is whatever stands,
    after the extraction, at the stored name of the first member of the
    archive joined to [dirpath]: that entry is renamed to
    [font-awesome-<version>].  The code does not check that it is the
    top-level directory of the archive, or a directory at all. *)
Theorem font_awesome_folder_is_first_member
    (dirpath version name : string) (w w' : world) :
  lookup_path cwd (fs w) (join dirpath (font_awesome_folder version)) = None ->
  save_font_awesome' dirpath version w = (Ok name, w') ->
  exists content encoding member data rest w1 n,
    net (font_awesome_url version) = Some (content, encoding)
    /\ zip_open content = Ok ((member, data) :: rest)
    /\ extractall cwd dirpath ((member, data) :: rest)
         (World (fs w) (trace w ++ [NetGet (font_awesome_url version)]))
       = (Ok tt, w1)
    /\ lookup_path cwd (fs w1) (join dirpath member) = Some n
    /\ lookup_path cwd (fs w') (join dirpath (font_awesome_folder version)) = Some n.
Proof.
  intros Hnew. unfold save_font_awesome. cbv zeta.
  rewrite bind_run, path_exists_run.
  rewrite bool_decide_eq_false_2 by (rewrite Hnew; by intros [? ?]).
  rewrite bind_run, download_to_bytes_run.
  destruct (net (font_awesome_url version)) as [[content encoding]|]; [|done].
  cbv beta iota. intros Hrun.
  apply bind_Ok_inv in Hrun as (top & w1 & Htry & Hrun).
  apply bind_Ok_inv in Hrun as ([] & w2 & Hren & [= <- <-]).
  unfold try_except in Htry.
  destruct (unzip_content _ _ _ _ _) as [[top'|e] w1'] eqn:Hunzip; [|done].
  injection Htry as -> ->.
  unfold unzip_content in Hunzip. rewrite bind_lift in Hunzip.
  destruct (zip_open content) as [[|[top' data] rest]|] eqn:Hzip; [done| |done].
  rewrite bind_ret in Hunzip.
  apply bind_Ok_inv in Hunzip as ([] & w1' & Hext & [= <- <-]).
  apply rename_moves in Hren as (n & Hsrc & Hdst).
  by exists content, encoding, top', data, rest, w1', n.
Qed.



(** X15.  A call with [offline=False] for a file [name] in a directory
    [dir] that returns leaves at [filepath] the page of the widget
    framework, written with [requirejs=True] and with no state when
    [all_states] is set.  The file must not itself be called [three.js]:
    the copy of the graphics runtime, made after the page is written,
    goes to that name in the same directory. *)
Theorem online_page_is_the_frameworks
    (dir name : string) (widgets : Widgets) (makedirs_ : bool)
    (title : string) (all_states offline_req : bool) (scripts_path : string)
    (drop_defaults : bool) (template : string)
    (template_options : list (string * string)) (devmode : bool)
    (w w' : world) :
  isabs cwd = true ->
  String.eqb dir "" = false ->
  (endswith_sep dir = true -> all_sep dir = true) ->
  is_name name = true ->
  name <> "three.js" ->
  embed_html' (join dir name) widgets makedirs_ title all_states false
    offline_req scripts_path drop_defaults template template_options devmode w
  = (Ok tt, w') ->
  lookup_path cwd (fs w') (join dir name)
  = Some (File (minimal_html widgets
                  (if all_states then None
                   else Some (dependency_state widgets drop_defaults))
                  true drop_defaults)).
Proof.
  intros Hcwd Hdir Hshape Hname Hother. unfold embed_html. cbv zeta.
  intros Hrun.
  apply ensure_dir_Ok in Hrun as (w0 & Hrun & _);
    [|by apply dirname_abspath_nonempty].
  cbn [negb] in Hrun.
  apply bind_Ok_inv in Hrun as ([] & w2 & Hwrite & Hcopy).
  pose proof Hwrite as (a & Ha & Hparent & _)%store_Ok_parent.
  apply store_Ok in Hwrite as (a' & Ha' & Hfs2 & _).
  rewrite Ha in Ha'. injection Ha' as <-.
  rewrite resolve_nonempty in Ha by (by apply join_name_nonempty).
  injection Ha as <-.
  rewrite dirname_abspath_join in Hparent by done.
  rewrite dirname_join in Hcopy by done.
  pose proof Hcopy as (s & d & _ & Hd & Ht3)%copy_dir_Ok.
  2:{ unfold lookup_path. rewrite resolve_nonempty; [done|]. intros ->. done. }
  apply copy_Ok in Hcopy as (s' & d' & c & _ & _ & _ & Hfs & Ht3').
  rewrite Ht3 in Ht3'. apply app_inv_head in Ht3'. injection Ht3' as <- <-.
  rewrite basename_threejs in Hd.
  rewrite resolve_nonempty in Hd by (by apply join_name_nonempty).
  injection Hd as <-.
  unfold lookup_path. rewrite resolve_nonempty by (by apply join_name_nonempty).
  cbn [mbind option_bind]. rewrite Hfs, Hfs2.
  rewrite lookup_insert_ne, lookup_insert_eq; [done|].
  rewrite !abspath_join by done. intros Heq'.
  apply (f_equal basename) in Heq'. rewrite !basename_join in Heq' by done.
  done.
Qed.

(** X16.  A template that names a placeholder for which the merged
    options have no value makes every bundled call fail, whatever the
    state of the disk and of the network: the page is rendered, and the
    error raised, only after the assets have been dealt with.  ([snippet]
    is always given a value by the call.) *)
Theorem template_with_missing_placeholder_never_exports
    (filepath : string) (widgets : Widgets) (makedirs_ : bool) (title : string)
    (all_states : bool) (scripts_path : string) (drop_defaults : bool)
    (template : string) (template_options : list (string * string))
    (devmode : bool) (k : string) (w : world) :
  isabs cwd = true ->
  k ∈ fields template -> k <> "snippet" ->
  template_opts title template_options !! k = None ->
  exists e w',
    embed_html' filepath widgets makedirs_ title all_states true true
      scripts_path drop_defaults template template_options devmode w
    = (Raise e, w').
Proof.
  intros Hcwd Hk Hsnippet Hnone.
  destruct (embed_html' filepath widgets makedirs_ title all_states true true
              scripts_path drop_defaults template template_options devmode w)
    as [[[]|e] w'] eqn:Hrun; [|by eauto].
  exfalso. apply bundled_Ok in Hrun
    as (prefix & html & _ & _ & _ & _ & _ & _ & _ & _ & _ & _ & _ & _ & Hpage & _);
    [|done].
  unfold bundled_page in Hpage. cbv zeta in Hpage.
  match type of Hpage with
  | str_format _ _ ?o = _ =>
      destruct (format_from_referenced format_field o (String.length template)
                  template Text k) as [e He]; [done | done | |]
  end.
  - by rewrite lookup_insert_ne.
  - unfold str_format in Hpage. congruence.
Qed.






End EmbedFacts.

(** ** The statements at work on the concrete environment *)






Lemma save_font_awesome_idempotent_witness :
  Example.save_font_awesome "out/scripts" "4.7.0" (World Example.cached_disk [])
  = (Ok "font-awesome-4.7.0", World Example.cached_disk []).
Proof.
  apply (proj1 (save_font_awesome_idempotent Example.cwd Example.net
                  Example.zip_open "out/scripts" "4.7.0"
                  (World Example.cached_disk []))).
  vm_compute. eauto.
Defined.

(** The answer to the 4.6.0 URL is no archive: the error of the archive
    reader comes back as an [IOError] naming the URL. *)
Lemma unzip_failure_is_io_error_witness :
  Example.save_font_awesome "out/scripts" "4.6.0" Example.start
  = (Raise (IOError ("Could not unzip content from: "
                     +:+ "http://fontawesome.io/assets/font-awesome-4.6.0.zip"
                     +:+ nl +:+ "File is not a zip file")),
     World Example.disk
       [NetGet "http://fontawesome.io/assets/font-awesome-4.6.0.zip"]).
Proof.
  apply (unzip_failure_is_io_error Example.cwd Example.net Example.zip_open
           "out/scripts" "4.6.0" "<html>404</html>" "utf-8"
           (ExternalError "BadZipFile" "File is not a zip file")
           Example.start
           (World Example.disk
              [NetGet "http://fontawesome.io/assets/font-awesome-4.6.0.zip"]));
    vm_compute; reflexivity.
Defined.

(** A template that asks for [author], which the options lack. *)
Lemma missing_placeholder_never_renders_witness :
  (exists e,
     str_format Example.format_field "<title>{title}</title> by {author}"
       (template_opts "IPyVolume Widget" default_template_options)
     = Raise e)
  /\ exists k',
       str_format Example.format_field "<title>{title}</title> by {author}"
         (template_opts "IPyVolume Widget" default_template_options)
       = Raise (KeyError k')
       /\ k' ∈ placeholders "<title>{title}</title> by {author}"
       /\ template_opts "IPyVolume Widget" default_template_options !! k' = None.
Proof.
  destruct (missing_placeholder_never_renders Example.format_field
              "<title>{title}</title> by {author}"
              (template_opts "IPyVolume Widget" default_template_options)
              "author") as [Hraises Hkey].
  - vm_compute. apply list_elem_of_further, list_elem_of_here.
  - vm_compute. reflexivity.
  - split; [exact Hraises|]. apply Hkey. left. vm_compute. reflexivity.
Defined.

(** C6 as it was stated fails: the template below refers to the
    placeholder [author], for which the mapping has no value, and the
    formatter raises an [IndexError], not a [KeyError]: the positional
    field before it is looked up first, and [template.format] is called
    with keyword arguments only. *)
Lemma positional_field_precedes_missing_placeholder :
  "author" ∈ fields "{0} by {author}"
  /\ template_opts "IPyVolume Widget" default_template_options !! "author" = None
  /\ str_format Example.format_field "{0} by {author}"
       (template_opts "IPyVolume Widget" default_template_options)
     = Raise (IndexError "tuple index out of range").
Proof.
  split_and!.
  - vm_compute. apply list_elem_of_here.
  - vm_compute. reflexivity.
  - vm_compute. reflexivity.
Qed.

(** The default template with the default options and a snippet. *)
Lemma rendering_is_deterministic_witness :
  exists html,
    str_format Example.format_field html_template
      (<["snippet" := "<script></script>"]>
         (template_opts "IPyVolume Widget" default_template_options))
    = Ok html
    /\ forall kwargs' : gmap string string,
         (forall k, k ∈ placeholders html_template ->
            kwargs' !! k =
              <["snippet" := "<script></script>"]>
                (template_opts "IPyVolume Widget" default_template_options) !! k) ->
         str_format Example.format_field html_template kwargs' = Ok html.
Proof.
  apply (rendering_is_deterministic Example.format_field html_template
           (<["snippet" := "<script></script>"]>
              (template_opts "IPyVolume Widget" default_template_options))).
  - vm_compute. reflexivity.
  - intros k Hk. vm_compute in Hk.
    repeat (apply elem_of_cons in Hk as [->|Hk]; [vm_compute; eauto|]).
    by apply elem_of_nil in Hk.
Defined.

(** Scripts next to the page: no prefix. *)
Lemma prefix_of_asset_urls_witness :
  script_prefix Example.cwd "out/page.html"
    (resolve_scripts_path "out/page.html" ".") Example.start
  = (Ok "", Example.start).
Proof.
  apply (proj1 (prefix_of_asset_urls Example.cwd Example.net Example.module_path
                  Example.version_js Example.html_manager_version
                  (list string) (list string) Example.dependency_state
                  Example.embed_snippet Example.minimal_html Example.zip_open
                  Example.format_field "out/page.html" "." eq_refl)).
  - vm_compute. discriminate.
  - vm_compute. reflexivity.
Defined.


(** A bundled export into [out], scripts in [out/scripts]. *)
Lemma assets_layout_witness :
  let run :=
    Example.embed_html "out/page.html" [] true "IPyVolume Widget" false true true
      "scripts" false html_template default_template_options false
      Example.start in
  exists evs three,
    trace run.2 = trace Example.start ++ evs
    /\ resolve Example.cwd (threejs Example.cwd Example.module_path) = Some three
    /\ (WriteFile "/home/user/out/ipyvolume.js" ∈ evs
        \/ exists dev, CopyFile dev "/home/user/out/ipyvolume.js" ∈ evs)
    /\ CopyFile three "/home/user/out/three.js" ∈ evs
    /\ WriteFile "/home/user/out/scripts/require.min.v2.3.4.js" ∈ evs
    /\ WriteFile "/home/user/out/scripts/embed-amd_v0.11.0.js" ∈ evs
    /\ is_Some (lookup_path Example.cwd (fs run.2) "out/scripts/font-awesome-4.7.0")
    /\ (abspath Example.cwd (join "out/scripts" "three.js")
        = abspath Example.cwd (join "/home/user/out" "three.js")
        <-> abspath Example.cwd "out/scripts" = abspath Example.cwd "/home/user/out").
Proof.
  cbv zeta.
  apply (proj1 (assets_layout Example.cwd Example.net Example.module_path
                  Example.version_js Example.html_manager_version
                  (list string) (list string) Example.dependency_state
                  Example.embed_snippet Example.minimal_html Example.zip_open
                  Example.format_field eq_refl)
           "out/page.html" [] true "IPyVolume Widget" false "scripts" false
           html_template default_template_options false Example.start).
  - vm_compute. discriminate.
  - vm_compute. reflexivity.
Defined.

(** C4 as it was stated fails in two ways.  With [scripts_path='.'] the
    scripts folder is the directory of the output file, and [three.js]
    lands in it.  And an online call for a bare file name writes the page,
    then fails to copy [three.js], which lands nowhere. *)
Lemma threejs_in_scripts_path_or_nowhere :
  let bundled :=
    Example.embed_html "out/page.html" [] true "IPyVolume Widget" false true true
      "." false html_template default_template_options false Example.start in
  let online :=
    Example.embed_html "page.html" [] true "IPyVolume Widget" false false true
      "scripts_folder" false html_template default_template_options false
      Example.start in
  (bundled.1 = Ok tt
   /\ abspath Example.cwd (resolve_scripts_path "out/page.html" ".")
      = "/home/user/out"
   /\ CopyFile "/site/ipyvolume/static/three.js" "/home/user/out/three.js"
        ∈ trace bundled.2
   /\ fs bundled.2 !! "/home/user/out/three.js" = Some (File "// three.js"))
  /\
  (online.1 = Raise (FileNotFoundError "")
   /\ trace online.2 = [WriteFile "/home/user/page.html"]
   /\ fs online.2 !! "/home/user/three.js" = None).
Proof.
  cbv zeta. split_and!; try (vm_compute; reflexivity).
  vm_compute. repeat first [apply list_elem_of_here | apply list_elem_of_further].
Qed.

(** ** The further properties on the concrete environment *)

Lemma scripts_folder_name_prefix_witness :
  resolve_scripts_path "out/page.html" "scripts_folder" = "out/scripts_folder"
  /\ script_prefix Example.cwd "out/page.html"
       (resolve_scripts_path "out/page.html" "scripts_folder") Example.start
     = (Ok "scripts_folder/", Example.start).
Proof.
  apply (scripts_folder_name_prefix Example.cwd "out/page.html" "scripts_folder"
           Example.start); vm_compute; reflexivity.
Defined.


Lemma empty_scripts_path_witness :
  script_prefix Example.cwd "out/page.html"
    (resolve_scripts_path "out/page.html" "") Example.start
  = (Ok "", Example.start)
  /\ exists w',
       Example.embed_html "page.html" [] true "IPyVolume Widget" false true true
         "" false html_template default_template_options false Example.start
       = (Raise (ValueError "no path specified"), w')
       /\ requests (trace w') = requests (trace Example.start)
       /\ files (fs w') = files (fs Example.start).
Proof.
  destruct (empty_scripts_path Example.cwd Example.net
              Example.module_path Example.version_js Example.html_manager_version
              (list string) (list string) Example.dependency_state
              Example.embed_snippet Example.minimal_html Example.zip_open
              Example.format_field eq_refl) as [Hdir Hbare].
  split.
  - apply Hdir. vm_compute. discriminate.
  - apply Hbare. vm_compute. reflexivity.
Defined.

Lemma bundled_call_effects_in_order_witness :
  let run :=
    Example.embed_html "out/page.html" [] true "IPyVolume Widget" false true true
      "scripts" false html_template default_template_options false
      Example.start in
  exists evs first last,
    trace run.2 = trace Example.start ++ evs ++ [WriteFile "/home/user/out/page.html"]
    /\ fetched evs
       = first ++ [requirejs_url "2.3.4"; embed_js_url Example.html_manager_version]
         ++ last
    /\ (first = [] \/ first = [ipyvolumejs_url Example.version_js])
    /\ (false = false -> first = [ipyvolumejs_url Example.version_js])
    /\ (last = [] \/ last = [font_awesome_url "4.7.0"]).
Proof.
  cbv zeta.
  apply (bundled_call_effects_in_order Example.cwd Example.net
           Example.module_path Example.version_js Example.html_manager_version
           (list string) (list string) Example.dependency_state
           Example.embed_snippet Example.minimal_html Example.zip_open
           Example.format_field "out/page.html" [] true "IPyVolume Widget" false
           "scripts" false html_template default_template_options false
           Example.start);
    vm_compute; reflexivity.
Defined.

Lemma font_awesome_download_is_not_wrapped_witness :
  let run := Example.save_font_awesome "out/scripts" "9.9.9" Example.start in
  let url := "http://fontawesome.io/assets/font-awesome-9.9.9.zip" in
  (exists evs, trace run.2 = trace Example.start ++ NetGet url :: evs
               /\ requests evs = 0)
  /\ forall e w1,
       download_to_bytes Example.net url Example.start = (Raise e, w1) ->
       run = (Raise e, w1).
Proof.
  apply (font_awesome_download_is_not_wrapped Example.cwd Example.net
           Example.zip_open "out/scripts" "9.9.9" Example.start).
  vm_compute. reflexivity.
Defined.

Lemma empty_archive_is_io_error_witness :
  save_font_awesome Example.cwd Example.net Example.empty_zip
    "out/scripts" "4.7.0" Example.start
  = (Raise (IOError ("Could not unzip content from: "
                     +:+ "http://fontawesome.io/assets/font-awesome-4.7.0.zip"
                     +:+ nl +:+ "list index out of range")),
     World Example.disk
       [NetGet "http://fontawesome.io/assets/font-awesome-4.7.0.zip"]).
Proof.
  apply (empty_archive_is_io_error Example.cwd Example.net Example.empty_zip
           "out/scripts" "4.7.0" "PK-font-awesome" "binary" Example.start);
    vm_compute; reflexivity.
Defined.

Lemma font_awesome_folder_is_first_member_witness :
  let run := Example.save_font_awesome "out/scripts" "4.7.0" Example.start in
  exists content encoding member data rest w1 n,
    Example.net (font_awesome_url "4.7.0") = Some (content, encoding)
    /\ Example.zip_open content = Ok ((member, data) :: rest)
    /\ extractall Example.cwd "out/scripts" ((member, data) :: rest)
         (World (fs Example.start)
            (trace Example.start ++ [NetGet (font_awesome_url "4.7.0")]))
       = (Ok tt, w1)
    /\ lookup_path Example.cwd (fs w1) (join "out/scripts" member) = Some n
    /\ lookup_path Example.cwd (fs run.2)
         (join "out/scripts" (font_awesome_folder "4.7.0")) = Some n.
Proof.
  cbv zeta.
  apply (font_awesome_folder_is_first_member Example.cwd Example.net
           Example.zip_open "out/scripts" "4.7.0" "font-awesome-4.7.0"
           Example.start);
    vm_compute; reflexivity.
Defined.



Lemma online_page_is_the_frameworks_witness :
  let run :=
    Example.embed_html "out/page.html" [] true "IPyVolume Widget" false false true
      "scripts_folder" false html_template default_template_options false
      Example.start in
  lookup_path Example.cwd (fs run.2) "out/page.html"
  = Some (File "<html>minimal</html>").
Proof.
  cbv zeta.
  apply (online_page_is_the_frameworks Example.cwd Example.net
           Example.module_path Example.version_js Example.html_manager_version
           (list string) (list string) Example.dependency_state
           Example.embed_snippet Example.minimal_html Example.zip_open
           Example.format_field "out" "page.html" [] true "IPyVolume Widget" false
           true "scripts_folder" false html_template default_template_options
           false Example.start);
    first [ discriminate | vm_compute; first [reflexivity | discriminate] ].
Defined.

Lemma template_with_missing_placeholder_never_exports_witness :
  exists e w',
    Example.embed_html "out/page.html" [] true "IPyVolume Widget" false true true
      "scripts" false "<title>{title}</title> by {author}"
      default_template_options false Example.start
    = (Raise e, w').
Proof.
  apply (template_with_missing_placeholder_never_exports Example.cwd Example.net
           Example.module_path Example.version_js Example.html_manager_version
           (list string) (list string) Example.dependency_state
           Example.embed_snippet Example.minimal_html Example.zip_open
           Example.format_field "out/page.html" [] true "IPyVolume Widget" false
           "scripts" false "<title>{title}</title> by {author}"
           default_template_options false "author" Example.start).
  - reflexivity.
  - vm_compute. apply list_elem_of_further, list_elem_of_here.
  - discriminate.
  - vm_compute. reflexivity.
Defined.


Lemma online_bare_filename_never_places_threejs_witness :
  exists e w' evs,
    Example.embed_html "page.html" [] true "IPyVolume Widget" false false true
      "scripts_folder" false html_template default_template_options false
      Example.start
    = (Raise e, w')
    /\ trace w' = trace Example.start ++ evs
    /\ forall s d, CopyFile s d ∉ evs.
Proof.
  apply (online_bare_filename_never_places_threejs Example.cwd Example.net
           Example.module_path Example.version_js Example.html_manager_version
           (list string) (list string) Example.dependency_state
           Example.embed_snippet Example.minimal_html Example.zip_open
           Example.format_field "page.html" [] true "IPyVolume Widget" false
           true "scripts_folder" false html_template default_template_options
           false Example.start);
    vm_compute; reflexivity.
Defined.
